(** * Student DB management: enrollment and identity assignment

    A shallow embedding of [main.py] (utilities, the [Storage] layer over
    the SQLite tables [meta] and [students], and the [StudentDB] business
    logic), followed by the properties of the enrollment engine.

    Conventions of the embedding.
    - Python [str] values are Rocq [string]s; the case and whitespace
      functions are the ASCII restrictions of [str.upper], [str.lower] and
      [str.strip] (code points below 128).
    - Python [int] is [Z]; row counts are [nat].
    - A method that may raise is a function from the store to a result and
      a store: the store is threaded through a failure too, because every
      [Storage] method commits on its own.
    - [uuid.uuid4().hex] is an explicit argument, and SHA-256 is a section
      variable. *)

From Stdlib Require Import String Ascii List ZArith Lia Bool Arith.
From Stdlib Require Import DecimalString DecimalNat DecimalZ Decimal.
Import ListNotations.

Local Open Scope nat_scope.
Local Open Scope list_scope.
Local Open Scope string_scope.

(* ------------------------------------------------------------------ *)
(** ** Python string primitives (ASCII) *)

Module Py.

(** [str.isspace] on one character: TAB, LF, VT, FF, CR, FS, GS, RS, US
    and the space. *)
Definition isspace (c : ascii) : bool :=
  let n := nat_of_ascii c in
  (((9 <=? n) && (n <=? 13)) || ((28 <=? n) && (n <=? 32)))%nat.

Definition upper_char (c : ascii) : ascii :=
  let n := nat_of_ascii c in
  if ((97 <=? n) && (n <=? 122))%nat then ascii_of_nat (n - 32) else c.

Definition lower_char (c : ascii) : ascii :=
  let n := nat_of_ascii c in
  if ((65 <=? n) && (n <=? 90))%nat then ascii_of_nat (n + 32) else c.

Fixpoint smap (f : ascii -> ascii) (s : string) : string :=
  match s with
  | EmptyString => EmptyString
  | String c r => String (f c) (smap f r)
  end.

Definition upper (s : string) : string := smap upper_char s.
Definition lower (s : string) : string := smap lower_char s.

Fixpoint lstrip (s : string) : string :=
  match s with
  | EmptyString => EmptyString
  | String c r => if isspace c then lstrip r else s
  end.

Fixpoint rstrip (s : string) : string :=
  match s with
  | EmptyString => EmptyString
  | String c r =>
      match rstrip r with
      | EmptyString => if isspace c then EmptyString else String c EmptyString
      | r' => String c r'
      end
  end.

Definition strip (s : string) : string := rstrip (lstrip s).

(** [s[:n]] *)
Fixpoint take (n : nat) (s : string) : string :=
  match n, s with
  | S k, String c r => String c (take k r)
  | _, _ => EmptyString
  end.

(** [str(n)] for a non-negative count. *)
Definition str_nat (n : nat) : string :=
  NilEmpty.string_of_uint (Nat.to_uint n).

(** [str(v)] for an [int]. *)
Definition str (v : Z) : string :=
  NilZero.string_of_int (Z.to_int v).

(** [int(s)]: [None] where Python raises [ValueError]. *)
Definition int (s : string) : option Z :=
  match NilZero.int_of_string s with
  | Some d => Some (Z.of_int d)
  | None => None
  end.

(** [f"{n:02d}"] for a non-negative [n]. *)
Definition fmt02 (n : nat) : string :=
  if (n <? 10)%nat then "0" ++ str_nat n else str_nat n.

(** Truthiness of a [str]. *)
Definition truthy (s : string) : bool :=
  match s with EmptyString => false | _ => true end.

End Py.

(* ------------------------------------------------------------------ *)
(** ** Constants *)

Definition COLLEGE_DOMAIN : string := "college.edu".
Definition MAX_PER_DIVISION : nat := 70.
Definition DIVISIONS : list string := ["1"; "2"; "3"].

(* ------------------------------------------------------------------ *)
(** ** Values, dictionaries, exceptions *)

(** The values an [updates] dictionary or the [extra] argument carries: a
    [str], or a JSON container (a [dict] or a [list]) given by the text
    [json.dumps] renders it to. *)
Inductive pyval : Type :=
| PStr (s : string)
| PObj (dumped : string).

(** A Python [dict] with [str] keys, in insertion order. *)
Definition dict (V : Type) : Type := list (string * V).

Fixpoint dict_lookup {V} (d : dict V) (k : string) : option V :=
  match d with
  | [] => None
  | (k', v) :: r => if String.eqb k' k then Some v else dict_lookup r k
  end.

(** [d.get(k, dflt)] *)
Definition dict_get {V} (d : dict V) (k : string) (dflt : V) : V :=
  match dict_lookup d k with Some v => v | None => dflt end.

(** [d[k] = v]: overwrite in place, or append a new key. *)
Fixpoint dict_set {V} (d : dict V) (k : string) (v : V) : dict V :=
  match d with
  | [] => [(k, v)]
  | (k', v') :: r =>
      if String.eqb k' k then (k', v) :: r else (k', v') :: dict_set r k v
  end.

(** [k in d] *)
Definition dict_mem {V} (d : dict V) (k : string) : bool :=
  match dict_lookup d k with Some _ => true | None => false end.

(** The exceptions the modelled code raises.  The four [sqlite3] classes
    stand for what [cur.execute] raises; [ProgrammingError] is the class
    raised for a parameter of an unsupported type (from Python 3.11 on;
    [sqlite3.InterfaceError] before). *)
Inductive exn : Type :=
| ValueError (msg : string)
| PermissionError (msg : string)
| AttributeError
| IntegrityError
| OperationalError
| ProgrammingError.

Inductive result (A : Type) : Type :=
| Ok (a : A)
| Raise (e : exn).
Arguments Ok {A} a.
Arguments Raise {A} e.

(* ------------------------------------------------------------------ *)
(** ** [json.dumps] of a [str] *)

Module Json.

Definition quote : ascii := "034"%char.
Definition backslash : ascii := "092"%char.

Definition hex_digit (n : nat) : ascii :=
  if (n <? 10)%nat then ascii_of_nat (48 + n) else ascii_of_nat (87 + n).

(** One character under [ensure_ascii]. *)
Definition escape_char (c : ascii) : string :=
  let n := nat_of_ascii c in
  if (n =? 34)%nat then String backslash (String quote EmptyString)
  else if (n =? 92)%nat then String backslash (String backslash EmptyString)
  else if (n =? 8)%nat then "\b"
  else if (n =? 12)%nat then "\f"
  else if (n =? 10)%nat then "\n"
  else if (n =? 13)%nat then "\r"
  else if (n =? 9)%nat then "\t"
  else if ((32 <=? n) && (n <=? 126))%nat then String c EmptyString
  else "\u00" ++ String (hex_digit (n / 16))
                        (String (hex_digit (n mod 16)) EmptyString).

Fixpoint escape (s : string) : string :=
  match s with
  | EmptyString => EmptyString
  | String c r => escape_char c ++ escape r
  end.

Definition dumps_str (s : string) : string :=
  String quote (escape s) ++ String quote EmptyString.

(** [json.dumps(v)] *)
Definition dumps (v : pyval) : string :=
  match v with
  | PStr s => dumps_str s
  | PObj j => j
  end.

End Json.

(* ------------------------------------------------------------------ *)
(** ** The store: tables [meta] and [students] *)

(** A row of [students]; every column is TEXT. *)
Record student : Type := mkStudent {
  prn : string;
  class_roll : string;
  username : string;
  salt : string;
  pw_hash : string;
  first_name : string;
  last_name : string;
  branch : string;
  division : string;
  email : string;
  extra : string
}.

(** [next_prn] is the integer the row [('next_prn', value)] of [meta]
    holds as text; [students] lists the rows in insertion order. *)
Record Storage : Type := mkStorage {
  next_prn : Z;
  students : list student
}.

(** The store [_init_schema] creates. *)
Definition init_storage : Storage :=
  {| next_prn := 1001; students := [] |}.

(** Computations over the store that may raise. *)
Definition M (A : Type) : Type := Storage -> result A * Storage.

Definition ret {A} (a : A) : M A := fun st => (Ok a, st).
Definition raise {A} (e : exn) : M A := fun st => (Raise e, st).
Definition bind {A B} (m : M A) (k : A -> M B) : M B :=
  fun st =>
    match m st with
    | (Ok a, st') => k a st'
    | (Raise e, st') => (Raise e, st')
    end.

Notation "x <- m ;; k" := (bind m (fun x => k))
  (at level 61, m at next level, right associativity).
Notation "m ;;; k" := (bind m (fun _ => k))
  (at level 61, right associativity).

(* ------------------------------------------------------------------ *)
(** ** Utilities *)

Definition validate_nonempty (s name : string) : result string :=
  if negb (Py.truthy s) || negb (Py.truthy (Py.strip s))
  then Raise (ValueError (name ++ " cannot be empty."))
  else Ok (Py.strip s).

Definition lift {A} (r : result A) : M A := fun st => (r, st).

Definition branch_code (branch : string) : string :=
  let b := Py.upper (Py.strip branch) in
  let code := Py.upper (Py.take 2 b) in
  if (String.length code <? 2)%nat then Py.take 2 (code ++ "X") else code.

(* ------------------------------------------------------------------ *)
(** ** [class Storage] *)

(** The value column of [meta] holds [str] of an integer, which the
    method parses, increments and writes back. *)
Definition get_next_prn : M string :=
  fun st =>
    let v := next_prn st in
    (Ok (Py.str v), {| next_prn := (v + 1)%Z; students := students st |}).

(** [INSERT INTO students]: the PRIMARY KEY and the two UNIQUE columns
    reject a duplicate. *)
Definition insert_student (s : student) : M unit :=
  fun st =>
    if existsb (fun r => String.eqb (prn r) (prn s)
                         || String.eqb (class_roll r) (class_roll s)
                         || String.eqb (username r) (username s))
               (students st)
    then (Raise IntegrityError, st)
    else (Ok tt, {| next_prn := next_prn st;
                    students := (students st ++ [s])%list |}).

(** [SET k = v] on one row; [None] when [k] names no column. *)
Definition set_column (k v : string) (r : student) : option student :=
  let 'mkStudent p cr u sa ph fn ln b d e x := r in
  if String.eqb k "prn" then Some (mkStudent v cr u sa ph fn ln b d e x)
  else if String.eqb k "class_roll" then Some (mkStudent p v u sa ph fn ln b d e x)
  else if String.eqb k "username" then Some (mkStudent p cr v sa ph fn ln b d e x)
  else if String.eqb k "salt" then Some (mkStudent p cr u v ph fn ln b d e x)
  else if String.eqb k "pw_hash" then Some (mkStudent p cr u sa v fn ln b d e x)
  else if String.eqb k "first_name" then Some (mkStudent p cr u sa ph v ln b d e x)
  else if String.eqb k "last_name" then Some (mkStudent p cr u sa ph fn v b d e x)
  else if String.eqb k "branch" then Some (mkStudent p cr u sa ph fn ln v d e x)
  else if String.eqb k "division" then Some (mkStudent p cr u sa ph fn ln b v e x)
  else if String.eqb k "email" then Some (mkStudent p cr u sa ph fn ln b d v x)
  else if String.eqb k "extra" then Some (mkStudent p cr u sa ph fn ln b d e v)
  else None.

Definition is_column (k : string) : bool :=
  existsb (String.eqb k)
    ["prn"; "class_roll"; "username"; "salt"; "pw_hash"; "first_name";
     "last_name"; "branch"; "division"; "email"; "extra"].

(** The value a row holds in column [k]. *)
Definition get_column (k : string) (r : student) : option string :=
  if String.eqb k "prn" then Some (prn r)
  else if String.eqb k "class_roll" then Some (class_roll r)
  else if String.eqb k "username" then Some (username r)
  else if String.eqb k "salt" then Some (salt r)
  else if String.eqb k "pw_hash" then Some (pw_hash r)
  else if String.eqb k "first_name" then Some (first_name r)
  else if String.eqb k "last_name" then Some (last_name r)
  else if String.eqb k "branch" then Some (branch r)
  else if String.eqb k "division" then Some (division r)
  else if String.eqb k "email" then Some (email r)
  else if String.eqb k "extra" then Some (extra r)
  else None.

(** The SET list applied to a row, left to right. *)
Fixpoint apply_sets (sets : list (string * string)) (r : student) : student :=
  match sets with
  | [] => r
  | (k, v) :: rest =>
      match set_column k v r with
      | Some r' => apply_sets rest r'
      | None => apply_sets rest r
      end
  end.

(** A parameter [sqlite3] can bind: a [str], not a [dict] or a [list]. *)
Definition bindable (v : pyval) : option string :=
  match v with PStr s => Some s | PObj _ => None end.

Fixpoint bind_all (sets : list (string * pyval)) : option (list (string * string)) :=
  match sets with
  | [] => Some []
  | (k, v) :: rest =>
      match bindable v, bind_all rest with
      | Some s, Some r => Some ((k, s) :: r)
      | _, _ => None
      end
  end.

(** [UPDATE students SET ... WHERE prn = ?].  An empty SET list or an
    unknown column fails when the statement is prepared, an unsupported
    parameter when it is bound, a UNIQUE conflict with another row when
    it runs; no matching row is a successful no-op.  [prn] is the primary
    key, so at most one row matches; a column the statement leaves alone
    cannot conflict in a table that satisfies its constraints.  A key
    stands for a column name: the callers, [edit_student] and
    [change_student_password], pass the names of columns only. *)
Definition sql_update_students (sets : list (string * pyval)) (p : string) : M unit :=
  fun st =>
    match sets with
    | [] => (Raise OperationalError, st)
    | _ =>
      if negb (forallb (fun kv => is_column (fst kv)) sets)
      then (Raise OperationalError, st)
      else
        match bind_all sets with
        | None => (Raise ProgrammingError, st)
        | Some bound =>
            match find (fun r => String.eqb (prn r) p) (students st) with
            | None => (Ok tt, st)
            | Some r =>
                let r' := apply_sets bound r in
                if existsb (fun o => String.eqb (prn o) (prn r')
                                     || String.eqb (class_roll o) (class_roll r')
                                     || String.eqb (username o) (username r'))
                           (filter (fun o => negb (String.eqb (prn o) p))
                                   (students st))
                then (Raise IntegrityError, st)
                else (Ok tt,
                      {| next_prn := next_prn st;
                         students :=
                           map (fun o => if String.eqb (prn o) p then r' else o)
                               (students st) |})
            end
        end
    end.

Definition update_student (p : string) (updates : dict pyval) : M unit :=
  let columns_values :=
    map (fun kv : string * pyval =>
           let (k, v) := kv in
           (k, if String.eqb k "extra" then PStr (Json.dumps v) else v))
        updates in
  sql_update_students columns_values p.

(** [Storage.delete_student] *)
Definition Storage_delete_student (p : string) : M unit :=
  fun st =>
    (Ok tt, {| next_prn := next_prn st;
               students := filter (fun r => negb (String.eqb (prn r) p))
                                  (students st) |}).

Definition find_student_by_prn (p : string) : M (option student) :=
  fun st => (Ok (find (fun r => String.eqb (prn r) p) (students st)), st).

Definition find_student_by_username (u : string) : M (option student) :=
  fun st => (Ok (find (fun r => String.eqb (username r) u) (students st)), st).

Definition find_student_by_class_roll (c : string) : M (option student) :=
  fun st => (Ok (find (fun r => String.eqb (class_roll r) c) (students st)), st).

(** [SELECT division, COUNT( * ) ... WHERE branch = ? GROUP BY division]:
    one pair per division that occurs among the rows.  The result is only
    read by key, so the order of the groups is immaterial. *)
Definition group_by_division (rows : list student) : list (string * nat) :=
  map (fun d => (d, count_occ string_dec (map division rows) d))
      (nodup string_dec (map division rows)).

Definition count_by_branch_division (b : string) : M (dict nat) :=
  fun st =>
    let res := map (fun d => (d, 0)) DIVISIONS in
    let rows := filter (fun r => String.eqb (branch r) (Py.upper b))
                       (students st) in
    (Ok (fold_left (fun res (g : string * nat) => dict_set res (fst g) (snd g))
                   (group_by_division rows) res),
     st).

(** The text SQLite's string functions see: a TEXT value up to its
    first NUL character. *)
Fixpoint c_string (s : string) : string :=
  match s with
  | EmptyString => EmptyString
  | String c r =>
      if Ascii.eqb c "000"%char then EmptyString else String c (c_string r)
  end.

(** The pattern matcher of SQLite's [LIKE] with its defaults, on ASCII
    text: [%] matches any run of characters, [_] any one character, and
    ASCII letters match without regard to case; there is no escape
    character. *)
Fixpoint sql_like (pat : string) (s : string) : bool :=
  match pat with
  | EmptyString => match s with EmptyString => true | _ => false end
  | String c pat' =>
      if Ascii.eqb c "%"%char then
        (fix any (t : string) : bool :=
           sql_like pat' t
           || match t with
              | EmptyString => false
              | String _ t' => any t'
              end) s
      else if Ascii.eqb c "_"%char then
        match s with
        | EmptyString => false
        | String _ s' => sql_like pat' s'
        end
      else
        match s with
        | EmptyString => false
        | String d s' =>
            Ascii.eqb (Py.upper_char c) (Py.upper_char d) && sql_like pat' s'
        end
  end.

(** SQLite's default limit on the length of a [LIKE] pattern. *)
Definition SQLITE_MAX_LIKE_PATTERN_LENGTH : Z := 50000.

(** [x LIKE pat]: pattern and text are both read up to their first
    NUL. *)
Definition sql_like_op (pat x : string) : bool :=
  sql_like (c_string pat) (c_string x).

(** [SELECT ... WHERE first_name LIKE ? OR last_name LIKE ?], rows in
    table order.  A pattern over the length limit is refused when [LIKE]
    is evaluated, which is at the first row: on an empty table the query
    returns no row and no error. *)
Definition search_students_by_name (name_fragment : string) : M (list student) :=
  fun st =>
    let like := "%" ++ name_fragment ++ "%" in
    if (SQLITE_MAX_LIKE_PATTERN_LENGTH <? Z.of_nat (String.length like))%Z
       && match students st with [] => false | _ :: _ => true end
    then (Raise OperationalError, st)
    else
      (Ok (filter (fun r => sql_like_op like (first_name r)
                            || sql_like_op like (last_name r))
                  (students st)),
       st).

(** A row of [teachers].  The table is apart from [students] and [meta]:
    the teacher methods read and write it alone, so it is threaded on its
    own. *)
Record teacher : Type := mkTeacher {
  t_username : string;
  t_salt : string;
  t_pw_hash : string;
  t_name : string;
  t_branch : string
}.

(** [INSERT INTO teachers]: [username] is the primary key. *)
Definition insert_teacher (t : teacher) (ts : list teacher)
  : result unit * list teacher :=
  if existsb (fun r => String.eqb (t_username r) (t_username t)) ts
  then (Raise IntegrityError, ts)
  else (Ok tt, (ts ++ [t])%list).

Definition find_teacher (u : string) (ts : list teacher) : option teacher :=
  find (fun r => String.eqb (t_username r) u) ts.

(* ------------------------------------------------------------------ *)
(** ** [class StudentDB] *)

Section StudentDB.

(** [hashlib.sha256(s.encode("utf-8")).hexdigest()] *)
Variable sha256_hexdigest : string -> string.

(** [hash_password]; [uuid4_hex] is the value [uuid.uuid4().hex] yields
    when no salt is given.  Returns [(salt, pw_hash)]. *)
Definition hash_password (uuid4_hex password : string) (salt0 : option string)
  : string * string :=
  let salt := match salt0 with None => uuid4_hex | Some s => s end in
  (salt, sha256_hexdigest (salt ++ password)).

Definition verify_password (password salt pw_hash : string) : bool :=
  String.eqb (sha256_hexdigest (salt ++ password)) pw_hash.

Definition _generate_prn : M string := get_next_prn.

Definition _assign_division (b : string) : M string :=
  counts <- count_by_branch_division b ;;
  match find (fun d => (dict_get counts d 0 <? MAX_PER_DIVISION)%nat) DIVISIONS with
  | Some d => ret d
  | None =>
      raise (ValueError
               "All divisions for this branch are full (3x70 = 210 students).")
  end.

Definition _generate_class_roll (b d : string) : M string :=
  counts <- count_by_branch_division b ;;
  let current := dict_get counts d 0 + 1 in
  if (MAX_PER_DIVISION <? current)%nat
  then raise (ValueError ("Division " ++ d ++ " in " ++ b ++ " already full."))
  else ret (branch_code b ++ d ++ Py.fmt02 current).

Definition _generate_email (first_name last_name prn branch : string) : string :=
  let uname := Py.lower first_name ++ "." ++ Py.lower last_name ++ "." ++ prn in
  uname ++ "@" ++ Py.lower branch ++ "." ++ COLLEGE_DOMAIN.

(** [extra or {}] *)
Definition extra_or_empty (extra : option pyval) : pyval :=
  match extra with
  | None => PObj "{}"
  | Some (PStr s) => if Py.truthy s then PStr s else PObj "{}"
  | Some (PObj j) =>
      if String.eqb j "{}" || String.eqb j "[]" then PObj "{}" else PObj j
  end.

(** Returns the row as [insert_student] stores it ([extra] dumped). *)
Definition register_student (uuid4_hex : string)
    (username password first_name last_name branch : string)
    (extra : option pyval) : M student :=
  username <- lift (validate_nonempty username "username") ;;
  let username := Py.lower username in
  found <- find_student_by_username username ;;
  match found with
  | Some _ => raise (ValueError "Username already exists for a student.")
  | None =>
      prn <- _generate_prn ;;
      let pw := hash_password uuid4_hex password None in
      division <- _assign_division branch ;;
      class_roll <- _generate_class_roll branch division ;;
      let email := _generate_email first_name last_name prn branch in
      let student :=
        {| prn := prn;
           class_roll := class_roll;
           username := username;
           salt := fst pw;
           pw_hash := snd pw;
           first_name := Py.strip first_name;
           last_name := Py.strip last_name;
           branch := Py.upper (Py.strip branch);
           division := division;
           email := email;
           extra := Json.dumps (extra_or_empty extra) |} in
      insert_student student ;;;
      ret student
  end.

(** [editor_branch and s["branch"].upper() != editor_branch.upper()] *)
Definition other_branch (editor_branch : option string) (s : student) : bool :=
  match editor_branch with
  | None => false
  | Some eb =>
      Py.truthy eb && negb (String.eqb (Py.upper (branch s)) (Py.upper eb))
  end.

Definition allowed (k : string) : bool :=
  existsb (String.eqb k) ["first_name"; "last_name"; "email"; "extra"; "branch"].

(** The loop that copies the allowed entries of [updates] into [applied]. *)
Definition collect_applied (updates : dict pyval) : dict pyval :=
  fold_left (fun applied (kv : string * pyval) =>
               if allowed (fst kv) then dict_set applied (fst kv) (snd kv)
               else applied)
            updates [].

Definition edit_student (p : string) (updates : dict pyval)
    (editor_branch : option string) : M (option student) :=
  s <- find_student_by_prn p ;;
  match s with
  | None => raise (ValueError "Student not found.")
  | Some s =>
      if other_branch editor_branch s
      then raise (PermissionError "You can only edit students of your branch.")
      else
        let applied := collect_applied updates in
        applied <-
          match dict_lookup applied "branch" with
          | Some (PStr b) =>
              let new_branch := Py.upper b in
              new_div <- _assign_division new_branch ;;
              new_roll <- _generate_class_roll new_branch new_div ;;
              ret (dict_set
                     (dict_set
                        (dict_set applied "branch" (PStr new_branch))
                        "division" (PStr new_div))
                     "class_roll" (PStr new_roll))
          | Some (PObj _) => raise AttributeError
          | None => ret applied
          end ;;
        let applied :=
          match dict_lookup applied "extra" with
          | Some (PObj j) => dict_set applied "extra" (PStr j)
          | _ => applied
          end in
        update_student p applied ;;;
        find_student_by_prn p
  end.

Definition delete_student (p : string) (editor_branch : option string) : M bool :=
  s <- find_student_by_prn p ;;
  match s with
  | None => raise (ValueError "Student not found.")
  | Some s =>
      if other_branch editor_branch s
      then raise (PermissionError "You can only delete students of your branch.")
      else Storage_delete_student p ;;; ret true
  end.

(** [student_register_flow]: the five [input] lines are arguments; a
    [Raise e] is the flow printing [Error: e]. *)
Definition student_register_flow (uuid4_hex : string)
    (in_username in_password in_first in_last in_branch : string) : M student :=
  uname <- lift (validate_nonempty in_username "username") ;;
  pw <- lift (validate_nonempty in_password "password") ;;
  fn <- lift (validate_nonempty in_first "first name") ;;
  ln <- lift (validate_nonempty in_last "last name") ;;
  b <- lift (validate_nonempty in_branch "branch") ;;
  register_student uuid4_hex uname pw fn ln b None.

(** What [student_login] and [get_student_profile] return: the row
    without [salt] and [pw_hash].  The [extra] entry is given by the JSON
    text handed to [json.loads] (the column, or ["{}"] when it is empty);
    the columns this code writes hold [json.dumps] output. *)
Record profile : Type := mkProfile {
  profile_prn : string;
  profile_class_roll : string;
  profile_username : string;
  profile_first_name : string;
  profile_last_name : string;
  profile_branch : string;
  profile_division : string;
  profile_email : string;
  profile_extra : string
}.

Definition sanitize (s : student) : profile :=
  {| profile_prn := prn s;
     profile_class_roll := class_roll s;
     profile_username := username s;
     profile_first_name := first_name s;
     profile_last_name := last_name s;
     profile_branch := branch s;
     profile_division := division s;
     profile_email := email s;
     profile_extra := if Py.truthy (extra s) then extra s else "{}" |}.

Definition student_login (username password : string) : M (option profile) :=
  let username := Py.lower (Py.strip username) in
  s <- find_student_by_username username ;;
  match s with
  | Some s =>
      if verify_password password (salt s) (pw_hash s)
      then ret (Some (sanitize s))
      else ret None
  | None => ret None
  end.

Definition get_student_profile (prn_or_class_roll : string) : M (option profile) :=
  by_prn <- find_student_by_prn prn_or_class_roll ;;
  s <- match by_prn with
       | Some s => ret (Some s)
       | None => find_student_by_class_roll prn_or_class_roll
       end ;;
  match s with
  | None => ret None
  | Some s => ret (Some (sanitize s))
  end.

Definition change_student_password (uuid4_hex : string)
    (username old_password new_password : string) : M bool :=
  s <- find_student_by_username (Py.lower (Py.strip username)) ;;
  match s with
  | None => raise (ValueError "Student not found.")
  | Some s =>
      if negb (verify_password old_password (salt s) (pw_hash s))
      then raise (ValueError "Old password incorrect.")
      else
        let pw := hash_password uuid4_hex new_password None in
        update_student (prn s)
          [("salt", PStr (fst pw)); ("pw_hash", PStr (snd pw))] ;;;
        ret true
  end.

(** The dictionary [branch_stats] returns. *)
Record stats : Type := mkStats {
  stats_total : nat;
  stats_counts : dict nat;
  stats_remaining : dict Z
}.

Definition branch_stats (b : string) : M stats :=
  counts <- count_by_branch_division b ;;
  let total := list_sum (map snd counts) in
  let remaining :=
    map (fun d => (d, (Z.of_nat MAX_PER_DIVISION
                       - Z.of_nat (dict_get counts d 0%nat))%Z))
        DIVISIONS in
  ret {| stats_total := total;
         stats_counts := counts;
         stats_remaining := remaining |}.

Definition search_by_name (fragment : string) : M (list student) :=
  search_students_by_name fragment.

(** What [teacher_register] and [teacher_login] return: the row without
    [salt] and [pw_hash]. *)
Record teacher_view : Type := mkTeacherView {
  tv_username : string;
  tv_name : string;
  tv_branch : string
}.

Definition teacher_sanitize (t : teacher) : teacher_view :=
  {| tv_username := t_username t; tv_name := t_name t; tv_branch := t_branch t |}.

Definition teacher_register (uuid4_hex : string)
    (username password name branch : string) (ts : list teacher)
  : result teacher_view * list teacher :=
  match validate_nonempty username "username" with
  | Raise e => (Raise e, ts)
  | Ok username =>
      let username := Py.lower username in
      match find_teacher username ts with
      | Some _ => (Raise (ValueError "Teacher username already exists."), ts)
      | None =>
          let pw := hash_password uuid4_hex password None in
          let t := {| t_username := username;
                      t_salt := fst pw;
                      t_pw_hash := snd pw;
                      t_name := Py.strip name;
                      t_branch := Py.upper (Py.strip branch) |} in
          match insert_teacher t ts with
          | (Raise e, ts') => (Raise e, ts')
          | (Ok _, ts') =>
              match find_teacher username ts' with
              | Some t => (Ok (teacher_sanitize t), ts')
              | None => (Raise AttributeError, ts')
              end
          end
      end
  end.

Definition teacher_login (username password : string) (ts : list teacher)
  : option teacher_view :=
  match find_teacher (Py.lower (Py.strip username)) ts with
  | Some t =>
      if verify_password password (t_salt t) (t_pw_hash t)
      then Some (teacher_sanitize t)
      else None
  | None => None
  end.

End StudentDB.

(* ------------------------------------------------------------------ *)
(** ** Auxiliary notions for the statements *)

(** A row of branch [b] in division [d]. *)
Definition in_division (b d : string) (r : student) : bool :=
  String.eqb (branch r) b && String.eqb (division r) d.

(** The live count of a (branch, division) pair. *)
Definition occupancy (st : Storage) (b d : string) : nat :=
  List.length (filter (in_division b d) (students st)).

(** A string that does not start with whitespace. *)
Definition no_lead (s : string) : Prop :=
  match s with
  | EmptyString => True
  | String c _ => Py.isspace c = false
  end.

Definition all_full_msg : string :=
  "All divisions for this branch are full (3x70 = 210 students).".

(** The row [register_student] assembles once PRN [p], division [d] and
    class roll [roll] are allocated. *)
Definition assembled (h : string -> string)
    (uuid4_hex u0 password first_name last_name b : string)
    (extra : option pyval) (p d roll : string) : student :=
  {| prn := p;
     class_roll := roll;
     username := Py.lower u0;
     salt := uuid4_hex;
     pw_hash := h (uuid4_hex ++ password);
     first_name := Py.strip first_name;
     last_name := Py.strip last_name;
     branch := Py.upper (Py.strip b);
     division := d;
     email := _generate_email first_name last_name p b;
     extra := Json.dumps (extra_or_empty extra) |}.

Definition conflicts (s r : student) : bool :=
  String.eqb (prn r) (prn s)
  || String.eqb (class_roll r) (class_roll s)
  || String.eqb (username r) (username s).

Definition bump (st : Storage) : Storage :=
  {| next_prn := (next_prn st + 1)%Z; students := students st |}.

Definition username_exists_msg : string :=
  "Username already exists for a student.".

Definition not_found_msg : string := "Student not found.".
Definition edit_denied_msg : string := "You can only edit students of your branch.".
Definition delete_denied_msg : string := "You can only delete students of your branch.".

(** [json.dumps] of a non-[str] [extra] entry, as [edit_student] does
    before the update. *)
Definition dump_extra (applied : dict pyval) : dict pyval :=
  match dict_lookup applied "extra" with
  | Some (PObj j) => dict_set applied "extra" (PStr j)
  | _ => applied
  end.

(** The parameters [update_student] binds. *)
Definition columns_values (updates : dict pyval) : list (string * pyval) :=
  map (fun kv : string * pyval =>
         let (k, v) := kv in
         (k, if String.eqb k "extra" then PStr (Json.dumps v) else v))
      updates.

(** The tail of [edit_student]: update, then read the row back. *)
Definition finish_edit (p : string) (applied : dict pyval) : M (option student) :=
  update_student p (dump_extra applied) ;;; find_student_by_prn p.

(** The entries a branch change adds to [applied]. *)
Definition with_branch (applied : dict pyval) (nb d roll : string) : dict pyval :=
  dict_set (dict_set (dict_set applied "branch" (PStr nb)) "division" (PStr d))
           "class_roll" (PStr roll).

(** The table after the row of PRN [p] is replaced by [r']. *)
Definition replace_row (p : string) (r' : student) (rows : list student)
  : list student :=
  map (fun o => if String.eqb (prn o) p then r' else o) rows.

(** The three kinds of calls on the service. *)
Inductive op : Type :=
| Register (uuid4_hex username password first_name last_name branch : string)
           (extra : option pyval)
| Edit (p : string) (updates : dict pyval) (editor_branch : option string)
| Delete (p : string) (editor_branch : option string).

(** The store a call leaves, whether it returns or raises. *)
Definition step (h : string -> string) (o : op) (st : Storage) : Storage :=
  match o with
  | Register uu u pw fn ln b x => snd (register_student h uu u pw fn ln b x st)
  | Edit p ups eb => snd (edit_student p ups eb st)
  | Delete p eb => snd (delete_student p eb st)
  end.

Definition run_ops (h : string -> string) (ops : list op) (st : Storage) : Storage :=
  fold_left (fun st o => step h o st) ops st.

(** The rolls a division of a branch can hold. *)
Definition division_rolls (b d : string) : list string :=
  map (fun k => branch_code b ++ d ++ Py.fmt02 k) (seq 1 MAX_PER_DIVISION).

(** The class roll of a row is built from its branch and division. *)
Definition roll_ok (r : student) : Prop :=
  In (class_roll r) (division_rolls (branch r) (division r)).

(** The invariant of the [students] table. *)
Record table_ok (st : Storage) : Prop := {
  prn_unique : NoDup (map prn (students st));
  roll_unique : NoDup (map class_roll (students st));
  rolls_ok : Forall roll_ok (students st)
}.

(** A text that is blank for [validate_nonempty]. *)
Definition blank (s : string) : Prop := Py.strip s = EmptyString.

(** The email of the specification: lower-cased first name, last name and
    branch around the PRN, under the institutional domain. *)
Definition derive_email_spec (first_name last_name prn branch : string) : string :=
  ((((((Py.lower first_name ++ ".") ++ Py.lower last_name) ++ ".") ++ prn)
     ++ "@") ++ Py.lower branch) ++ ".college.edu".

(** One round of the loop of [collect_applied]. *)
Definition collect_step (applied : dict pyval) (kv : string * pyval) : dict pyval :=
  if allowed (fst kv) then dict_set applied (fst kv) (snd kv) else applied.

(** The name [student_register_flow] reports: the first blank input. *)
Fixpoint first_blank (inputs : list (string * string)) : option string :=
  match inputs with
  | [] => None
  | (v, name) :: rest =>
      if Py.truthy (Py.strip v) then first_blank rest else Some name
  end.

(** Every stored PRN is the decimal text of an integer below the
    counter. *)
Definition prns_below_counter (st : Storage) : Prop :=
  Forall (fun r => exists v, prn r = Py.str v /\ (v < next_prn st)%Z)
         (students st).

(** The shape of a row that [register_student] and [edit_student]
    write. *)
Record row_wf (r : student) : Prop := {
  wf_branch_upper : Py.upper (branch r) = branch r;
  wf_division : In (division r) DIVISIONS;
  wf_username_lower : Py.lower (username r) = username r;
  wf_username_nonempty : username r <> EmptyString
}.

(** The invariant of the store under every mutating call. *)
Record store_ok (st : Storage) : Prop := {
  ok_table : table_ok st;
  ok_usernames : NoDup (map username (students st));
  ok_rows : Forall row_wf (students st);
  ok_prns : prns_below_counter st
}.

(** The mutating calls of [StudentDB] on the student table. *)
Inductive call : Type :=
| Call (o : op)
| ChangePassword (uuid4_hex username old_password new_password : string).

Definition call_step (h : string -> string) (c : call) (st : Storage) : Storage :=
  match c with
  | Call o => step h o st
  | ChangePassword uu u old new =>
      snd (change_student_password h uu u old new st)
  end.

Definition run_calls (h : string -> string) (cs : list call) (st : Storage)
  : Storage :=
  fold_left (fun st c => call_step h c st) cs st.

(** [needle] occurs in [s], ASCII letters compared without regard to
    case. *)
Definition contains_nocase (needle s : string) : Prop :=
  exists pre mid post,
    s = pre ++ mid ++ post /\ Py.upper mid = Py.upper needle.

(** The row after a password change. *)
Definition with_password (s : student) (new_salt new_hash : string) : student :=
  {| prn := prn s;
     class_roll := class_roll s;
     username := username s;
     salt := new_salt;
     pw_hash := new_hash;
     first_name := first_name s;
     last_name := last_name s;
     branch := branch s;
     division := division s;
     email := email s;
     extra := extra s |}.

(** The text of a value: the [str] itself, or the dumped container. *)
Definition text_of (v : pyval) : string :=
  match v with PStr t => t | PObj j => j end.

(* ------------------------------------------------------------------ *)
(** ** Concrete stores *)

(** A stand-in digest for the closed examples; no property below depends
    on the digest. *)
Definition toy_digest (s : string) : string := s.

(** [n] registrations into branch [b], with usernames [u1], [u2], ... *)
Definition enroll (b : string) (n : nat) : list op :=
  map (fun k => Register "5f1c" ("u" ++ Py.str_nat k) "pw" "Ann" "Lee" b None)
      (seq 1 n).

Definition store_after (ops : list op) : Storage :=
  run_ops toy_digest ops init_storage.


(** The same after the student of roll CS102 (PRN 1002) is deleted. *)
Definition st_middle_deleted : Storage :=
  store_after (enroll "CS" 3 ++ [Delete "1002" None])%list.


(** One student of branch CS. *)
Definition st_one : Storage := store_after (enroll "CS" 1).

(** Division 1 of CS one short of its capacity. *)
Definition st_69 : Storage := store_after (enroll "CS" 69).

(** Branch CS fully packed. *)
Definition st_full : Storage := store_after (enroll "CS" 210).

Definition old_password_msg : string := "Old password incorrect.".

(** The constraints of the [students] table: the primary key and the two
    UNIQUE columns. *)
Record keys_unique (st : Storage) : Prop := {
  uq_prn : NoDup (map prn (students st));
  uq_class_roll : NoDup (map class_roll (students st));
  uq_username : NoDup (map username (students st))
}.

(** A store with two students of branch CS and one of branch EE. *)
Definition st_mixed : Storage :=
  store_after
    [Register "5f1c" "Ann" "pw1" "Ann" "Lee" "cs" None;
     Register "5f1c" "bob" "pw2" "Bob" "Ray" "EE" None;
     Register "5f1c" "cy" "pw3" "Cy" "Lee" "CS" None].

(** The store after one registration into branch CSE. *)
Definition st_cse : Storage :=
  store_after [Register "5f1c" "eve" "pw" "Eve" "Ito" "CSE" None].

Definition teacher_exists_msg : string := "Teacher username already exists.".

(** A fragment without the [LIKE] wildcards. *)
Fixpoint no_wildcard (f : string) : bool :=
  match f with
  | EmptyString => true
  | String c f' =>
      negb (Ascii.eqb c "%"%char) && negb (Ascii.eqb c "_"%char) && no_wildcard f'
  end.

(** Case analysis on the tests of a column name against literals. *)
Ltac eqb_cases c :=
  repeat match goal with
         | |- context [String.eqb c ?x] =>
             let E := fresh "E" in
             destruct (String.eqb c x) eqn:E;
             [apply String.eqb_eq in E; subst c; simpl in *; try reflexivity;
              try discriminate|]
         end.

(* ------------------------------------------------------------------ *)
(** ** Dictionaries *)

Section DictFacts.
Context {V : Type}.

Lemma dict_lookup_set_same (d : dict V) k v :
  dict_lookup (dict_set d k v) k = Some v.
Proof.
  induction d as [|[k' v'] r IH]; simpl.
  - now rewrite String.eqb_refl.
  - destruct (String.eqb k' k) eqn:E; simpl; rewrite E; auto.
Qed.

Lemma dict_lookup_set_other (d : dict V) k k' v :
  k <> k' -> dict_lookup (dict_set d k v) k' = dict_lookup d k'.
Proof.
  intros Hne. induction d as [|[k0 v0] r IH]; simpl.
  - destruct (String.eqb k k') eqn:E; auto.
    apply String.eqb_eq in E. contradiction.
  - destruct (String.eqb k0 k) eqn:E; simpl.
    + apply String.eqb_eq in E. subst k0.
      destruct (String.eqb k k') eqn:E'; auto.
      apply String.eqb_eq in E'. contradiction.
    + now rewrite IH.
Qed.

Lemma fold_set_lookup_notin (gs : list (string * V)) (res : dict V) k :
  ~ In k (map fst gs) ->
  dict_lookup
    (fold_left (fun res (g : string * V) => dict_set res (fst g) (snd g)) gs res) k
  = dict_lookup res k.
Proof.
  revert res. induction gs as [|[k0 v0] gs IH]; intros res Hn; simpl; auto.
  rewrite IH.
  - apply dict_lookup_set_other. intro; subst. apply Hn. now left.
  - intro. apply Hn. now right.
Qed.

Lemma fold_set_lookup_in (gs : list (string * V)) (res : dict V) k v :
  NoDup (map fst gs) -> In (k, v) gs ->
  dict_lookup
    (fold_left (fun res (g : string * V) => dict_set res (fst g) (snd g)) gs res) k
  = Some v.
Proof.
  revert res. induction gs as [|[k0 v0] gs IH]; intros res Hnd Hin; simpl in *.
  - contradiction.
  - inversion Hnd as [|? ? Hnot Hnd']; subst.
    destruct Hin as [Heq|Hin].
    + inversion Heq; subst.
      rewrite fold_set_lookup_notin by assumption.
      apply dict_lookup_set_same.
    + now apply IH.
Qed.

End DictFacts.

(* ------------------------------------------------------------------ *)
(** ** Live counts *)

Lemma count_occ_filter_length (l : list string) (d : string) :
  count_occ string_dec l d = List.length (filter (fun x => String.eqb x d) l).
Proof.
  induction l as [|a l IH]; simpl; auto.
  destruct (string_dec a d) as [->|Hne].
  - rewrite String.eqb_refl. simpl. now rewrite IH.
  - destruct (String.eqb a d) eqn:E.
    + apply String.eqb_eq in E. contradiction.
    + exact IH.
Qed.

Lemma filter_map_division (rows : list student) (d : string) :
  List.length (filter (fun x => String.eqb x d) (map division rows))
  = List.length (filter (fun r => String.eqb (division r) d) rows).
Proof.
  induction rows as [|r rows IH]; simpl; auto.
  destruct (String.eqb (division r) d); simpl; now rewrite IH.
Qed.

Lemma filter_filter_length {A} (f g : A -> bool) (l : list A) :
  List.length (filter g (filter f l))
  = List.length (filter (fun x => f x && g x) l).
Proof.
  induction l as [|a l IH]; simpl; auto.
  destruct (f a); simpl; auto.
  destruct (g a); simpl; now rewrite IH.
Qed.

(** The dictionary [count_by_branch_division] returns, read with
    [counts.get(d, 0)], is the number of rows of the upper-cased branch in
    division [d]; the store is not touched. *)
Lemma count_by_branch_division_spec (b : string) (st : Storage) :
  exists counts,
    count_by_branch_division b st = (Ok counts, st) /\
    forall d, dict_get counts d 0 = occupancy st (Py.upper b) d.
Proof.
  unfold count_by_branch_division.
  eexists. split; [reflexivity|].
  intro d. unfold dict_get, occupancy, in_division.
  set (rows := filter (fun r => String.eqb (branch r) (Py.upper b)) (students st)).
  assert (Hocc : count_occ string_dec (map division rows) d
                 = List.length
                     (filter (fun r => String.eqb (branch r) (Py.upper b)
                                       && String.eqb (division r) d)
                             (students st))).
  { rewrite count_occ_filter_length, filter_map_division.
    unfold rows. apply filter_filter_length. }
  assert (Hkeys : map fst (group_by_division rows)
                  = nodup string_dec (map division rows)).
  { unfold group_by_division. rewrite map_map. simpl. apply map_id. }
  destruct (in_dec string_dec d (map division rows)) as [Hin|Hnin].
  - rewrite (fold_set_lookup_in _ _ d (count_occ string_dec (map division rows) d)).
    + exact Hocc.
    + rewrite Hkeys. apply NoDup_nodup.
    + unfold group_by_division.
      apply in_map_iff. exists d. split; auto.
      now apply nodup_In.
  - rewrite fold_set_lookup_notin.
    + rewrite <- Hocc.
      assert (H0 : count_occ string_dec (map division rows) d = 0)
        by now apply count_occ_not_In.
      rewrite H0.
      destruct (dict_lookup (map (fun d0 => (d0, 0)) DIVISIONS) d) as [n|] eqn:E; auto.
      simpl in E.
      repeat match type of E with
             | (if ?c then _ else _) = _ => destruct c; [now inversion E|]
             end.
      discriminate.
    + rewrite Hkeys. intro H. apply nodup_In in H. contradiction.
Qed.

(* ------------------------------------------------------------------ *)
(** ** Case and whitespace *)

Lemma upper_char_idem (c : ascii) :
  Py.upper_char (Py.upper_char c) = Py.upper_char c.
Proof. destruct c as [[] [] [] [] [] [] [] []]; reflexivity. Qed.

Lemma isspace_upper_char (c : ascii) :
  Py.isspace (Py.upper_char c) = Py.isspace c.
Proof. destruct c as [[] [] [] [] [] [] [] []]; reflexivity. Qed.

Lemma upper_idem (s : string) : Py.upper (Py.upper s) = Py.upper s.
Proof.
  induction s as [|c r IH]; simpl; auto.
  unfold Py.upper in *. simpl. now rewrite upper_char_idem, IH.
Qed.

Lemma lstrip_upper (s : string) : Py.lstrip (Py.upper s) = Py.upper (Py.lstrip s).
Proof.
  induction s as [|c r IH]; simpl; auto.
  rewrite isspace_upper_char. destruct (Py.isspace c); auto.
Qed.

Lemma rstrip_upper (s : string) : Py.rstrip (Py.upper s) = Py.upper (Py.rstrip s).
Proof.
  induction s as [|c r IH]; simpl; auto.
  unfold Py.upper in *. rewrite IH, isspace_upper_char.
  destruct (Py.rstrip r); simpl; auto.
  destruct (Py.isspace c); auto.
Qed.

Lemma strip_upper (s : string) : Py.strip (Py.upper s) = Py.upper (Py.strip s).
Proof. unfold Py.strip. now rewrite lstrip_upper, rstrip_upper. Qed.

Lemma rstrip_idem (s : string) : Py.rstrip (Py.rstrip s) = Py.rstrip s.
Proof.
  induction s as [|c r IH]; simpl; auto.
  destruct (Py.rstrip r) as [|c' r'] eqn:E.
  - destruct (Py.isspace c) eqn:Ec; simpl; auto. now rewrite Ec.
  - change (Py.rstrip (String c (String c' r'))) with
      (match Py.rstrip (String c' r') with
       | EmptyString => if Py.isspace c then EmptyString else String c EmptyString
       | x => String c x
       end).
    now rewrite IH.
Qed.

Lemma no_lead_lstrip (s : string) : no_lead (Py.lstrip s).
Proof.
  induction s as [|c r IH]; simpl; auto.
  destruct (Py.isspace c) eqn:E; simpl; auto.
Qed.

Lemma lstrip_no_lead (s : string) : no_lead s -> Py.lstrip s = s.
Proof. destruct s; simpl; auto. now intros ->. Qed.

Lemma no_lead_rstrip (s : string) : no_lead s -> no_lead (Py.rstrip s).
Proof.
  destruct s as [|c r]; simpl; auto.
  intros Hc. destruct (Py.rstrip r); simpl; auto.
  rewrite Hc. exact Hc.
Qed.

Lemma strip_idem (s : string) : Py.strip (Py.strip s) = Py.strip s.
Proof.
  unfold Py.strip.
  rewrite (lstrip_no_lead (Py.rstrip (Py.lstrip s))).
  - apply rstrip_idem.
  - apply no_lead_rstrip, no_lead_lstrip.
Qed.

(** The code of a branch is the code of the form it is stored under. *)
Lemma branch_code_stored (b : string) :
  branch_code (Py.upper (Py.strip b)) = branch_code b.
Proof.
  unfold branch_code.
  now rewrite strip_upper, strip_idem, upper_idem.
Qed.

Lemma branch_code_upper (b : string) :
  branch_code (Py.upper b) = branch_code b.
Proof.
  unfold branch_code. now rewrite strip_upper, upper_idem.
Qed.

(* ------------------------------------------------------------------ *)
(** ** The allocator in terms of the live occupancy *)

Lemma find_ext {A} (f g : A -> bool) (l : list A) :
  (forall x, f x = g x) -> find f l = find g l.
Proof.
  intros H. induction l as [|a l IH]; simpl; auto.
  rewrite H, IH. reflexivity.
Qed.

Lemma _assign_division_eq (b : string) (st : Storage) :
  _assign_division b st =
  (match find (fun d => (occupancy st (Py.upper b) d <? MAX_PER_DIVISION)%nat)
              DIVISIONS with
   | Some d => Ok d
   | None => Raise (ValueError all_full_msg)
   end, st).
Proof.
  destruct (count_by_branch_division_spec b st) as (counts & Hc & Hget).
  unfold _assign_division, bind. rewrite Hc.
  rewrite (find_ext _ (fun d => (occupancy st (Py.upper b) d <? MAX_PER_DIVISION)%nat)).
  - destruct (find _ DIVISIONS); reflexivity.
  - intro d. now rewrite Hget.
Qed.

Lemma _generate_class_roll_eq (b d : string) (st : Storage) :
  _generate_class_roll b d st =
  (if (MAX_PER_DIVISION <? occupancy st (Py.upper b) d + 1)%nat
   then Raise (ValueError ("Division " ++ d ++ " in " ++ b ++ " already full."))
   else Ok (branch_code b ++ d ++ Py.fmt02 (occupancy st (Py.upper b) d + 1)),
   st).
Proof.
  destruct (count_by_branch_division_spec b st) as (counts & Hc & Hget).
  unfold _generate_class_roll, bind. rewrite Hc, Hget.
  destruct (MAX_PER_DIVISION <? _)%nat; reflexivity.
Qed.

(* ------------------------------------------------------------------ *)
(** ** [register_student], step by step *)

Lemma register_student_eq (h : string -> string)
    (uuid4_hex u password fn ln b : string) (extra : option pyval)
    (st : Storage) :
  register_student h uuid4_hex u password fn ln b extra st =
  match validate_nonempty u "username" with
  | Raise e => (Raise e, st)
  | Ok u0 =>
      match find (fun r => String.eqb (username r) (Py.lower u0)) (students st) with
      | Some _ => (Raise (ValueError username_exists_msg), st)
      | None =>
          match find (fun d => (occupancy st (Py.upper b) d <? MAX_PER_DIVISION)%nat)
                     DIVISIONS with
          | None => (Raise (ValueError all_full_msg), bump st)
          | Some d =>
              let s := assembled h uuid4_hex u0 password fn ln b extra
                         (Py.str (next_prn st)) d
                         (branch_code b ++ d
                          ++ Py.fmt02 (occupancy st (Py.upper b) d + 1)) in
              if existsb (conflicts s) (students st)
              then (Raise IntegrityError, bump st)
              else (Ok s, {| next_prn := (next_prn st + 1)%Z;
                             students := (students st ++ [s])%list |})
          end
      end
  end.
Proof.
  unfold register_student, bind, lift.
  destruct (validate_nonempty u "username") as [u0|e]; [|reflexivity].
  unfold find_student_by_username.
  destruct (find _ (students st)) as [r|]; [reflexivity|].
  unfold _generate_prn, get_next_prn. fold (bump st).
  rewrite _assign_division_eq.
  change (occupancy (bump st)) with (occupancy st).
  destruct (find _ DIVISIONS) as [d|] eqn:Hd; [|reflexivity].
  rewrite _generate_class_roll_eq.
  change (occupancy (bump st)) with (occupancy st).
  apply find_some in Hd. destruct Hd as [_ Hlt].
  apply Nat.ltb_lt in Hlt.
  assert (Hle : (MAX_PER_DIVISION <? occupancy st (Py.upper b) d + 1)%nat = false)
    by (apply Nat.ltb_ge; lia).
  rewrite Hle.
  unfold insert_student, ret, hash_password, assembled, conflicts. simpl.
  destruct (existsb _ (students st)); reflexivity.
Qed.

(* ------------------------------------------------------------------ *)
(** ** Columns and SET lists *)

Lemma set_column_get (k v c : string) (r r1 : student) :
  set_column k v r = Some r1 ->
  get_column c r1 = if String.eqb c k then Some v else get_column c r.
Proof.
  destruct r as [p cr u sa ph fn ln b d e x].
  unfold set_column.
  repeat match goal with
         | |- (if String.eqb k ?x then _ else _) = _ -> _ =>
             let E := fresh "K" in
             destruct (String.eqb k x) eqn:E;
             [apply String.eqb_eq in E; subst k; intros H; inversion H; subst r1;
              clear H; unfold get_column; eqb_cases c; reflexivity|]
         end.
  discriminate.
Qed.

Lemma set_column_none (k v : string) (r : student) :
  set_column k v r = None -> is_column k = false.
Proof.
  destruct r as [p cr u sa ph fn ln b d e x].
  unfold set_column, is_column. simpl.
  repeat match goal with
         | |- (if String.eqb k ?x then _ else _) = _ -> _ =>
             destruct (String.eqb k x); [discriminate|]
         end.
  reflexivity.
Qed.

Lemma get_column_not_column (c : string) (r : student) :
  is_column c = false -> get_column c r = None.
Proof.
  unfold is_column, get_column. simpl.
  repeat match goal with
         | |- context [String.eqb c ?x] =>
             destruct (String.eqb c x); [discriminate|]
         end.
  reflexivity.
Qed.

Lemma dict_lookup_notin {V} (d : dict V) (k : string) :
  ~ In k (map fst d) -> dict_lookup d k = None.
Proof.
  induction d as [|[k0 v0] d IH]; simpl; auto.
  intros Hn. destruct (String.eqb k0 k) eqn:E.
  - apply String.eqb_eq in E. subst. exfalso. apply Hn. now left.
  - apply IH. intro. apply Hn. now right.
Qed.

Lemma dict_lookup_none_notin {V} (d : dict V) (k : string) :
  dict_lookup d k = None -> ~ In k (map fst d).
Proof.
  induction d as [|[k0 v0] d IH]; simpl; auto.
  destruct (String.eqb k0 k) eqn:E; [discriminate|].
  intros H [->|Hin].
  - now rewrite String.eqb_refl in E.
  - now apply IH.
Qed.

(** With distinct keys, a column of the updated row is the value bound to
    it, or the old value when the SET list does not name it. *)
Lemma apply_sets_get (sets : list (string * string)) (c : string) (r : student) :
  NoDup (map fst sets) ->
  get_column c (apply_sets sets r) =
  match dict_lookup sets c with
  | Some v => if is_column c then Some v else None
  | None => get_column c r
  end.
Proof.
  revert r. induction sets as [|[k v] rest IH]; intros r Hnd; simpl; auto.
  inversion Hnd as [|? ? Hnot Hnd']; subst.
  destruct (String.eqb k c) eqn:E.
  - apply String.eqb_eq in E. subst k.
    destruct (set_column c v r) as [r1|] eqn:Hs.
    + rewrite IH by assumption.
      rewrite (dict_lookup_notin rest c Hnot).
      rewrite (set_column_get _ _ c _ _ Hs), String.eqb_refl.
      destruct (is_column c) eqn:Hc; auto.
      pose proof (get_column_not_column c r1 Hc) as Hg.
      rewrite (set_column_get _ _ c _ _ Hs), String.eqb_refl in Hg.
      discriminate.
    + rewrite IH by assumption.
      rewrite (dict_lookup_notin rest c Hnot).
      rewrite (set_column_none _ _ _ Hs).
      apply get_column_not_column. exact (set_column_none _ _ _ Hs).
  - destruct (set_column k v r) as [r1|] eqn:Hs.
    + rewrite IH by assumption.
      destruct (dict_lookup rest c); auto.
      rewrite (set_column_get _ _ c _ _ Hs).
      rewrite String.eqb_sym, E. reflexivity.
    + now rewrite IH.
Qed.

Lemma dict_set_keys {V} (d : dict V) (k : string) (v : V) :
  map fst (dict_set d k v) =
  if dict_mem d k then map fst d else (map fst d ++ [k])%list.
Proof.
  unfold dict_mem.
  induction d as [|[k0 v0] d IH]; simpl; auto.
  destruct (String.eqb k0 k) eqn:E; simpl; auto.
  rewrite IH. destruct (dict_lookup d k); reflexivity.
Qed.

Lemma dict_set_nodup {V} (d : dict V) (k : string) (v : V) :
  NoDup (map fst d) -> NoDup (map fst (dict_set d k v)).
Proof.
  intros Hnd. rewrite dict_set_keys. unfold dict_mem.
  destruct (dict_lookup d k) eqn:E; auto.
  apply dict_lookup_none_notin in E.
  apply NoDup_rev in Hnd.
  rewrite <- (rev_involutive (map fst d ++ [k])).
  apply NoDup_rev. rewrite rev_app_distr. simpl.
  constructor; auto. now rewrite <- in_rev.
Qed.

Lemma bind_all_keys (sets : list (string * pyval)) bound :
  bind_all sets = Some bound -> map fst bound = map fst sets.
Proof.
  revert bound. induction sets as [|[k v] rest IH]; intros bound; simpl.
  - intros H. now inversion H.
  - destruct (bindable v); [|discriminate].
    destruct (bind_all rest) as [r|]; [|discriminate].
    intros H. inversion H; subst. simpl. f_equal. now apply IH.
Qed.

Lemma bind_all_lookup (sets : list (string * pyval)) bound (c : string) :
  bind_all sets = Some bound ->
  dict_lookup bound c =
  match dict_lookup sets c with
  | Some v => bindable v
  | None => None
  end.
Proof.
  revert bound. induction sets as [|[k v] rest IH]; intros bound; simpl.
  - intros H. now inversion H.
  - destruct (bindable v) eqn:Hb; [|discriminate].
    destruct (bind_all rest) as [r|]; [|discriminate].
    intros H. inversion H; subst. simpl.
    destruct (String.eqb k c); auto.
Qed.

(* ------------------------------------------------------------------ *)
(** ** The [applied] dictionary of [edit_student] *)

Lemma collect_fold_lookup_notallowed (ups acc : dict pyval) (c : string) :
  allowed c = false ->
  dict_lookup (fold_left collect_step ups acc) c = dict_lookup acc c.
Proof.
  intros Hc. revert acc. induction ups as [|[k v] ups IH]; intros acc; simpl; auto.
  rewrite IH. unfold collect_step. simpl.
  destruct (allowed k) eqn:Hk; auto.
  apply dict_lookup_set_other. intro; subst. congruence.
Qed.

Lemma collect_fold_lookup_notin (ups acc : dict pyval) (c : string) :
  ~ In c (map fst ups) ->
  dict_lookup (fold_left collect_step ups acc) c = dict_lookup acc c.
Proof.
  revert acc. induction ups as [|[k v] ups IH]; intros acc Hn; simpl; auto.
  rewrite IH by (intro; apply Hn; now right).
  unfold collect_step. simpl.
  destruct (allowed k); auto.
  apply dict_lookup_set_other. intro; subst. apply Hn. now left.
Qed.

Lemma collect_fold_nodup (ups acc : dict pyval) :
  NoDup (map fst acc) -> NoDup (map fst (fold_left collect_step ups acc)).
Proof.
  revert acc. induction ups as [|[k v] ups IH]; intros acc Hnd; simpl; auto.
  apply IH. unfold collect_step. simpl.
  destruct (allowed k); auto. now apply dict_set_nodup.
Qed.

Lemma collect_fold_filter (ups acc : dict pyval) :
  fold_left collect_step (filter (fun kv => allowed (fst kv)) ups) acc
  = fold_left collect_step ups acc.
Proof.
  revert acc. induction ups as [|[k v] ups IH]; intros acc; simpl; auto.
  destruct (allowed k) eqn:Hk; simpl.
  - apply IH.
  - rewrite IH. unfold collect_step at 3. simpl. now rewrite Hk.
Qed.

Lemma collect_applied_unfold (ups : dict pyval) :
  collect_applied ups = fold_left collect_step ups [].
Proof. reflexivity. Qed.

Lemma collect_applied_not_allowed (ups : dict pyval) (c : string) :
  allowed c = false -> dict_lookup (collect_applied ups) c = None.
Proof.
  intros Hc. rewrite collect_applied_unfold.
  now rewrite collect_fold_lookup_notallowed.
Qed.

Lemma collect_applied_notin (ups : dict pyval) (c : string) :
  ~ In c (map fst ups) -> dict_lookup (collect_applied ups) c = None.
Proof.
  intros Hc. rewrite collect_applied_unfold.
  now rewrite collect_fold_lookup_notin.
Qed.

Lemma collect_applied_nodup (ups : dict pyval) :
  NoDup (map fst (collect_applied ups)).
Proof. rewrite collect_applied_unfold. apply collect_fold_nodup. constructor. Qed.

Lemma collect_applied_filter (ups : dict pyval) :
  collect_applied (filter (fun kv => allowed (fst kv)) ups) = collect_applied ups.
Proof. rewrite !collect_applied_unfold. apply collect_fold_filter. Qed.

Lemma collect_applied_nil (ups : dict pyval) :
  (forall k v, In (k, v) ups -> allowed k = false) -> collect_applied ups = [].
Proof.
  intros H. rewrite <- collect_applied_filter.
  replace (filter (fun kv => allowed (fst kv)) ups) with (@nil (string * pyval)).
  - reflexivity.
  - symmetry. induction ups as [|[k v] ups IH]; simpl; auto.
    rewrite (H k v) by now left.
    apply IH. intros k' v' Hin. apply (H k' v'). now right.
Qed.

(* ------------------------------------------------------------------ *)
(** ** [edit_student], step by step *)

Lemma edit_student_eq (p : string) (ups : dict pyval) (eb : option string)
    (st : Storage) :
  edit_student p ups eb st =
  match find (fun r => String.eqb (prn r) p) (students st) with
  | None => (Raise (ValueError not_found_msg), st)
  | Some s =>
      if other_branch eb s
      then (Raise (PermissionError edit_denied_msg), st)
      else
        match dict_lookup (collect_applied ups) "branch" with
        | Some (PStr b) =>
            match find (fun d => (occupancy st (Py.upper b) d <? MAX_PER_DIVISION)%nat)
                       DIVISIONS with
            | None => (Raise (ValueError all_full_msg), st)
            | Some d =>
                finish_edit p
                  (with_branch (collect_applied ups) (Py.upper b) d
                     (branch_code b ++ d
                      ++ Py.fmt02 (occupancy st (Py.upper b) d + 1)))
                  st
            end
        | Some (PObj _) => (Raise AttributeError, st)
        | None => finish_edit p (collect_applied ups) st
        end
  end.
Proof.
  unfold edit_student, bind, find_student_by_prn at 1.
  destruct (find _ (students st)) as [s|]; [|reflexivity].
  destruct (other_branch eb s); [reflexivity|].
  destruct (dict_lookup (collect_applied ups) "branch") as [[b|j]|] eqn:Hb.
  - rewrite _assign_division_eq, upper_idem.
    destruct (find _ DIVISIONS) as [d|] eqn:Hd; [|reflexivity].
    rewrite _generate_class_roll_eq, upper_idem, branch_code_upper.
    apply find_some in Hd. destruct Hd as [_ Hlt].
    apply Nat.ltb_lt in Hlt.
    assert (Hle : (MAX_PER_DIVISION <? occupancy st (Py.upper b) d + 1)%nat = false)
      by (apply Nat.ltb_ge; lia).
    rewrite Hle. reflexivity.
  - reflexivity.
  - reflexivity.
Qed.

Lemma finish_edit_raise (p : string) (applied : dict pyval) (st st' : Storage) e :
  finish_edit p applied st = (Raise e, st') -> st' = st.
Proof.
  unfold finish_edit, bind, update_student, sql_update_students, find_student_by_prn.
  destruct (map _ (dump_extra applied)); [intros H; now inversion H|].
  destruct (negb _); [intros H; now inversion H|].
  destruct (bind_all _); [|intros H; now inversion H].
  destruct (find _ (students st)).
  - destruct (existsb _ _); intros H; now inversion H.
  - intros H; inversion H.
Qed.

Lemma finish_edit_ok (p : string) (applied : dict pyval) (st st' : Storage)
    (s : student) res :
  find (fun r => String.eqb (prn r) p) (students st) = Some s ->
  finish_edit p applied st = (Ok res, st') ->
  exists bound,
    bind_all (columns_values (dump_extra applied)) = Some bound /\
    existsb (conflicts (apply_sets bound s))
            (filter (fun o => negb (String.eqb (prn o) p)) (students st)) = false /\
    st' = {| next_prn := next_prn st;
             students := replace_row p (apply_sets bound s) (students st) |} /\
    res = find (fun r => String.eqb (prn r) p) (students st').
Proof.
  intros Hs.
  unfold finish_edit, bind, update_student, sql_update_students, find_student_by_prn.
  fold (columns_values (dump_extra applied)).
  destruct (columns_values (dump_extra applied)) as [|kv sets] eqn:Hcv;
    [intros H; now inversion H|].
  destruct (negb _); [intros H; now inversion H|].
  destruct (bind_all (kv :: sets)) as [bound|]; [|intros H; now inversion H].
  rewrite Hs.
  fold (conflicts (apply_sets bound s)).
  destruct (existsb _ _) eqn:Hc; [intros H; now inversion H|].
  intros H. inversion H; subst. exists bound. repeat split; auto.
Qed.

(* ------------------------------------------------------------------ *)
(** ** What the update binds *)

Lemma columns_values_keys (d : dict pyval) :
  map fst (columns_values d) = map fst d.
Proof.
  unfold columns_values. rewrite map_map.
  apply map_ext. now intros [k v].
Qed.

Lemma columns_values_lookup (d : dict pyval) (c : string) :
  dict_lookup (columns_values d) c =
  match dict_lookup d c with
  | Some v => Some (if String.eqb c "extra" then PStr (Json.dumps v) else v)
  | None => None
  end.
Proof.
  induction d as [|[k v] d IH]; simpl; auto.
  destruct (String.eqb k c) eqn:E; auto.
  apply String.eqb_eq in E. now subst.
Qed.

Lemma dump_extra_lookup (d : dict pyval) (c : string) :
  c <> "extra" -> dict_lookup (dump_extra d) c = dict_lookup d c.
Proof.
  intros Hc. unfold dump_extra.
  destruct (dict_lookup d "extra") as [[x|j]|]; auto.
  apply dict_lookup_set_other. congruence.
Qed.

Lemma dump_extra_nodup (d : dict pyval) :
  NoDup (map fst d) -> NoDup (map fst (dump_extra d)).
Proof.
  intros H. unfold dump_extra.
  destruct (dict_lookup d "extra") as [[x|j]|]; auto.
  now apply dict_set_nodup.
Qed.

Lemma bound_nodup (applied : dict pyval) bound :
  NoDup (map fst applied) ->
  bind_all (columns_values (dump_extra applied)) = Some bound ->
  NoDup (map fst bound).
Proof.
  intros Hnd Hb.
  rewrite (bind_all_keys _ _ Hb), columns_values_keys.
  now apply dump_extra_nodup.
Qed.

Lemma bound_lookup_none (applied : dict pyval) bound (c : string) :
  bind_all (columns_values (dump_extra applied)) = Some bound ->
  dict_lookup applied c = None ->
  dict_lookup bound c = None.
Proof.
  intros Hb Hc.
  rewrite (bind_all_lookup _ _ c Hb), columns_values_lookup.
  destruct (string_dec c "extra") as [->|Hne].
  - unfold dump_extra. now rewrite Hc, Hc.
  - now rewrite dump_extra_lookup, Hc.
Qed.

Lemma bound_lookup_str (applied : dict pyval) bound (c v : string) :
  bind_all (columns_values (dump_extra applied)) = Some bound ->
  c <> "extra" ->
  dict_lookup applied c = Some (PStr v) ->
  dict_lookup bound c = Some v.
Proof.
  intros Hb Hne Hc.
  rewrite (bind_all_lookup _ _ c Hb), columns_values_lookup.
  rewrite dump_extra_lookup, Hc by assumption.
  destruct (String.eqb c "extra") eqn:E; auto.
  apply String.eqb_eq in E. contradiction.
Qed.

(** A column the dictionary does not name keeps its value. *)
Lemma edited_column_kept (applied : dict pyval) bound (s : student) (c : string) :
  NoDup (map fst applied) ->
  bind_all (columns_values (dump_extra applied)) = Some bound ->
  dict_lookup applied c = None ->
  get_column c (apply_sets bound s) = get_column c s.
Proof.
  intros Hnd Hb Hc.
  rewrite apply_sets_get by (eapply bound_nodup; eauto).
  now rewrite (bound_lookup_none _ _ _ Hb Hc).
Qed.

(** A column the dictionary names with a [str] takes that value. *)
Lemma edited_column_set (applied : dict pyval) bound (s : student) (c v : string) :
  NoDup (map fst applied) ->
  bind_all (columns_values (dump_extra applied)) = Some bound ->
  c <> "extra" -> is_column c = true ->
  dict_lookup applied c = Some (PStr v) ->
  get_column c (apply_sets bound s) = Some v.
Proof.
  intros Hnd Hb Hne Hcol Hc.
  rewrite apply_sets_get by (eapply bound_nodup; eauto).
  now rewrite (bound_lookup_str _ _ _ _ Hb Hne Hc), Hcol.
Qed.

Lemma with_branch_nodup (a : dict pyval) nb d roll :
  NoDup (map fst a) -> NoDup (map fst (with_branch a nb d roll)).
Proof. intros H. unfold with_branch. now repeat apply dict_set_nodup. Qed.

Lemma with_branch_lookup_branch (a : dict pyval) nb d roll :
  dict_lookup (with_branch a nb d roll) "branch" = Some (PStr nb).
Proof.
  unfold with_branch.
  rewrite !dict_lookup_set_other by discriminate.
  apply dict_lookup_set_same.
Qed.

Lemma with_branch_lookup_division (a : dict pyval) nb d roll :
  dict_lookup (with_branch a nb d roll) "division" = Some (PStr d).
Proof.
  unfold with_branch.
  rewrite dict_lookup_set_other by discriminate.
  apply dict_lookup_set_same.
Qed.

Lemma with_branch_lookup_class_roll (a : dict pyval) nb d roll :
  dict_lookup (with_branch a nb d roll) "class_roll" = Some (PStr roll).
Proof. unfold with_branch. apply dict_lookup_set_same. Qed.

Lemma with_branch_lookup_other (a : dict pyval) nb d roll (c : string) :
  c <> "branch" -> c <> "division" -> c <> "class_roll" ->
  dict_lookup (with_branch a nb d roll) c = dict_lookup a c.
Proof.
  intros H1 H2 H3. unfold with_branch.
  rewrite !dict_lookup_set_other by congruence. reflexivity.
Qed.

(* ------------------------------------------------------------------ *)
(** ** The table invariant *)

Lemma NoDup_map_filter {A B} (f : A -> B) (g : A -> bool) (l : list A) :
  NoDup (map f l) -> NoDup (map f (filter g l)).
Proof.
  induction l as [|a l IH]; simpl; auto.
  intros H. inversion H as [|? ? Hn Hnd]; subst.
  destruct (g a); simpl; auto.
  constructor; auto.
  intro Hin. apply Hn.
  apply in_map_iff in Hin. destruct Hin as (x & Hx & Hin).
  apply filter_In in Hin. destruct Hin as [Hin _].
  apply in_map_iff. now exists x.
Qed.

Lemma NoDup_map_snoc {A B} (f : A -> B) (l : list A) (x : A) :
  NoDup (map f l) -> ~ In (f x) (map f l) -> NoDup (map f (l ++ [x])).
Proof.
  intros Hnd Hn. rewrite map_app. simpl.
  apply (NoDup_Add (a := f x) (l := map f l)).
  - rewrite <- (app_nil_r (map f l)) at 1. apply Add_app.
  - split; auto.
Qed.

Lemma division_rolls_length (b d : string) :
  List.length (division_rolls b d) = MAX_PER_DIVISION.
Proof. unfold division_rolls. now rewrite length_map, length_seq. Qed.

Lemma division_rolls_in (b d : string) (n : nat) :
  n < MAX_PER_DIVISION ->
  In (branch_code b ++ d ++ Py.fmt02 (n + 1)) (division_rolls b d).
Proof.
  intros Hn. unfold division_rolls.
  apply in_map_iff. exists (n + 1). split; auto.
  apply in_seq. lia.
Qed.

(** Under the invariant no division of any branch holds more rows than
    its capacity: the rows of a division carry distinct rolls out of the
    [MAX_PER_DIVISION] rolls of that division. *)
Lemma occupancy_le (st : Storage) (b d : string) :
  table_ok st -> occupancy st b d <= MAX_PER_DIVISION.
Proof.
  intros [_ Hroll Hok]. unfold occupancy.
  rewrite <- (division_rolls_length b d).
  rewrite <- (length_map class_roll).
  apply NoDup_incl_length.
  - now apply NoDup_map_filter.
  - intros x Hx. apply in_map_iff in Hx. destruct Hx as (r & <- & Hr).
    apply filter_In in Hr. destruct Hr as [Hin Hdiv].
    unfold in_division in Hdiv. apply andb_true_iff in Hdiv.
    destruct Hdiv as [Hb Hd].
    apply String.eqb_eq in Hb. apply String.eqb_eq in Hd.
    rewrite Forall_forall in Hok. specialize (Hok r Hin).
    unfold roll_ok in Hok. now rewrite Hb, Hd in Hok.
Qed.

Lemma table_ok_init : table_ok init_storage.
Proof. split; simpl; constructor. Qed.

Lemma no_conflicts (s : student) (rows : list student) :
  existsb (conflicts s) rows = false ->
  ~ In (prn s) (map prn rows) /\
  ~ In (class_roll s) (map class_roll rows) /\
  ~ In (username s) (map username rows).
Proof.
  intros H.
  assert (Hall : forall r, In r rows -> conflicts s r = false).
  { intros r Hin. destruct (conflicts s r) eqn:E; auto.
    assert (existsb (conflicts s) rows = true)
      by (apply existsb_exists; now exists r).
    congruence. }
  repeat split; intros Hin; apply in_map_iff in Hin;
    destruct Hin as (r & Heq & Hin); specialize (Hall r Hin);
    unfold conflicts in Hall; rewrite Heq, String.eqb_refl in Hall;
    simpl in Hall; try discriminate;
    rewrite ?orb_true_r in Hall; discriminate.
Qed.

Lemma register_student_table_ok (h : string -> string)
    (uu u pw fn ln b : string) (x : option pyval) (st : Storage) :
  table_ok st -> table_ok (snd (register_student h uu u pw fn ln b x st)).
Proof.
  intros Hok. rewrite register_student_eq.
  destruct (validate_nonempty u "username") as [u0|e]; [|exact Hok].
  destruct (find _ (students st)); [exact Hok|].
  destruct (find _ DIVISIONS) as [d|] eqn:Hd.
  2:{ destruct Hok; split; assumption. }
  cbv zeta.
  match goal with |- context [existsb (conflicts ?s0) _] => set (s := s0) end.
  destruct (existsb (conflicts s) (students st)) eqn:Hc.
  { destruct Hok; split; assumption. }
  apply no_conflicts in Hc. destruct Hc as (Hp & Hr & _).
  destruct Hok as [Hprn Hroll Hrolls].
  apply find_some in Hd. destruct Hd as [_ Hlt]. apply Nat.ltb_lt in Hlt.
  split; simpl.
  - now apply NoDup_map_snoc.
  - now apply NoDup_map_snoc.
  - apply Forall_app. split; auto.
    constructor; [|constructor].
    unfold roll_ok, s, assembled. simpl.
    unfold division_rolls. rewrite branch_code_stored.
    now apply division_rolls_in.
Qed.

Lemma find_prn_split (p : string) (rows : list student) (s r' : student) :
  NoDup (map prn rows) ->
  find (fun r => String.eqb (prn r) p) rows = Some s ->
  exists l1 l2,
    rows = (l1 ++ s :: l2)%list /\
    filter (fun o => negb (String.eqb (prn o) p)) rows = (l1 ++ l2)%list /\
    replace_row p r' rows = (l1 ++ r' :: l2)%list.
Proof.
  induction rows as [|a rows IH]; simpl; [discriminate|].
  intros Hnd Hf. inversion Hnd as [|? ? Hn Hnd']; subst.
  destruct (String.eqb (prn a) p) eqn:E.
  - inversion Hf; subst a. apply String.eqb_eq in E.
    exists [], rows. simpl. repeat split.
    + assert (Hall : forall o, In o rows -> String.eqb (prn o) p = false).
      { intros o Hin. destruct (String.eqb (prn o) p) eqn:Eo; auto.
        apply String.eqb_eq in Eo. exfalso. apply Hn.
        apply in_map_iff. exists o. split; congruence. }
      clear -Hall. induction rows as [|o rows IH]; simpl; auto.
      rewrite (Hall o) by now left. simpl. f_equal.
      apply IH. intros; apply Hall. now right.
    + f_equal.
      assert (Hall : forall o, In o rows -> String.eqb (prn o) p = false).
      { intros o Hin. destruct (String.eqb (prn o) p) eqn:Eo; auto.
        apply String.eqb_eq in Eo. exfalso. apply Hn.
        apply in_map_iff. exists o. split; congruence. }
      clear -Hall. unfold replace_row.
      induction rows as [|o rows IH]; simpl; auto.
      rewrite (Hall o) by now left. f_equal.
      apply IH. intros; apply Hall. now right.
  - destruct (IH Hnd' Hf) as (l1 & l2 & H1 & H2 & H3).
    exists (a :: l1), l2. simpl. rewrite H1 at 1. repeat split.
    + now rewrite H2.
    + unfold replace_row in *. now rewrite H3.
Qed.

Lemma replace_row_table_ok (st : Storage) (p : string) (s r' : student) :
  table_ok st ->
  find (fun r => String.eqb (prn r) p) (students st) = Some s ->
  prn r' = prn s ->
  existsb (conflicts r')
          (filter (fun o => negb (String.eqb (prn o) p)) (students st)) = false ->
  roll_ok r' ->
  table_ok {| next_prn := next_prn st;
              students := replace_row p r' (students st) |}.
Proof.
  intros [Hprn Hroll Hrolls] Hf Hp Hc Hr'.
  destruct (find_prn_split p (students st) s r' Hprn Hf) as (l1 & l2 & H1 & H2 & H3).
  rewrite H2 in Hc. apply no_conflicts in Hc. destruct Hc as (_ & Hcr & _).
  split; simpl; rewrite H3.
  - rewrite H1 in Hprn. rewrite map_app in *. simpl in *. now rewrite Hp.
  - rewrite H1 in Hroll. rewrite map_app in *. simpl in *.
    apply NoDup_remove_1 in Hroll.
    apply (NoDup_Add (a := class_roll r') (l := (map class_roll l1 ++ map class_roll l2)%list)).
    + apply Add_app.
    + split; auto.
  - rewrite H1 in Hrolls. apply Forall_app in Hrolls.
    destruct Hrolls as [Ha Hb]. inversion Hb; subst.
    apply Forall_app. split; auto.
Qed.

Lemma get_prn (r : student) : get_column "prn" r = Some (prn r).
Proof. reflexivity. Qed.
Lemma get_class_roll (r : student) : get_column "class_roll" r = Some (class_roll r).
Proof. reflexivity. Qed.
Lemma get_username (r : student) : get_column "username" r = Some (username r).
Proof. reflexivity. Qed.
Lemma get_salt (r : student) : get_column "salt" r = Some (salt r).
Proof. reflexivity. Qed.
Lemma get_pw_hash (r : student) : get_column "pw_hash" r = Some (pw_hash r).
Proof. reflexivity. Qed.
Lemma get_first_name (r : student) : get_column "first_name" r = Some (first_name r).
Proof. reflexivity. Qed.
Lemma get_last_name (r : student) : get_column "last_name" r = Some (last_name r).
Proof. reflexivity. Qed.
Lemma get_branch (r : student) : get_column "branch" r = Some (branch r).
Proof. reflexivity. Qed.
Lemma get_division (r : student) : get_column "division" r = Some (division r).
Proof. reflexivity. Qed.
Lemma get_email (r : student) : get_column "email" r = Some (email r).
Proof. reflexivity. Qed.
Lemma get_extra (r : student) : get_column "extra" r = Some (extra r).
Proof. reflexivity. Qed.

(** The column [c] of the edited row when [applied] does not name it. *)
Lemma kept_field (applied : dict pyval) bound (s : student) (c : string)
    (g : student -> string) :
  (forall r, get_column c r = Some (g r)) ->
  NoDup (map fst applied) ->
  bind_all (columns_values (dump_extra applied)) = Some bound ->
  dict_lookup applied c = None ->
  g (apply_sets bound s) = g s.
Proof.
  intros Hg Hnd Hb Hc.
  pose proof (edited_column_kept applied bound s c Hnd Hb Hc) as H.
  rewrite !Hg in H. now inversion H.
Qed.

Lemma set_field (applied : dict pyval) bound (s : student) (c v : string)
    (g : student -> string) :
  (forall r, get_column c r = Some (g r)) ->
  NoDup (map fst applied) ->
  bind_all (columns_values (dump_extra applied)) = Some bound ->
  c <> "extra" -> is_column c = true ->
  dict_lookup applied c = Some (PStr v) ->
  g (apply_sets bound s) = v.
Proof.
  intros Hg Hnd Hb Hne Hcol Hc.
  pose proof (edited_column_set applied bound s c v Hnd Hb Hne Hcol Hc) as H.
  rewrite Hg in H. now inversion H.
Qed.

Lemma edit_student_table_ok (p : string) (ups : dict pyval)
    (eb : option string) (st : Storage) :
  table_ok st -> table_ok (snd (edit_student p ups eb st)).
Proof.
  intros Hok. rewrite edit_student_eq.
  destruct (find _ (students st)) as [s|] eqn:Hf; [|exact Hok].
  destruct (other_branch eb s); [exact Hok|].
  pose proof (collect_applied_nodup ups) as Hnd.
  assert (Hnp : dict_lookup (collect_applied ups) "prn" = None)
    by (now apply collect_applied_not_allowed).
  assert (Hnd' : dict_lookup (collect_applied ups) "division" = None)
    by (now apply collect_applied_not_allowed).
  assert (Hnc : dict_lookup (collect_applied ups) "class_roll" = None)
    by (now apply collect_applied_not_allowed).
  destruct (dict_lookup (collect_applied ups) "branch") as [[b|j]|] eqn:Hb;
    [|exact Hok|].
  - destruct (find _ DIVISIONS) as [d|] eqn:Hd; [|exact Hok].
    match goal with |- context [finish_edit p ?a st] => set (applied := a) end.
    destruct (finish_edit p applied st) as [[res|e] st'] eqn:Hfin.
    2:{ apply finish_edit_raise in Hfin. now subst. }
    destruct (finish_edit_ok _ _ _ _ _ _ Hf Hfin) as (bound & Hbd & Hc & -> & _).
    simpl.
    assert (Hnda : NoDup (map fst applied)) by now apply with_branch_nodup.
    apply find_some in Hd. destruct Hd as [_ Hlt]. apply Nat.ltb_lt in Hlt.
    apply (replace_row_table_ok st p s); auto.
    + apply (kept_field applied bound s "prn" prn get_prn Hnda Hbd).
      unfold applied. now rewrite with_branch_lookup_other by discriminate.
    + unfold roll_ok.
      rewrite (set_field applied bound s "branch" (Py.upper b) branch get_branch
                 Hnda Hbd) by
        (try discriminate; try reflexivity; apply with_branch_lookup_branch).
      rewrite (set_field applied bound s "division" d division get_division
                 Hnda Hbd) by
        (try discriminate; try reflexivity; apply with_branch_lookup_division).
      rewrite (set_field applied bound s "class_roll" _ class_roll get_class_roll
                 Hnda Hbd) by
        (try discriminate; try reflexivity; apply with_branch_lookup_class_roll).
      unfold division_rolls. rewrite branch_code_upper.
      now apply division_rolls_in.
  - destruct (finish_edit p (collect_applied ups) st) as [[res|e] st'] eqn:Hfin.
    2:{ apply finish_edit_raise in Hfin. now subst. }
    destruct (finish_edit_ok _ _ _ _ _ _ Hf Hfin) as (bound & Hbd & Hc & -> & _).
    simpl.
    apply (replace_row_table_ok st p s); auto.
    + now apply (kept_field _ bound s "prn" prn get_prn Hnd Hbd).
    + unfold roll_ok.
      rewrite (kept_field _ bound s "branch" branch get_branch Hnd Hbd Hb).
      rewrite (kept_field _ bound s "division" division get_division Hnd Hbd Hnd').
      rewrite (kept_field _ bound s "class_roll" class_roll get_class_roll Hnd Hbd Hnc).
      destruct Hok as [_ _ Hrolls]. rewrite Forall_forall in Hrolls.
      apply Hrolls. apply find_some in Hf. tauto.
Qed.

Lemma delete_student_eq (p : string) (eb : option string) (st : Storage) :
  delete_student p eb st =
  match find (fun r => String.eqb (prn r) p) (students st) with
  | None => (Raise (ValueError not_found_msg), st)
  | Some s =>
      if other_branch eb s
      then (Raise (PermissionError delete_denied_msg), st)
      else (Ok true,
            {| next_prn := next_prn st;
               students := filter (fun r => negb (String.eqb (prn r) p))
                                  (students st) |})
  end.
Proof.
  unfold delete_student, bind, find_student_by_prn.
  destruct (find _ (students st)) as [s|]; [|reflexivity].
  destruct (other_branch eb s); reflexivity.
Qed.

Lemma delete_student_table_ok (p : string) (eb : option string) (st : Storage) :
  table_ok st -> table_ok (snd (delete_student p eb st)).
Proof.
  intros Hok. rewrite delete_student_eq.
  destruct (find _ (students st)) as [s|]; [|exact Hok].
  destruct (other_branch eb s); [exact Hok|].
  destruct Hok as [Hp Hr Hrs]. split; simpl.
  - now apply NoDup_map_filter.
  - now apply NoDup_map_filter.
  - rewrite Forall_forall in *. intros r Hin.
    apply filter_In in Hin. now apply Hrs.
Qed.

Lemma step_table_ok (h : string -> string) (o : op) (st : Storage) :
  table_ok st -> table_ok (step h o st).
Proof.
  destruct o; simpl.
  - apply register_student_table_ok.
  - apply edit_student_table_ok.
  - apply delete_student_table_ok.
Qed.

Lemma run_ops_table_ok (h : string -> string) (ops : list op) (st : Storage) :
  table_ok st -> table_ok (run_ops h ops st).
Proof.
  revert st. induction ops as [|o ops IH]; intros st Hok; simpl; auto.
  apply IH. now apply step_table_ok.
Qed.

(* ------------------------------------------------------------------ *)
(** ** Division allocation *)

Lemma find_first {A} (f : A -> bool) (l : list A) (x : A) :
  find f l = Some x <->
  exists before after,
    l = (before ++ x :: after)%list /\
    Forall (fun y => f y = false) before /\ f x = true.
Proof.
  split.
  - induction l as [|a l IH]; simpl; [discriminate|].
    destruct (f a) eqn:E.
    + intros H. inversion H; subst. exists [], l. repeat split; auto.
    + intros H. destruct (IH H) as (l1 & l2 & -> & Hall & Hx).
      exists (a :: l1), l2. repeat split; auto.
  - intros (l1 & l2 & -> & Hall & Hx).
    induction l1 as [|a l1 IH]; simpl.
    + now rewrite Hx.
    + inversion Hall; subst. rewrite H1. now apply IH.
Qed.

Lemma find_none_iff {A} (f : A -> bool) (l : list A) :
  find f l = None <-> Forall (fun y => f y = false) l.
Proof.
  induction l as [|a l IH]; simpl.
  - split; auto.
  - destruct (f a) eqn:E.
    + split; [discriminate|]. intros H. inversion H; congruence.
    + rewrite IH. split; intros H; [now constructor|now inversion H].
Qed.

(** C4: [_assign_division] (the specification's [allocate_division])
    scans ["1"], ["2"], ["3"] in this order and returns the earliest
    division whose live count is strictly below the capacity; in
    particular it returns ["1"] when division 1 holds capacity - 1 students
    and divisions 2 and 3 are empty; it raises the capacity error exactly
    when every division is at capacity.  The store is left as it was. *)
Theorem C4_assign_division_earliest_below_capacity (b : string) (st : Storage) :
  DIVISIONS = ["1"; "2"; "3"] /\
  (forall d,
     _assign_division b st = (Ok d, st) <->
     exists before after,
       DIVISIONS = (before ++ d :: after)%list /\
       Forall (fun d' => MAX_PER_DIVISION <= occupancy st (Py.upper b) d') before /\
       occupancy st (Py.upper b) d < MAX_PER_DIVISION) /\
  (_assign_division b st = (Raise (ValueError all_full_msg), st) <->
   Forall (fun d => MAX_PER_DIVISION <= occupancy st (Py.upper b) d) DIVISIONS) /\
  (occupancy st (Py.upper b) "1" = MAX_PER_DIVISION - 1 /\
   occupancy st (Py.upper b) "2" = 0 /\ occupancy st (Py.upper b) "3" = 0 ->
   _assign_division b st = (Ok "1", st)).
Proof.
  rewrite _assign_division_eq.
  set (f := fun d => (occupancy st (Py.upper b) d <? MAX_PER_DIVISION)%nat).
  assert (Hfalse : forall l,
             Forall (fun y => f y = false) l <->
             Forall (fun d' => MAX_PER_DIVISION <= occupancy st (Py.upper b) d') l).
  { intros l. rewrite !Forall_forall. unfold f.
    split; intros H x Hx; specialize (H x Hx).
    - now apply Nat.ltb_ge in H.
    - now apply Nat.ltb_ge. }
  split; [reflexivity|]. split; [|split].
  - intros d. split.
    + intros H. destruct (find f DIVISIONS) as [d0|] eqn:E; inversion H; subst.
      apply find_first in E. destruct E as (l1 & l2 & Hl & Hall & Hd).
      exists l1, l2. repeat split; auto.
      * now apply Hfalse.
      * now apply Nat.ltb_lt in Hd.
    + intros (l1 & l2 & Hl & Hall & Hd).
      assert (E : find f DIVISIONS = Some d).
      { apply find_first. exists l1, l2. repeat split; auto.
        - now apply Hfalse.
        - now apply Nat.ltb_lt. }
      now rewrite E.
  - split.
    + intros H. destruct (find f DIVISIONS) as [d0|] eqn:E; inversion H.
      apply Hfalse. now apply find_none_iff.
    + intros H. apply Hfalse, find_none_iff in H. now rewrite H.
  - intros (H1 & _ & _). unfold DIVISIONS. simpl. unfold f at 1.
    rewrite H1. reflexivity.
Qed.

(** The tie-break of C4 on the store that 69 registrations into CS leave. *)
Lemma C4_assign_division_witness :
  occupancy st_69 "CS" "1" = 69 /\
  occupancy st_69 "CS" "2" = 0 /\ occupancy st_69 "CS" "3" = 0 /\
  _assign_division "cs" st_69 = (Ok "1", st_69).
Proof.
  assert (H : occupancy st_69 (Py.upper "cs") "1" = MAX_PER_DIVISION - 1 /\
              occupancy st_69 (Py.upper "cs") "2" = 0 /\
              occupancy st_69 (Py.upper "cs") "3" = 0)
    by (vm_compute; repeat split).
  destruct (C4_assign_division_earliest_below_capacity "cs" st_69)
    as (_ & _ & _ & Htie).
  specialize (Htie H). destruct H as (H1 & H2 & H3).
  repeat split; assumption.
Defined.

(* ------------------------------------------------------------------ *)
(** ** Email derivation *)

Lemma append_assoc (a b c : string) : (a ++ b) ++ c = a ++ (b ++ c).
Proof. induction a as [|x a IH]; simpl; auto. now rewrite IH. Qed.

(** C7: [_generate_email] (the specification's [derive_email]) is a
    function of its four arguments alone and yields
    lower(first).lower(last).prn@lower(branch).college.edu; on
    ("Ann", "Lee", "1007", "CSE") it yields ann.lee.1007@cse.college.edu. *)
Theorem C7_generate_email_format (first_name last_name prn branch : string) :
  _generate_email first_name last_name prn branch
  = derive_email_spec first_name last_name prn branch /\
  _generate_email "Ann" "Lee" "1007" "CSE" = "ann.lee.1007@cse.college.edu".
Proof.
  split; [|reflexivity].
  unfold _generate_email, derive_email_spec, COLLEGE_DOMAIN.
  rewrite !append_assoc. reflexivity.
Qed.

(* ------------------------------------------------------------------ *)
(** ** Lookup failures and branch scope *)

Lemma other_branch_true (e : string) (s : student) :
  e <> EmptyString -> Py.upper (branch s) <> Py.upper e ->
  other_branch (Some e) s = true.
Proof.
  intros He Hne. unfold other_branch.
  destruct e; [contradiction|]. simpl Py.truthy. simpl andb.
  destruct (String.eqb _ _) eqn:E; auto.
  apply String.eqb_eq in E. contradiction.
Qed.

(** C8 as amended: [edit_student] and [delete_student] raise the
    not-found error when no student has the PRN; when the student exists
    and [editor_branch] is a non-empty string that differs from the
    student's branch after upper-casing both, they raise
    [PermissionError] and leave the store, hence the record, as it was.
    An empty [editor_branch] is treated like an absent one. *)
Theorem C8_not_found_and_branch_scope (p : string) (ups : dict pyval)
    (eb : option string) (st : Storage) :
  (find (fun r => String.eqb (prn r) p) (students st) = None ->
   edit_student p ups eb st = (Raise (ValueError not_found_msg), st) /\
   delete_student p eb st = (Raise (ValueError not_found_msg), st)) /\
  (forall s e,
     find (fun r => String.eqb (prn r) p) (students st) = Some s ->
     eb = Some e -> e <> EmptyString ->
     Py.upper (branch s) <> Py.upper e ->
     edit_student p ups eb st = (Raise (PermissionError edit_denied_msg), st) /\
     delete_student p eb st = (Raise (PermissionError delete_denied_msg), st)) /\
  (edit_student p ups (Some EmptyString) st = edit_student p ups None st /\
   delete_student p (Some EmptyString) st = delete_student p None st).
Proof.
  split; [|split].
  - intros Hf. rewrite edit_student_eq, delete_student_eq, Hf. auto.
  - intros s e Hf -> He Hne.
    rewrite edit_student_eq, delete_student_eq, Hf.
    rewrite (other_branch_true e s He Hne). auto.
  - rewrite !edit_student_eq, !delete_student_eq.
    destruct (find _ (students st)); auto.
Qed.

(** C8 on the store with the one student of branch CS: an unknown PRN,
    and an editor of branch EE. *)
Lemma C8_branch_scope_witness :
  (edit_student "1001" [("first_name", PStr "Zed")] (Some "ee") st_one
   = (Raise (PermissionError edit_denied_msg), st_one) /\
   delete_student "1001" (Some "ee") st_one
   = (Raise (PermissionError delete_denied_msg), st_one)) /\
  (edit_student "77" [("first_name", PStr "Zed")] (Some "ee") st_one
   = (Raise (ValueError not_found_msg), st_one) /\
   delete_student "77" (Some "ee") st_one
   = (Raise (ValueError not_found_msg), st_one)).
Proof.
  split.
  - destruct (C8_not_found_and_branch_scope "1001" [("first_name", PStr "Zed")]
                (Some "ee") st_one) as (_ & H & _).
    destruct (find (fun r => String.eqb (prn r) "1001") (students st_one))
      as [s|] eqn:Hf; [|vm_compute in Hf; discriminate].
    apply (H s "ee"); auto.
    + discriminate.
    + vm_compute in Hf. inversion Hf; subst. vm_compute. discriminate.
  - destruct (C8_not_found_and_branch_scope "77" [("first_name", PStr "Zed")]
                (Some "ee") st_one) as (H & _).
    apply H. vm_compute. reflexivity.
Defined.

(** C8 as stated fails: the empty string is a supplied [editor_branch]
    that differs from the student's branch CS, and both calls go
    through; the edit changes the record. *)
Lemma C8_empty_editor_branch_passes :
  exists s,
    find (fun r => String.eqb (prn r) "1001") (students st_one) = Some s /\
    Py.upper (branch s) <> Py.upper "" /\
    (exists r' st',
       edit_student "1001" [("first_name", PStr "Zed")] (Some "") st_one
       = (Ok (Some r'), st') /\
       first_name s = "Ann" /\ first_name r' = "Zed" /\ students st' = [r']) /\
    fst (delete_student "1001" (Some "") st_one) = Ok true /\
    students (snd (delete_student "1001" (Some "") st_one)) = [].
Proof.
  eexists. split; [vm_compute; reflexivity|].
  split; [vm_compute; discriminate|].
  split.
  - eexists. eexists. split; [vm_compute; reflexivity|].
    repeat split.
  - split; vm_compute; reflexivity.
Qed.

(* ------------------------------------------------------------------ *)
(** ** Updates without an allowed key *)

(** C10: when the student exists and the branch check passes, an
    [updates] dictionary with no allowed key (the empty one, or one with
    disallowed keys only) makes [edit_student] raise the storage error of
    an UPDATE with an empty SET list, [sqlite3.OperationalError]; it does
    not return the unchanged record. *)
Theorem C10_no_allowed_key_raises (p : string) (ups : dict pyval)
    (eb : option string) (st : Storage) (s : student) :
  find_student_by_prn p st = (Ok (Some s), st) ->
  other_branch eb s = false ->
  (forall k v, In (k, v) ups -> allowed k = false) ->
  edit_student p ups eb st = (Raise OperationalError, st).
Proof.
  unfold find_student_by_prn. intros Hf Hb Hups.
  inversion Hf as [Hf']. rewrite edit_student_eq, Hf', Hb.
  rewrite (collect_applied_nil ups Hups). reflexivity.
Qed.

Lemma C10_no_allowed_key_witness :
  edit_student "1001" [] (Some "CS") st_one = (Raise OperationalError, st_one) /\
  edit_student "1001" [("prn", PStr "7"); ("class_roll", PStr "CS199")]
               None st_one
  = (Raise OperationalError, st_one).
Proof.
  split.
  - eapply C10_no_allowed_key_raises.
    + vm_compute. reflexivity.
    + vm_compute. reflexivity.
    + intros k v [].
  - eapply C10_no_allowed_key_raises.
    + vm_compute. reflexivity.
    + reflexivity.
    + intros k v [H|[H|[]]]; inversion H; reflexivity.
Defined.

(* ------------------------------------------------------------------ *)
(** ** What an edit may change *)

Lemma find_replace_row (p : string) (rows : list student) (s r' : student) :
  find (fun r => String.eqb (prn r) p) rows = Some s ->
  prn r' = p ->
  find (fun r => String.eqb (prn r) p) (replace_row p r' rows) = Some r'.
Proof.
  intros Hf Hp. unfold replace_row.
  induction rows as [|a rows IH]; simpl in *; [discriminate|].
  destruct (String.eqb (prn a) p) eqn:E.
  - now rewrite Hp, String.eqb_refl.
  - rewrite E. now apply IH.
Qed.

(** A successful edit: the dictionary that reaches [update_student], the
    parameters bound, and the store left. *)
Lemma edit_student_ok (p : string) (ups : dict pyval) (eb : option string)
    (st st' : Storage) res :
  edit_student p ups eb st = (Ok res, st') ->
  exists s applied bound,
    find (fun r => String.eqb (prn r) p) (students st) = Some s /\
    other_branch eb s = false /\
    NoDup (map fst applied) /\
    bind_all (columns_values (dump_extra applied)) = Some bound /\
    (forall c, c <> "branch" -> c <> "division" -> c <> "class_roll" ->
               dict_lookup applied c = dict_lookup (collect_applied ups) c) /\
    (dict_lookup (collect_applied ups) "branch" = None ->
     applied = collect_applied ups) /\
    st' = {| next_prn := next_prn st;
             students := replace_row p (apply_sets bound s) (students st) |} /\
    res = find (fun r => String.eqb (prn r) p) (students st').
Proof.
  rewrite edit_student_eq.
  destruct (find _ (students st)) as [s|] eqn:Hf; [|discriminate].
  destruct (other_branch eb s) eqn:Hob; [discriminate|].
  destruct (dict_lookup (collect_applied ups) "branch") as [[b|j]|] eqn:Hb;
    [|discriminate|].
  - destruct (find _ DIVISIONS) as [d|]; [|discriminate].
    intros Hfin.
    destruct (finish_edit_ok _ _ _ _ _ _ Hf Hfin) as (bound & Hbd & _ & Hst & Hres).
    match type of Hfin with finish_edit p ?a st = _ => exists s, a, bound end.
    repeat split; auto.
    + apply with_branch_nodup, collect_applied_nodup.
    + intros c H1 H2 H3. now apply with_branch_lookup_other.
    + discriminate.
  - intros Hfin.
    destruct (finish_edit_ok _ _ _ _ _ _ Hf Hfin) as (bound & Hbd & _ & Hst & Hres).
    exists s, (collect_applied ups), bound. repeat split; auto.
    apply collect_applied_nodup.
Qed.

Lemma edit_student_raise (p : string) (ups : dict pyval) (eb : option string)
    (st st' : Storage) e :
  edit_student p ups eb st = (Raise e, st') -> st' = st.
Proof.
  rewrite edit_student_eq.
  destruct (find _ (students st)) as [s|]; [|intros H; now inversion H].
  destruct (other_branch eb s); [intros H; now inversion H|].
  destruct (dict_lookup (collect_applied ups) "branch") as [[b|j]|].
  - destruct (find _ DIVISIONS) as [d|]; [|intros H; now inversion H].
    apply finish_edit_raise.
  - intros H; now inversion H.
  - apply finish_edit_raise.
Qed.

Lemma edit_student_keeps_prn (p : string) (ups : dict pyval)
    (eb : option string) (st st' : Storage) res :
  edit_student p ups eb st = (Ok res, st') ->
  exists s r',
    find (fun r => String.eqb (prn r) p) (students st) = Some s /\
    st' = {| next_prn := next_prn st;
             students := replace_row p r' (students st) |} /\
    prn r' = prn s.
Proof.
  intros Hed.
  destruct (edit_student_ok _ _ _ _ _ _ Hed)
    as (s & applied & bound & Hf & _ & Hnd & Hbd & Hother & _ & Hst & _).
  exists s, (apply_sets bound s). repeat split; auto.
  apply (kept_field applied bound s "prn" prn get_prn Hnd Hbd).
  rewrite Hother by discriminate.
  now apply collect_applied_not_allowed.
Qed.

(** C9 as amended: a successful [edit_student] replaces the row of the
    given PRN and nothing else; in that row [prn], [username], [salt] and
    [pw_hash] keep their values, each of [first_name], [last_name],
    [email] and [extra] keeps its value unless [updates] has that key,
    and [branch], [division] and [class_roll] keep their values unless
    [updates] has the key [branch] - they are reassigned whenever that
    key is present, also when the new branch equals the current one.
    Keys outside the allow-list are ignored.  In particular an edit of
    the name fields alone leaves the stored email as it was. *)
Theorem C9_edit_frame (p : string) (ups : dict pyval) (eb : option string)
    (st st' : Storage) (res : option student) :
  edit_student p ups eb st = (Ok res, st') ->
  exists s r',
    find (fun r => String.eqb (prn r) p) (students st) = Some s /\
    res = Some r' /\
    next_prn st' = next_prn st /\
    students st' = replace_row p r' (students st) /\
    prn r' = prn s /\ username r' = username s /\
    salt r' = salt s /\ pw_hash r' = pw_hash s /\
    (~ In "first_name" (map fst ups) -> first_name r' = first_name s) /\
    (~ In "last_name" (map fst ups) -> last_name r' = last_name s) /\
    (~ In "email" (map fst ups) -> email r' = email s) /\
    (~ In "extra" (map fst ups) -> extra r' = extra s) /\
    (~ In "branch" (map fst ups) ->
     branch r' = branch s /\ division r' = division s /\
     class_roll r' = class_roll s) /\
    edit_student p (filter (fun kv => allowed (fst kv)) ups) eb st
    = edit_student p ups eb st.
Proof.
  intros Hed.
  destruct (edit_student_ok _ _ _ _ _ _ Hed)
    as (s & applied & bound & Hf & Hob & Hnd & Hbd & Hother & Hnobranch & Hst & Hres).
  set (r' := apply_sets bound s) in *.
  assert (Hkeep : forall c g,
             (forall r, get_column c r = Some (g r)) ->
             c <> "branch" -> c <> "division" -> c <> "class_roll" ->
             dict_lookup (collect_applied ups) c = None -> g r' = g s).
  { intros c g Hg H1 H2 H3 Hc.
    apply (kept_field applied bound s c g Hg Hnd Hbd).
    now rewrite Hother. }
  assert (Hprn : prn r' = prn s).
  { apply (Hkeep "prn" prn get_prn); try discriminate.
    now apply collect_applied_not_allowed. }
  exists s, r'. subst st'. simpl in *.
  repeat split.
  - exact Hf.
  - rewrite Hres. apply (find_replace_row p _ s r' Hf).
    rewrite Hprn. apply find_some in Hf. destruct Hf as [_ Hp].
    now apply String.eqb_eq in Hp.
  - exact Hprn.
  - apply (Hkeep "username" username get_username); try discriminate.
    now apply collect_applied_not_allowed.
  - apply (Hkeep "salt" salt get_salt); try discriminate.
    now apply collect_applied_not_allowed.
  - apply (Hkeep "pw_hash" pw_hash get_pw_hash); try discriminate.
    now apply collect_applied_not_allowed.
  - intros Hn. apply (Hkeep "first_name" first_name get_first_name);
      try discriminate. now apply collect_applied_notin.
  - intros Hn. apply (Hkeep "last_name" last_name get_last_name);
      try discriminate. now apply collect_applied_notin.
  - intros Hn. apply (Hkeep "email" email get_email);
      try discriminate. now apply collect_applied_notin.
  - intros Hn. apply (Hkeep "extra" extra get_extra);
      try discriminate. now apply collect_applied_notin.
  - apply (kept_field applied bound s "branch" branch get_branch Hnd Hbd).
    rewrite (Hnobranch (collect_applied_notin ups "branch" H)).
    now apply collect_applied_notin.
  - apply (kept_field applied bound s "division" division get_division Hnd Hbd).
    rewrite (Hnobranch (collect_applied_notin ups "branch" H)).
    now apply collect_applied_not_allowed.
  - apply (kept_field applied bound s "class_roll" class_roll get_class_roll Hnd Hbd).
    rewrite (Hnobranch (collect_applied_notin ups "branch" H)).
    now apply collect_applied_not_allowed.
  - rewrite !edit_student_eq, collect_applied_filter. reflexivity.
Qed.

(** C9 on the store with the one student: a rename with a disallowed key
    beside it. *)
Lemma C9_edit_frame_witness :
  exists s r',
    find (fun r => String.eqb (prn r) "1001") (students st_one) = Some s /\
    fst (edit_student "1001"
           [("first_name", PStr "Zed"); ("prn", PStr "7")] (Some "cs") st_one)
    = Ok (Some r') /\
    prn r' = prn s /\ email r' = email s /\ class_roll r' = class_roll s /\
    first_name r' = "Zed".
Proof.
  destruct (edit_student "1001"
              [("first_name", PStr "Zed"); ("prn", PStr "7")] (Some "cs") st_one)
    as [res st'] eqn:Hed.
  assert (Hres : exists r0, res = Ok (Some r0) /\ first_name r0 = "Zed").
  { vm_compute in Hed. inversion Hed. eexists. split; reflexivity. }
  destruct Hres as (r0 & -> & Hfn).
  destruct (C9_edit_frame _ _ _ _ _ _ Hed)
    as (s & r' & Hf & Hr & _ & _ & Hp & _ & _ & _ & _ & _ & He & _ & Hb & _).
  inversion Hr; subst r0.
  exists s, r'. repeat split; auto.
  - apply He. simpl. intros [H|[H|[]]]; discriminate.
  - apply Hb. simpl. intros [H|[H|[]]]; discriminate.
Defined.

(** C9 as stated fails: an edit whose [updates] carry the student's own
    branch leaves the branch as it was and still changes the class roll,
    from CS101 to CS102. *)
Lemma C9_same_branch_reassigns_roll :
  exists s r' st',
    find (fun r => String.eqb (prn r) "1001") (students st_one) = Some s /\
    edit_student "1001" [("branch", PStr "CS")] None st_one = (Ok (Some r'), st') /\
    branch r' = branch s /\
    class_roll s = "CS101" /\ class_roll r' = "CS102".
Proof.
  eexists. eexists. eexists.
  split; [vm_compute; reflexivity|].
  split; [vm_compute; reflexivity|].
  repeat split.
Qed.

(* ------------------------------------------------------------------ *)
(** ** Validation of the text fields *)

Lemma strip_empty : Py.strip EmptyString = EmptyString.
Proof. reflexivity. Qed.

Lemma validate_nonempty_blank (v name : string) :
  Py.truthy (Py.strip v) = false ->
  validate_nonempty v name = Raise (ValueError (name ++ " cannot be empty.")).
Proof.
  intros H. unfold validate_nonempty. rewrite H.
  now rewrite orb_true_r.
Qed.

Lemma validate_nonempty_ok (v name : string) :
  Py.truthy (Py.strip v) = true ->
  validate_nonempty v name = Ok (Py.strip v).
Proof.
  intros H. unfold validate_nonempty. rewrite H.
  destruct v; [discriminate|reflexivity].
Qed.

Lemma blank_truthy (v : string) : blank v <-> Py.truthy (Py.strip v) = false.
Proof.
  unfold blank. destruct (Py.strip v); simpl; split; congruence.
Qed.

(** C5 as amended: [register_student] validates the username only: a
    username that is empty or whitespace makes it raise the error that
    names [username], with the store untouched.  Blank values of
    password, first name, last name and branch are rejected by the front
    end [student_register_flow], which validates the five inputs in
    order, reports the first blank one by name and never reaches
    [register_student]. *)
Theorem C5_blank_fields_rejected (h : string -> string)
    (uu u pw fn ln b : string) (x : option pyval) (st : Storage) :
  (blank u ->
   register_student h uu u pw fn ln b x st
   = (Raise (ValueError "username cannot be empty."), st)) /\
  (forall name,
     first_blank [(u, "username"); (pw, "password"); (fn, "first name");
                  (ln, "last name"); (b, "branch")] = Some name ->
     student_register_flow h uu u pw fn ln b st
     = (Raise (ValueError (name ++ " cannot be empty.")), st)) /\
  (blank u \/ blank pw \/ blank fn \/ blank ln \/ blank b ->
   exists name,
     first_blank [(u, "username"); (pw, "password"); (fn, "first name");
                  (ln, "last name"); (b, "branch")] = Some name).
Proof.
  split; [|split].
  - intros Hu. apply blank_truthy in Hu.
    rewrite register_student_eq.
    now rewrite (validate_nonempty_blank u "username" Hu).
  - intros name. unfold student_register_flow, bind, lift. simpl.
    destruct (Py.truthy (Py.strip u)) eqn:Eu.
    2:{ intros H; inversion H; subst.
        now rewrite (validate_nonempty_blank u "username" Eu). }
    rewrite (validate_nonempty_ok u "username" Eu).
    destruct (Py.truthy (Py.strip pw)) eqn:Ep.
    2:{ intros H; inversion H; subst.
        now rewrite (validate_nonempty_blank pw "password" Ep). }
    rewrite (validate_nonempty_ok pw "password" Ep).
    destruct (Py.truthy (Py.strip fn)) eqn:Ef.
    2:{ intros H; inversion H; subst.
        now rewrite (validate_nonempty_blank fn "first name" Ef). }
    rewrite (validate_nonempty_ok fn "first name" Ef).
    destruct (Py.truthy (Py.strip ln)) eqn:El.
    2:{ intros H; inversion H; subst.
        now rewrite (validate_nonempty_blank ln "last name" El). }
    rewrite (validate_nonempty_ok ln "last name" El).
    destruct (Py.truthy (Py.strip b)) eqn:Eb.
    2:{ intros H; inversion H; subst.
        now rewrite (validate_nonempty_blank b "branch" Eb). }
    discriminate.
  - rewrite !blank_truthy. simpl.
    intros H.
    destruct (Py.truthy (Py.strip u)); [|eauto].
    destruct (Py.truthy (Py.strip pw)); [|eauto].
    destruct (Py.truthy (Py.strip fn)); [|eauto].
    destruct (Py.truthy (Py.strip ln)); [|eauto].
    destruct (Py.truthy (Py.strip b)); [|eauto].
    intuition discriminate.
Qed.

Lemma C5_blank_fields_witness :
  register_student toy_digest "5f1c" "   " "pw" "Ann" "Lee" "CS" None st_one
  = (Raise (ValueError "username cannot be empty."), st_one) /\
  student_register_flow toy_digest "5f1c" "zed" "pw" "  " "" "CS" st_one
  = (Raise (ValueError "first name cannot be empty."), st_one).
Proof.
  split.
  - apply (C5_blank_fields_rejected toy_digest "5f1c" "   " "pw" "Ann" "Lee" "CS"
             None st_one).
    reflexivity.
  - destruct (C5_blank_fields_rejected toy_digest "5f1c" "zed" "pw" "  " "" "CS"
                None st_one) as (_ & Hflow & _).
    apply (Hflow "first name"). reflexivity.
Defined.

(** C5 as stated fails: with password, first name, last name and branch
    all blank, [register_student] returns a record and stores it. *)
Lemma C5_blank_fields_accepted :
  blank "" /\ blank " " /\
  exists r st',
    register_student toy_digest "5f1c" "zed" "" " " "" "" None init_storage
    = (Ok r, st') /\
    students st' = [r] /\
    first_name r = "" /\ last_name r = "" /\ branch r = "" /\
    class_roll r = "X101".
Proof.
  split; [reflexivity|]. split; [reflexivity|].
  eexists. eexists. split; [vm_compute; reflexivity|].
  repeat split.
Qed.

(* ------------------------------------------------------------------ *)
(** ** Failed registrations *)

(** C2 as amended: a failing [register_student] inserts no row, so the
    occupancy of every division and the roll sequence are as before the
    call.  The counter [next_prn] is as before when the call fails on the
    username (blank, or taken); it is advanced by one - the PRN is
    consumed - when the call fails because every division is full or
    because the insert is rejected. *)
Theorem C2_failed_registration (h : string -> string)
    (uu u pw fn ln b : string) (x : option pyval) (st st' : Storage) (e : exn) :
  register_student h uu u pw fn ln b x st = (Raise e, st') ->
  students st' = students st /\
  (forall br d, occupancy st' br d = occupancy st br d) /\
  (((e = ValueError "username cannot be empty."
     \/ e = ValueError username_exists_msg)
    /\ next_prn st' = next_prn st)
   \/
   ((e = ValueError all_full_msg \/ e = IntegrityError)
    /\ next_prn st' = (next_prn st + 1)%Z)).
Proof.
  rewrite register_student_eq.
  unfold validate_nonempty.
  destruct (negb (Py.truthy u) || negb (Py.truthy (Py.strip u))).
  { intros H; inversion H; subst. repeat split; auto. }
  destruct (find _ (students st)).
  { intros H; inversion H; subst. repeat split; auto. }
  destruct (find _ DIVISIONS) as [d|].
  - cbv zeta. destruct (existsb _ _); [|discriminate].
    intros H; inversion H; subst. repeat split; auto.
  - intros H; inversion H; subst. repeat split; auto.
Qed.

Lemma C2_failed_registration_witness :
  exists st',
    register_student toy_digest "5f1c" "u1" "pw" "Ann" "Lee" "CS" None st_one
    = (Raise (ValueError username_exists_msg), st') /\
    students st' = students st_one /\ next_prn st' = next_prn st_one.
Proof.
  destruct (register_student toy_digest "5f1c" "u1" "pw" "Ann" "Lee" "CS" None
              st_one) as [res st'] eqn:Hreg.
  assert (Hres : res = Raise (ValueError username_exists_msg)).
  { apply (f_equal fst) in Hreg. cbn [fst] in Hreg. rewrite <- Hreg.
    vm_compute. reflexivity. }
  subst res. exists st'. split; [reflexivity|].
  destruct (C2_failed_registration _ _ _ _ _ _ _ _ _ _ _ Hreg)
    as (Hs & _ & [[_ Hn]|[[H|H] _]]).
  - split; assumption.
  - discriminate.
  - discriminate.
Defined.

(** C2 as stated fails: after CS101, CS102, CS103 and the deletion of
    CS102, the next registration into CS is rejected by the insert and
    the counter has moved from 1004 to 1005. *)
Lemma C2_prn_consumed_on_failure :
  next_prn st_middle_deleted = 1004%Z /\
  exists st',
    register_student toy_digest "5f1c" "dan" "pw" "Dan" "Roe" "CS" None
                     st_middle_deleted
    = (Raise IntegrityError, st') /\
    next_prn st' = 1005%Z /\ next_prn st' <> next_prn st_middle_deleted.
Proof.
  split; [vm_compute; reflexivity|].
  eexists. split; [vm_compute; reflexivity|].
  split; [reflexivity|]. vm_compute. discriminate.
Qed.

(* ------------------------------------------------------------------ *)
(** ** Class rolls follow the live count *)

Lemma register_student_ok (h : string -> string)
    (uu u pw fn ln b : string) (x : option pyval) (st st' : Storage)
    (r : student) :
  register_student h uu u pw fn ln b x st = (Ok r, st') ->
  In (division r) DIVISIONS /\
  occupancy st (Py.upper b) (division r) < MAX_PER_DIVISION /\
  prn r = Py.str (next_prn st) /\
  class_roll r
  = branch_code b ++ division r
    ++ Py.fmt02 (occupancy st (Py.upper b) (division r) + 1) /\
  branch r = Py.upper (Py.strip b) /\
  email r = _generate_email fn ln (prn r) b /\
  existsb (conflicts r) (students st) = false /\
  st' = {| next_prn := (next_prn st + 1)%Z;
           students := (students st ++ [r])%list |}.
Proof.
  rewrite register_student_eq.
  destruct (validate_nonempty u "username") as [u0|e]; [|discriminate].
  destruct (find _ (students st)); [discriminate|].
  destruct (find _ DIVISIONS) as [d|] eqn:Hd; [|discriminate].
  cbv zeta. destruct (existsb _ _) eqn:Hc; [discriminate|].
  intros H. inversion H; subst. clear H.
  apply find_some in Hd. destruct Hd as [Hin Hlt]. apply Nat.ltb_lt in Hlt.
  simpl. repeat split; auto.
Qed.

Lemma filter_app_length {A} (f : A -> bool) (l1 l2 : list A) :
  List.length (filter f (l1 ++ l2))
  = List.length (filter f l1) + List.length (filter f l2).
Proof. now rewrite filter_app, length_app. Qed.




(* ------------------------------------------------------------------ *)
(** ** The capacity of a division *)

Lemma register_student_full (h : string -> string)
    (uu u pw fn ln b : string) (x : option pyval) (st : Storage) :
  (forall d, In d DIVISIONS ->
             MAX_PER_DIVISION <= occupancy st (Py.upper b) d) ->
  find (fun d => (occupancy st (Py.upper b) d <? MAX_PER_DIVISION)%nat) DIVISIONS
  = None.
Proof.
  intros Hfull. apply find_none_iff. apply Forall_forall.
  intros d Hd. apply Nat.ltb_ge. now apply Hfull.
Qed.

(** C3 at a branch name given with a leading blank.  Branch CS holds 70
    students in each of its three divisions.  [register_student] stores
    the new row under [branch.strip().upper()] and builds the roll from
    [branch_code], which trims as well, but [count_by_branch_division]
    looks the branch up under [branch.upper()], untrimmed: for the
    branch text blank-c-s it finds no row, division 1 is assigned and the
    roll CS101 is computed, which a student already holds.  The insert is
    rejected by the UNIQUE constraint on the class roll: the call raises
    [sqlite3.IntegrityError], not the capacity error the claim names.
    No record is inserted; the PRN counter has moved on by one. *)
Theorem C3_padded_branch_on_full_store :
  occupancy st_full "CS" "1" = 70 /\ occupancy st_full "CS" "2" = 70 /\
  occupancy st_full "CS" "3" = 70 /\
  Py.upper (Py.strip " cs") = "CS" /\ branch_code " cs" = "CS" /\
  Py.upper " cs" = " CS" /\
  fst (count_by_branch_division " cs" st_full)
  = Ok [("1", 0); ("2", 0); ("3", 0)] /\
  fst (_assign_division " cs" st_full) = Ok "1" /\
  fst (_generate_class_roll " cs" "1" st_full) = Ok "CS101" /\
  In "CS101" (map class_roll (students st_full)) /\
  fst (register_student toy_digest "5f1c" "zed" "pw" "Zed" "Poe" " cs" None
         st_full)
  = Raise IntegrityError /\
  fst (register_student toy_digest "5f1c" "zed" "pw" "Zed" "Poe" " cs" None
         st_full)
  <> Raise (ValueError all_full_msg) /\
  students
    (snd (register_student toy_digest "5f1c" "zed" "pw" "Zed" "Poe" " cs" None
            st_full))
  = students st_full /\
  next_prn
    (snd (register_student toy_digest "5f1c" "zed" "pw" "Zed" "Poe" " cs" None
            st_full))
  = (next_prn st_full + 1)%Z.
Proof.
  assert (Hres : fst (register_student toy_digest "5f1c" "zed" "pw" "Zed" "Poe"
                        " cs" None st_full) = Raise IntegrityError)
    by (vm_compute; reflexivity).
  repeat match goal with |- _ /\ _ => split end;
    try (vm_compute; reflexivity).
  - vm_compute. left. reflexivity.
  - rewrite Hres. discriminate.
Qed.

(* ------------------------------------------------------------------ *)
(** ** PRN issuance *)

Lemma to_int_not_nil (v : Z) : Z.to_int v <> Pos Nil /\ Z.to_int v <> Neg Nil.
Proof.
  pose proof (DecimalZ.to_of (Z.to_int v)) as H.
  rewrite DecimalZ.of_to in H.
  split; intro E; rewrite E in H; discriminate.
Qed.

(** [int(str(v)) == v] *)
Lemma int_str (v : Z) : Py.int (Py.str v) = Some v.
Proof.
  unfold Py.int, Py.str.
  destruct (to_int_not_nil v) as [H1 H2].
  rewrite (NilZero.isi _ H1 H2).
  now rewrite DecimalZ.of_to.
Qed.






Lemma prns_below_weaken (rows : list student) (n m : Z) :
  (n <= m)%Z ->
  Forall (fun r => exists v, prn r = Py.str v /\ (v < n)%Z) rows ->
  Forall (fun r => exists v, prn r = Py.str v /\ (v < m)%Z) rows.
Proof.
  intros Hle H. eapply Forall_impl; [|exact H].
  intros r (v & Hv & Hlt). exists v. split; auto. lia.
Qed.

Lemma step_prns_below (h : string -> string) (o : op) (st : Storage) :
  prns_below_counter st -> prns_below_counter (step h o st).
Proof.
  unfold prns_below_counter. intros Hinv. destruct o; simpl.
  - rewrite register_student_eq.
    destruct (validate_nonempty username0 "username"); [|exact Hinv].
    destruct (find _ (students st)); [exact Hinv|].
    destruct (find _ DIVISIONS).
    2:{ simpl. eapply prns_below_weaken; [|exact Hinv]. lia. }
    cbv zeta. destruct (existsb _ _); simpl.
    { eapply prns_below_weaken; [|exact Hinv]. lia. }
    apply Forall_app. split.
    + eapply prns_below_weaken; [|exact Hinv]. lia.
    + constructor; [|constructor]. simpl.
      exists (next_prn st). split; auto. lia.
  - destruct (edit_student p updates editor_branch st) as [[res|e] st'] eqn:H;
      simpl.
    + destruct (edit_student_keeps_prn _ _ _ _ _ _ H) as (s & r' & Hf & -> & Hp).
      simpl. unfold replace_row. apply Forall_forall.
      intros y Hy. apply in_map_iff in Hy. destruct Hy as (o & <- & Ho).
      rewrite Forall_forall in Hinv.
      destruct (String.eqb (prn o) p).
      * rewrite Hp. apply Hinv. apply find_some in Hf. tauto.
      * now apply Hinv.
    + apply edit_student_raise in H. now subst.
  - rewrite delete_student_eq.
    destruct (find _ (students st)) as [s|]; auto.
    destruct (other_branch editor_branch s); auto.
    simpl. rewrite Forall_forall in *. intros r Hr.
    apply filter_In in Hr. now apply Hinv.
Qed.




(* ------------------------------------------------------------------ *)
(** ** Branch codes and validated text *)

Lemma lower_char_idem (c : ascii) :
  Py.lower_char (Py.lower_char c) = Py.lower_char c.
Proof. destruct c as [[] [] [] [] [] [] [] []]; reflexivity. Qed.

Lemma lower_idem (s : string) : Py.lower (Py.lower s) = Py.lower s.
Proof.
  induction s as [|c r IH]; simpl; auto.
  unfold Py.lower in *. simpl. now rewrite lower_char_idem, IH.
Qed.

Lemma smap_length (f : ascii -> ascii) (s : string) :
  String.length (Py.smap f s) = String.length s.
Proof. induction s; simpl; auto. Qed.

Lemma smap_empty (f : ascii -> ascii) (s : string) :
  Py.smap f s = EmptyString <-> s = EmptyString.
Proof. destruct s; simpl; split; congruence. Qed.

Lemma take_upper (n : nat) (s : string) :
  Py.take n (Py.upper s) = Py.upper (Py.take n s).
Proof.
  revert s. induction n as [|n IH]; intros [|c r]; simpl; auto.
  unfold Py.upper in *. simpl. now rewrite IH.
Qed.

(** X1: the branch code is the first two characters of the trimmed,
    upper-cased branch, padded with one [X]: it has two characters for a
    branch that is not blank, and it is the single character [X] for a
    blank branch.  Case and surrounding whitespace of the branch do not
    matter. *)
Theorem X1_branch_code_shape (b : string) :
  branch_code b = Py.take 2 (Py.upper (Py.strip b) ++ "X") /\
  (blank b -> branch_code b = "X") /\
  (~ blank b -> String.length (branch_code b) = 2) /\
  branch_code (Py.upper b) = branch_code b /\
  branch_code (Py.strip b) = branch_code b /\
  Py.upper (branch_code b) = branch_code b.
Proof.
  assert (Hshape : branch_code b = Py.take 2 (Py.upper (Py.strip b) ++ "X")).
  { unfold branch_code. rewrite take_upper, upper_idem, <- take_upper.
    destruct (Py.upper (Py.strip b)) as [|c1 [|c2 r]]; reflexivity. }
  split; [exact Hshape|].
  split; [|split; [|split; [|split]]].
  - unfold blank. intros Hb. now rewrite Hshape, Hb.
  - unfold blank. intros Hb. rewrite Hshape.
    destruct (Py.strip b) as [|c1 [|c2 r]]; [contradiction| |]; reflexivity.
  - apply branch_code_upper.
  - unfold branch_code. now rewrite strip_idem.
  - rewrite Hshape, <- take_upper.
    f_equal. clear Hshape.
    induction (Py.strip b) as [|c r IH]; [reflexivity|].
    unfold Py.upper in *. simpl. now rewrite upper_char_idem, IH.
Qed.

Lemma rstrip_lstrip_fixed (s : string) :
  Py.lstrip (Py.strip s) = Py.strip s /\ Py.rstrip (Py.strip s) = Py.strip s.
Proof.
  unfold Py.strip. split.
  - apply lstrip_no_lead, no_lead_rstrip, no_lead_lstrip.
  - apply rstrip_idem.
Qed.

(** X2: [validate_nonempty] raises the error that names the field
    exactly when the text is blank; otherwise it returns the trimmed
    text, which is not empty, has no whitespace at either end, and
    passes the validation again unchanged. *)
Theorem X2_validate_nonempty_result (s name : string) :
  (blank s <->
   validate_nonempty s name = Raise (ValueError (name ++ " cannot be empty."))) /\
  (forall v,
     validate_nonempty s name = Ok v ->
     v = Py.strip s /\ v <> EmptyString /\
     Py.lstrip v = v /\ Py.rstrip v = v /\
     forall name', validate_nonempty v name' = Ok v).
Proof.
  split.
  - split.
    + intros Hb. apply validate_nonempty_blank. now apply blank_truthy.
    + intros H. apply blank_truthy.
      destruct (Py.truthy (Py.strip s)) eqn:E; auto.
      rewrite (validate_nonempty_ok s name E) in H. discriminate.
  - intros v Hv.
    destruct (Py.truthy (Py.strip s)) eqn:E.
    + rewrite (validate_nonempty_ok s name E) in Hv. inversion Hv; subst v.
      destruct (rstrip_lstrip_fixed s) as [Hl Hr].
      repeat split; auto.
      * intro H0. rewrite H0 in E. discriminate.
      * intros name'. rewrite <- (strip_idem s) at 2.
        apply validate_nonempty_ok. now rewrite strip_idem.
    + rewrite (validate_nonempty_blank s name E) in Hv. discriminate.
Qed.

Lemma X2_validate_nonempty_witness :
  validate_nonempty "  Ann Lee  " "first name" = Ok "Ann Lee" /\
  validate_nonempty "Ann Lee" "username" = Ok "Ann Lee".
Proof.
  destruct (X2_validate_nonempty_result "  Ann Lee  " "first name") as [_ H].
  destruct (H "Ann Lee" eq_refl) as (_ & _ & _ & _ & Hidem).
  split; [reflexivity|apply Hidem].
Defined.

(* ------------------------------------------------------------------ *)
(** ** The row an edit writes *)

Lemma collect_fold_lookup (ups acc : dict pyval) (c : string) :
  NoDup (map fst ups) -> allowed c = true ->
  dict_lookup (fold_left collect_step ups acc) c =
  match dict_lookup ups c with
  | Some v => Some v
  | None => dict_lookup acc c
  end.
Proof.
  intros Hnd Hc. revert acc.
  induction ups as [|[k v] ups IH]; intros acc; simpl; auto.
  inversion Hnd as [|? ? Hnot Hnd']; subst.
  destruct (String.eqb k c) eqn:E.
  - apply String.eqb_eq in E. subst k.
    rewrite collect_fold_lookup_notin by assumption.
    unfold collect_step. simpl. rewrite Hc.
    apply dict_lookup_set_same.
  - rewrite (IH Hnd'). destruct (dict_lookup ups c); auto.
    unfold collect_step. simpl. destruct (allowed k); auto.
    apply dict_lookup_set_other. intro; subst.
    now rewrite String.eqb_refl in E.
Qed.

(** For a dictionary (distinct keys), [applied] holds the allowed entries
    of [updates]. *)
Lemma collect_applied_lookup (ups : dict pyval) (c : string) :
  NoDup (map fst ups) -> allowed c = true ->
  dict_lookup (collect_applied ups) c = dict_lookup ups c.
Proof.
  intros Hnd Hc. rewrite collect_applied_unfold, collect_fold_lookup by assumption.
  destruct (dict_lookup ups c); reflexivity.
Qed.

Lemma bound_lookup_extra (applied : dict pyval) bound (v : pyval) :
  bind_all (columns_values (dump_extra applied)) = Some bound ->
  dict_lookup applied "extra" = Some v ->
  dict_lookup bound "extra" = Some (Json.dumps_str (text_of v)).
Proof.
  intros Hb Hv.
  rewrite (bind_all_lookup _ _ "extra" Hb), columns_values_lookup.
  assert (Hd : dict_lookup (dump_extra applied) "extra" = Some (PStr (text_of v))).
  { unfold dump_extra. rewrite Hv. destruct v as [t|j]; simpl; auto.
    apply dict_lookup_set_same. }
  rewrite Hd. reflexivity.
Qed.

Lemma bound_lookup_obj (applied : dict pyval) bound (c j : string) :
  bind_all (columns_values (dump_extra applied)) = Some bound ->
  c <> "extra" ->
  dict_lookup applied c = Some (PObj j) -> False.
Proof.
  intros Hb Hne Hc.
  assert (Hl : dict_lookup (columns_values (dump_extra applied)) c = Some (PObj j)).
  { rewrite columns_values_lookup, dump_extra_lookup, Hc by assumption.
    destruct (String.eqb c "extra") eqn:E; auto.
    apply String.eqb_eq in E. contradiction. }
  clear Hc. revert bound Hb Hl.
  induction (columns_values (dump_extra applied)) as [|[k v] l IH];
    intros bound Hb Hl; simpl in *; [discriminate|].
  destruct (bindable v) eqn:Hv; [|discriminate].
  destruct (bind_all l) as [r|]; [|discriminate].
  destruct (String.eqb k c).
  - inversion Hl; subst. discriminate.
  - now apply (IH r).
Qed.

(** A successful edit, field by field. *)
Lemma edit_student_row (p : string) (ups : dict pyval) (eb : option string)
    (st st' : Storage) res :
  edit_student p ups eb st = (Ok res, st') ->
  exists s r',
    find (fun r => String.eqb (prn r) p) (students st) = Some s /\
    other_branch eb s = false /\
    res = Some r' /\
    st' = {| next_prn := next_prn st;
             students := replace_row p r' (students st) |} /\
    existsb (conflicts r')
            (filter (fun o => negb (String.eqb (prn o) p)) (students st)) = false /\
    (prn r' = prn s /\ username r' = username s /\
     salt r' = salt s /\ pw_hash r' = pw_hash s) /\
    (forall b,
       dict_lookup (collect_applied ups) "branch" = Some (PStr b) ->
       exists d,
         find (fun d => (occupancy st (Py.upper b) d <? MAX_PER_DIVISION)%nat)
              DIVISIONS = Some d /\
         branch r' = Py.upper b /\ division r' = d /\
         class_roll r'
         = branch_code b ++ d ++ Py.fmt02 (occupancy st (Py.upper b) d + 1)) /\
    (dict_lookup (collect_applied ups) "branch" = None ->
     branch r' = branch s /\ division r' = division s /\
     class_roll r' = class_roll s) /\
    (forall v, dict_lookup (collect_applied ups) "extra" = Some v ->
               extra r' = Json.dumps_str (text_of v)) /\
    (dict_lookup (collect_applied ups) "extra" = None -> extra r' = extra s) /\
    (forall c g,
       (forall r, get_column c r = Some (g r)) ->
       c <> "branch" -> c <> "division" -> c <> "class_roll" -> c <> "extra" ->
       match dict_lookup (collect_applied ups) c with
       | Some (PStr v) => g r' = v
       | Some (PObj _) => False
       | None => g r' = g s
       end).
Proof.
  intros Hed.
  assert (Hcol : forall c g, (forall r, get_column c r = Some (g r)) ->
                             is_column c = true).
  { intros c g Hg. destruct (is_column c) eqn:E; auto.
    pose proof (get_column_not_column c
                  (mkStudent "" "" "" "" "" "" "" "" "" "" "") E) as H.
    rewrite Hg in H. discriminate. }
  rewrite edit_student_eq in Hed.
  destruct (find _ (students st)) as [s|] eqn:Hf; [|discriminate].
  destruct (other_branch eb s) eqn:Hob; [discriminate|].
  pose proof (collect_applied_nodup ups) as Hnd0.
  set (base := collect_applied ups) in *.
  assert (Hfin : exists applied,
             finish_edit p applied st = (Ok res, st') /\
             NoDup (map fst applied) /\
             (forall c, c <> "branch" -> c <> "division" -> c <> "class_roll" ->
                        dict_lookup applied c = dict_lookup base c) /\
             (dict_lookup base "branch" = None -> applied = base) /\
             (forall b, dict_lookup base "branch" = Some (PStr b) ->
                exists d,
                  find (fun d => (occupancy st (Py.upper b) d <? MAX_PER_DIVISION)%nat)
                       DIVISIONS = Some d /\
                  applied = with_branch base (Py.upper b) d
                              (branch_code b ++ d
                               ++ Py.fmt02 (occupancy st (Py.upper b) d + 1)))).
  { destruct (dict_lookup base "branch") as [[b|j]|] eqn:Hb; [|discriminate|].
    - destruct (find _ DIVISIONS) as [d|] eqn:Hd; [|discriminate].
      eexists. split; [exact Hed|]. split; [now apply with_branch_nodup|].
      split; [intros; now apply with_branch_lookup_other|].
      split; [discriminate|].
      intros b' Hb'. inversion Hb'; subst b'. exists d. split; auto.
    - exists base. split; [exact Hed|]. repeat split; auto. discriminate. }
  clear Hed. destruct Hfin as (applied & Hfin & Hnd & Hother & Hnone & Hsome).
  destruct (finish_edit_ok _ _ _ _ _ _ Hf Hfin) as (bound & Hbd & Hc & Hst & Hres).
  set (r' := apply_sets bound s) in *.
  assert (Hkeep : forall c g,
             (forall r, get_column c r = Some (g r)) ->
             c <> "branch" -> c <> "division" -> c <> "class_roll" ->
             dict_lookup base c = None -> g r' = g s).
  { intros c g Hg H1 H2 H3 Hcn.
    apply (kept_field applied bound s c g Hg Hnd Hbd). now rewrite Hother. }
  assert (Hprn : prn r' = prn s).
  { apply (Hkeep "prn" prn get_prn); try discriminate.
    now apply collect_applied_not_allowed. }
  exists s, r'. split; [reflexivity|]. split; [exact Hob|].
  split.
  { rewrite Hres, Hst. simpl. apply (find_replace_row p _ s r' Hf).
    rewrite Hprn. apply find_some in Hf. destruct Hf as [_ Hp].
    now apply String.eqb_eq in Hp. }
  split; [exact Hst|]. split; [exact Hc|].
  split.
  { repeat split; auto.
    - apply (Hkeep "username" username get_username); try discriminate.
      now apply collect_applied_not_allowed.
    - apply (Hkeep "salt" salt get_salt); try discriminate.
      now apply collect_applied_not_allowed.
    - apply (Hkeep "pw_hash" pw_hash get_pw_hash); try discriminate.
      now apply collect_applied_not_allowed. }
  split.
  { intros b Hb. destruct (Hsome b Hb) as (d & Hd & Happ).
    exists d. split; [exact Hd|].
    repeat split.
    - apply (set_field applied bound s "branch" _ branch get_branch Hnd Hbd);
        try discriminate; try reflexivity.
      rewrite Happ. apply with_branch_lookup_branch.
    - apply (set_field applied bound s "division" _ division get_division Hnd Hbd);
        try discriminate; try reflexivity.
      rewrite Happ. apply with_branch_lookup_division.
    - apply (set_field applied bound s "class_roll" _ class_roll get_class_roll
               Hnd Hbd); try discriminate; try reflexivity.
      rewrite Happ. apply with_branch_lookup_class_roll. }
  split.
  { intros Hb. pose proof (Hnone Hb) as Ha. subst applied. repeat split.
    - now apply (kept_field base bound s "branch" branch get_branch Hnd Hbd).
    - apply (kept_field base bound s "division" division get_division Hnd Hbd).
      now apply collect_applied_not_allowed.
    - apply (kept_field base bound s "class_roll" class_roll get_class_roll Hnd Hbd).
      now apply collect_applied_not_allowed. }
  split.
  { intros v Hv.
    assert (Hav : dict_lookup applied "extra" = Some v)
      by (rewrite Hother by discriminate; exact Hv).
    pose proof (bound_lookup_extra applied bound v Hbd Hav) as Hbe.
    pose proof (apply_sets_get bound "extra" s (bound_nodup _ _ Hnd Hbd)) as Hg.
    rewrite Hbe in Hg. simpl in Hg. fold r' in Hg. now inversion Hg. }
  split.
  { intros Hv. apply (Hkeep "extra" extra get_extra); try discriminate. exact Hv. }
  intros c g Hg H1 H2 H3 H4.
  destruct (dict_lookup base c) as [[v|j]|] eqn:Hl.
  - apply (set_field applied bound s c v g Hg Hnd Hbd H4 (Hcol c g Hg)).
    now rewrite Hother.
  - apply (bound_lookup_obj applied bound c j Hbd H4). now rewrite Hother.
  - now apply (Hkeep c g Hg).
Qed.

(* ------------------------------------------------------------------ *)
(** ** The store invariant under every call *)

Lemma NoDup_map_in_eq {A B} (f : A -> B) (l : list A) (x y : A) :
  NoDup (map f l) -> In x l -> In y l -> f x = f y -> x = y.
Proof.
  induction l as [|a l IH]; simpl; [contradiction|].
  intros Hnd Hx Hy Hf. inversion Hnd as [|? ? Hn Hnd']; subst.
  destruct Hx as [->|Hx], Hy as [->|Hy]; auto.
  - exfalso. apply Hn. rewrite Hf. now apply in_map.
  - exfalso. apply Hn. rewrite <- Hf. now apply in_map.
Qed.

Lemma find_by_key {A} (f : A -> string) (l : list A) (x : A) :
  NoDup (map f l) -> In x l ->
  find (fun r => String.eqb (f r) (f x)) l = Some x.
Proof.
  intros Hnd Hin.
  destruct (find (fun r => String.eqb (f r) (f x)) l) as [y|] eqn:E.
  - apply find_some in E. destruct E as [Hy He].
    apply String.eqb_eq in He. f_equal.
    now apply (NoDup_map_in_eq f l y x).
  - exfalso. apply (find_none _ _ E) in Hin.
    now rewrite String.eqb_refl in Hin.
Qed.

Lemma others_no_conflict (st : Storage) (s r' : student) :
  table_ok st -> NoDup (map username (students st)) ->
  In s (students st) ->
  prn r' = prn s -> class_roll r' = class_roll s -> username r' = username s ->
  existsb (conflicts r')
          (filter (fun o => negb (String.eqb (prn o) (prn s))) (students st))
  = false.
Proof.
  intros [Hp Hr _] Hu Hin Ep Ec Eu.
  destruct (existsb _ _) eqn:E; auto.
  apply existsb_exists in E. destruct E as (o & Ho & Hc).
  apply filter_In in Ho. destruct Ho as [Ho Hne].
  apply negb_true_iff in Hne.
  assert (Hdiff : o <> s).
  { intro; subst. now rewrite String.eqb_refl in Hne. }
  exfalso. apply Hdiff.
  unfold conflicts in Hc. rewrite Ep, Ec, Eu in Hc.
  apply orb_true_iff in Hc. destruct Hc as [Hc|Hc].
  - apply orb_true_iff in Hc. destruct Hc as [Hc|Hc];
      apply String.eqb_eq in Hc.
    + now apply (NoDup_map_in_eq prn (students st)).
    + now apply (NoDup_map_in_eq class_roll (students st)).
  - apply String.eqb_eq in Hc.
    now apply (NoDup_map_in_eq username (students st)).
Qed.

Lemma replace_row_map_same {B} (f : student -> B) (p : string)
    (s r' : student) (rows : list student) :
  NoDup (map prn rows) ->
  find (fun r => String.eqb (prn r) p) rows = Some s ->
  f r' = f s ->
  map f (replace_row p r' rows) = map f rows.
Proof.
  intros Hnd Hf Hs.
  destruct (find_prn_split p rows s r' Hnd Hf) as (l1 & l2 & H1 & _ & H3).
  rewrite H3. rewrite H1. rewrite !map_app. simpl. now rewrite Hs.
Qed.

Lemma replace_row_Forall (P : student -> Prop) (p : string) (r' : student)
    (rows : list student) :
  Forall P rows -> P r' -> Forall P (replace_row p r' rows).
Proof.
  intros Hall Hr. unfold replace_row. apply Forall_forall.
  intros y Hy. apply in_map_iff in Hy. destruct Hy as (o & <- & Ho).
  rewrite Forall_forall in Hall.
  destruct (String.eqb (prn o) p); auto.
Qed.

Lemma replace_row_store_ok (st : Storage) (p : string) (s r' : student) :
  store_ok st ->
  find (fun r => String.eqb (prn r) p) (students st) = Some s ->
  prn r' = prn s -> username r' = username s ->
  existsb (conflicts r')
          (filter (fun o => negb (String.eqb (prn o) p)) (students st)) = false ->
  roll_ok r' -> row_wf r' ->
  store_ok {| next_prn := next_prn st;
              students := replace_row p r' (students st) |}.
Proof.
  intros [Ht Hu Hw Hp] Hf Ep Eu Hc Hroll Hwf.
  split; simpl.
  - now apply (replace_row_table_ok st p s).
  - rewrite (replace_row_map_same username p s r'); auto. now destruct Ht.
  - now apply replace_row_Forall.
  - unfold prns_below_counter in *. simpl.
    apply replace_row_Forall; auto.
    rewrite Ep. rewrite Forall_forall in Hp. apply Hp.
    apply find_some in Hf. tauto.
Qed.

Lemma store_ok_init : store_ok init_storage.
Proof.
  split; [apply table_ok_init|constructor|constructor|constructor].
Qed.

Lemma register_student_raise (h : string -> string)
    (uu u pw fn ln b : string) (x : option pyval) (st st' : Storage) (e : exn) :
  register_student h uu u pw fn ln b x st = (Raise e, st') ->
  students st' = students st.
Proof.
  rewrite register_student_eq.
  destruct (validate_nonempty u "username"); [|intros H; now inversion H].
  destruct (find _ (students st)); [intros H; now inversion H|].
  destruct (find _ DIVISIONS); [|intros H; now inversion H].
  cbv zeta. destruct (existsb _ _); [|discriminate].
  intros H; now inversion H.
Qed.

Lemma register_student_store_ok (h : string -> string)
    (uu u pw fn ln b : string) (x : option pyval) (st : Storage) :
  store_ok st -> store_ok (snd (register_student h uu u pw fn ln b x st)).
Proof.
  intros Hok.
  pose proof (register_student_table_ok h uu u pw fn ln b x st (ok_table _ Hok))
    as Ht.
  pose proof (step_prns_below h (Register uu u pw fn ln b x) st (ok_prns _ Hok))
    as Hp.
  simpl in Hp.
  destruct (register_student h uu u pw fn ln b x st) as [[r|e] st'] eqn:Hreg;
    simpl in *.
  - destruct (register_student_ok _ _ _ _ _ _ _ _ _ _ _ Hreg)
      as (Hd & _ & _ & _ & Hb & _ & Hc & Hst).
    apply no_conflicts in Hc. destruct Hc as (_ & _ & Hu).
    assert (Huser : exists u0, validate_nonempty u "username" = Ok u0 /\
                               username r = Py.lower u0).
    { rewrite register_student_eq in Hreg.
      destruct (validate_nonempty u "username") as [u0|]; [|discriminate].
      exists u0. split; auto.
      destruct (find _ (students st)); [discriminate|].
      destruct (find _ DIVISIONS); [|discriminate].
      cbv zeta in Hreg. destruct (existsb _ _); [discriminate|].
      inversion Hreg. reflexivity. }
    destruct Huser as (u0 & Hv & Hun).
    assert (Hne : u0 <> EmptyString).
    { unfold validate_nonempty in Hv.
      destruct (negb (Py.truthy u) || negb (Py.truthy (Py.strip u))) eqn:E;
        [discriminate|].
      inversion Hv; subst u0. apply orb_false_iff in E. destruct E as [_ E].
      apply negb_false_iff in E. intro H0. rewrite H0 in E. discriminate. }
    subst st'. destruct Hok as [_ Hus Hw _]. split; simpl; auto.
    + now apply NoDup_map_snoc.
    + apply Forall_app. split; auto. constructor; [|constructor].
      split; auto.
      * rewrite Hb. apply upper_idem.
      * rewrite Hun. apply lower_idem.
      * rewrite Hun. intro H0. apply Hne.
        now apply (smap_empty Py.lower_char).
  - pose proof (register_student_raise h uu u pw fn ln b x st st' e Hreg) as Hs.
    destruct Hok as [_ Hus Hw _]. split; auto; now rewrite Hs.
Qed.

Lemma edit_student_store_ok (p : string) (ups : dict pyval)
    (eb : option string) (st : Storage) :
  store_ok st -> store_ok (snd (edit_student p ups eb st)).
Proof.
  intros Hok.
  destruct (edit_student p ups eb st) as [[res|e] st'] eqn:Hed; simpl.
  2:{ apply edit_student_raise in Hed. now subst. }
  pose proof (edit_student_table_ok p ups eb st (ok_table _ Hok)) as Ht.
  rewrite Hed in Ht. simpl in Ht.
  destruct (edit_student_row _ _ _ _ _ _ Hed)
    as (s & r' & Hf & _ & _ & Hst & Hc & (Hp & Hu & _ & _) & Hbr & Hnb & _).
  subst st'.
  assert (Hin : In s (students st)) by (apply find_some in Hf; tauto).
  assert (Hws : row_wf s).
  { destruct Hok as [_ _ Hw _]. rewrite Forall_forall in Hw. now apply Hw. }
  apply (replace_row_store_ok st p s r' Hok Hf Hp Hu Hc).
  - destruct Ht as [_ _ Hrolls]. simpl in Hrolls.
    rewrite Forall_forall in Hrolls. apply Hrolls.
    unfold replace_row. apply in_map_iff. exists s. split; auto.
    apply find_some in Hf. destruct Hf as [_ Hf]. now rewrite Hf.
  - destruct Hws as [Hb Hd Hl Hne].
    destruct (dict_lookup (collect_applied ups) "branch") as [[b|j]|] eqn:Hl0.
    + destruct (Hbr b eq_refl) as (d & Hd' & Eb & Ed & _).
      apply find_some in Hd'. destruct Hd' as [Hd' _].
      split; rewrite ?Eb, ?Ed, ?Hu; auto. apply upper_idem.
    + exfalso.
      clear -Hed Hl0. rewrite edit_student_eq in Hed.
      destruct (find _ (students st)) as [s0|]; [|discriminate].
      destruct (other_branch eb s0); [discriminate|].
      rewrite Hl0 in Hed. discriminate.
    + destruct (Hnb eq_refl) as (Eb & Ed & _).
      split; rewrite ?Eb, ?Ed, ?Hu; auto.
Qed.

Lemma delete_student_store_ok (p : string) (eb : option string) (st : Storage) :
  store_ok st -> store_ok (snd (delete_student p eb st)).
Proof.
  intros Hok.
  pose proof (delete_student_table_ok p eb st (ok_table _ Hok)) as Ht.
  rewrite delete_student_eq in *.
  destruct (find _ (students st)) as [s|]; [|exact Hok].
  destruct (other_branch eb s); [exact Hok|].
  destruct Hok as [_ Hu Hw Hp]. split; simpl in *; auto.
  - now apply NoDup_map_filter.
  - rewrite Forall_forall in *. intros r Hr. apply filter_In in Hr. now apply Hw.
  - unfold prns_below_counter in *. simpl.
    rewrite Forall_forall in *. intros r Hr. apply filter_In in Hr. now apply Hp.
Qed.

(* ------------------------------------------------------------------ *)
(** ** Password changes *)

Lemma apply_sets_password (a b : string) (r : student) :
  apply_sets [("salt", a); ("pw_hash", b)] r = with_password r a b.
Proof. destruct r. reflexivity. Qed.

Lemma change_student_password_eq (h : string -> string)
    (uu u old new : string) (st : Storage) :
  change_student_password h uu u old new st =
  match find (fun r => String.eqb (username r) (Py.lower (Py.strip u)))
             (students st) with
  | None => (Raise (ValueError not_found_msg), st)
  | Some s =>
      if negb (verify_password h old (salt s) (pw_hash s))
      then (Raise (ValueError old_password_msg), st)
      else
        match find (fun r => String.eqb (prn r) (prn s)) (students st) with
        | None => (Ok true, st)
        | Some r0 =>
            let r' := with_password r0 uu (h (uu ++ new)) in
            if existsb (conflicts r')
                       (filter (fun o => negb (String.eqb (prn o) (prn s)))
                               (students st))
            then (Raise IntegrityError, st)
            else (Ok true,
                  {| next_prn := next_prn st;
                     students := replace_row (prn s) r' (students st) |})
        end
  end.
Proof.
  unfold change_student_password, bind, find_student_by_username.
  destruct (find _ (students st)) as [s|]; [|reflexivity].
  destruct (negb _); [reflexivity|].
  unfold update_student, sql_update_students, hash_password. simpl.
  destruct (find _ (students st)) as [r0|]; [|reflexivity].
  destruct r0. unfold conflicts, with_password. simpl.
  destruct (existsb _ _); reflexivity.
Qed.

Lemma change_student_password_store_ok (h : string -> string)
    (uu u old new : string) (st : Storage) :
  store_ok st -> store_ok (snd (change_student_password h uu u old new st)).
Proof.
  intros Hok. rewrite change_student_password_eq.
  destruct (find _ (students st)) as [s|] eqn:Hf; [|exact Hok].
  destruct (negb _); [exact Hok|].
  destruct (find (fun r => String.eqb (prn r) (prn s)) (students st))
    as [r0|] eqn:Hp; [|exact Hok].
  cbv zeta. destruct (existsb _ _) eqn:Hc; [exact Hok|]. simpl.
  assert (Hin0 : In r0 (students st)) by (apply find_some in Hp; tauto).
  apply (replace_row_store_ok st (prn s) r0); auto.
  - destruct Hok as [[_ _ Hr] _ _ _]. rewrite Forall_forall in Hr.
    apply (Hr r0 Hin0).
  - destruct Hok as [_ _ Hw _]. rewrite Forall_forall in Hw.
    destruct (Hw r0 Hin0). split; auto.
Qed.

Lemma call_step_store_ok (h : string -> string) (c : call) (st : Storage) :
  store_ok st -> store_ok (call_step h c st).
Proof.
  destruct c as [[uu u pw fn ln b x|p ups eb|p eb]|uu u old new]; simpl.
  - apply register_student_store_ok.
  - apply edit_student_store_ok.
  - apply delete_student_store_ok.
  - apply change_student_password_store_ok.
Qed.

Lemma run_calls_store_ok (h : string -> string) (cs : list call) (st : Storage) :
  store_ok st -> store_ok (run_calls h cs st).
Proof.
  revert st. induction cs as [|c cs IH]; intros st Hok; simpl; auto.
  apply IH. now apply call_step_store_ok.
Qed.

(* ------------------------------------------------------------------ *)
(** ** Reachable stores *)

Lemma store_ok_keys_unique (st : Storage) : store_ok st -> keys_unique st.
Proof. intros [[Hp Hr _] Hu _ _]. now split. Qed.

(** X3: from the empty store, after any sequence of registrations,
    edits, deletions and password changes, no two students share a PRN, a
    class roll or a username. *)
Theorem X3_keys_stay_unique (h : string -> string) (cs : list call) :
  NoDup (map prn (students (run_calls h cs init_storage))) /\
  NoDup (map class_roll (students (run_calls h cs init_storage))) /\
  NoDup (map username (students (run_calls h cs init_storage))).
Proof.
  destruct (store_ok_keys_unique _ (run_calls_store_ok h cs _ store_ok_init))
    as [Hp Hr Hu].
  auto.
Qed.

(** X4: in every store reached from the empty one, each student row has
    an upper-cased branch, a division among "1", "2", "3", a class roll
    made of the code of its branch, its division and a two-digit number
    from 01 to 70, and a lower-cased, non-empty username. *)
Theorem X4_stored_row_shape (h : string -> string) (cs : list call) (r : student) :
  In r (students (run_calls h cs init_storage)) ->
  Py.upper (branch r) = branch r /\
  In (division r) DIVISIONS /\
  (exists k, 1 <= k <= 70 /\
             class_roll r = branch_code (branch r) ++ division r ++ Py.fmt02 k) /\
  Py.lower (username r) = username r /\
  username r <> EmptyString.
Proof.
  intros Hin.
  destruct (run_calls_store_ok h cs _ store_ok_init) as [[_ _ Hrolls] _ Hw _].
  rewrite Forall_forall in Hrolls, Hw.
  destruct (Hw r Hin) as [Hb Hd Hl Hne].
  specialize (Hrolls r Hin). unfold roll_ok, division_rolls in Hrolls.
  apply in_map_iff in Hrolls. destruct Hrolls as (k & Hk & Hseq).
  apply in_seq in Hseq. unfold MAX_PER_DIVISION in Hseq.
  repeat split; auto. exists k. split; [lia|auto].
Qed.

Lemma X4_stored_row_shape_witness :
  exists r,
    In r (students st_mixed) /\ username r = "ann" /\ branch r = "CS" /\
    Py.upper (branch r) = branch r /\ In (division r) DIVISIONS.
Proof.
  assert (Hin : exists r, In r (students st_mixed) /\ username r = "ann"
                          /\ branch r = "CS").
  { vm_compute. eexists. split; [left; reflexivity|]. split; reflexivity. }
  destruct Hin as (r & Hin & Hu & Hb).
  exists r. split; [exact Hin|]. split; [exact Hu|]. split; [exact Hb|].
  destruct (X4_stored_row_shape toy_digest
              (map Call [Register "5f1c" "Ann" "pw1" "Ann" "Lee" "cs" None;
                         Register "5f1c" "bob" "pw2" "Bob" "Ray" "EE" None;
                         Register "5f1c" "cy" "pw3" "Cy" "Lee" "CS" None])
              r Hin) as (H1 & H2 & _).
  split; assumption.
Defined.

(* ------------------------------------------------------------------ *)
(** ** Registration, lookup and login *)

Lemma find_snoc_new {A} (f : A -> bool) (l : list A) (x : A) :
  find f l = None -> f x = true -> find f (l ++ [x]) = Some x.
Proof.
  intros Hn Hx. induction l as [|a l IH]; simpl in *.
  - now rewrite Hx.
  - destruct (f a); [discriminate|auto].
Qed.

Lemma not_in_find_none {A} (g : A -> string) (l : list A) (k : string) :
  ~ In k (map g l) -> find (fun r => String.eqb (g r) k) l = None.
Proof.
  intros Hn. induction l as [|a l IH]; simpl in *; auto.
  destruct (String.eqb (g a) k) eqn:E.
  - apply String.eqb_eq in E. exfalso. apply Hn. now left.
  - apply IH. intro. apply Hn. now right.
Qed.

Lemma register_student_username (h : string -> string)
    (uu u pw fn ln b : string) (x : option pyval) (st st' : Storage)
    (r : student) :
  register_student h uu u pw fn ln b x st = (Ok r, st') ->
  username r = Py.lower (Py.strip u) /\
  salt r = uu /\ pw_hash r = h (uu ++ pw) /\
  first_name r = Py.strip fn /\ last_name r = Py.strip ln /\
  extra r = Json.dumps (extra_or_empty x).
Proof.
  rewrite register_student_eq. unfold validate_nonempty.
  destruct (negb (Py.truthy u) || negb (Py.truthy (Py.strip u))); [discriminate|].
  destruct (find _ (students st)); [discriminate|].
  destruct (find _ DIVISIONS); [|discriminate].
  cbv zeta. destruct (existsb _ _); [discriminate|].
  intros H. inversion H. repeat split.
Qed.

Lemma register_student_found (h : string -> string)
    (uu u pw fn ln b : string) (x : option pyval) (st st' : Storage)
    (r : student) :
  register_student h uu u pw fn ln b x st = (Ok r, st') ->
  find (fun o => String.eqb (prn o) (prn r)) (students st') = Some r /\
  find (fun o => String.eqb (username o) (username r)) (students st') = Some r /\
  find (fun o => String.eqb (class_roll o) (class_roll r)) (students st')
  = Some r.
Proof.
  intros Hreg.
  destruct (register_student_ok _ _ _ _ _ _ _ _ _ _ _ Hreg)
    as (_ & _ & _ & _ & _ & _ & Hc & Hst).
  apply no_conflicts in Hc. destruct Hc as (Hp & Hr & Hu).
  subst st'. simpl.
  repeat split; (apply find_snoc_new; [|apply String.eqb_refl]);
    now apply not_in_find_none.
Qed.

(** X5: a student that [register_student] returns is found afterwards by
    its PRN, by its username and by its class roll, and
    [get_student_profile] on its PRN returns its profile. *)
Theorem X5_registered_student_is_found (h : string -> string)
    (uu u pw fn ln b : string) (x : option pyval) (st st' : Storage)
    (r : student) :
  register_student h uu u pw fn ln b x st = (Ok r, st') ->
  find_student_by_prn (prn r) st' = (Ok (Some r), st') /\
  find_student_by_username (username r) st' = (Ok (Some r), st') /\
  find_student_by_class_roll (class_roll r) st' = (Ok (Some r), st') /\
  get_student_profile (prn r) st' = (Ok (Some (sanitize r)), st').
Proof.
  intros Hreg.
  destruct (register_student_found _ _ _ _ _ _ _ _ _ _ _ Hreg) as (Fp & Fu & Fr).
  unfold get_student_profile, bind, ret, find_student_by_prn,
    find_student_by_username, find_student_by_class_roll.
  rewrite Fp, Fu, Fr. repeat split.
Qed.

Lemma X5_registered_student_witness :
  exists r st',
    register_student toy_digest "5f1c" "Dan" "pw" "Dan" "Roe" "ee" None st_mixed
    = (Ok r, st') /\
    find_student_by_class_roll "EE102" st' = (Ok (Some r), st').
Proof.
  destruct (register_student toy_digest "5f1c" "Dan" "pw" "Dan" "Roe" "ee" None
              st_mixed) as [res st'] eqn:Hreg.
  assert (Hres : exists r, res = Ok r /\ class_roll r = "EE102").
  { apply (f_equal fst) in Hreg. cbn [fst] in Hreg. rewrite <- Hreg.
    vm_compute. eexists. split; reflexivity. }
  destruct Hres as (r & -> & Hroll).
  exists r, st'. split; [reflexivity|].
  destruct (X5_registered_student_is_found _ _ _ _ _ _ _ _ _ _ _ Hreg)
    as (_ & _ & H & _).
  rewrite Hroll in H. exact H.
Defined.

(** X6: after a successful registration the student can log in: with
    the password given at registration and the same username, or any
    username that trims and lower-cases to the same text,
    [student_login] returns the profile of that student.  A username
    that no student has gives [None]. *)
Theorem X6_login_after_registration (h : string -> string)
    (uu u pw fn ln b : string) (x : option pyval) (st st' : Storage)
    (r : student) :
  register_student h uu u pw fn ln b x st = (Ok r, st') ->
  (forall u2,
     Py.lower (Py.strip u2) = Py.lower (Py.strip u) ->
     student_login h u2 pw st' = (Ok (Some (sanitize r)), st')) /\
  student_login h u pw st' = (Ok (Some (sanitize r)), st') /\
  (forall u3 pw3,
     ~ In (Py.lower (Py.strip u3)) (map username (students st')) ->
     student_login h u3 pw3 st' = (Ok None, st')).
Proof.
  intros Hreg.
  destruct (register_student_found _ _ _ _ _ _ _ _ _ _ _ Hreg) as (_ & Hfu & _).
  destruct (register_student_username _ _ _ _ _ _ _ _ _ _ _ Hreg)
    as (Hu & Hs & Hp & _).
  assert (Hlog : forall u2,
             Py.lower (Py.strip u2) = Py.lower (Py.strip u) ->
             student_login h u2 pw st' = (Ok (Some (sanitize r)), st')).
  { intros u2 Hu2. unfold student_login, bind, ret, find_student_by_username.
    rewrite Hu2, <- Hu, Hfu. unfold verify_password.
    now rewrite Hs, Hp, String.eqb_refl. }
  split; [exact Hlog|]. split; [now apply Hlog|].
  intros u3 pw3 Hn. unfold student_login, bind, ret, find_student_by_username.
    now rewrite (not_in_find_none username _ _ Hn).
Qed.

Lemma X6_login_witness :
  exists r st',
    register_student toy_digest "5f1c" "Dan" "pw" "Dan" "Roe" "ee" None st_mixed
    = (Ok r, st') /\
    student_login toy_digest "  DAN " "pw" st' = (Ok (Some (sanitize r)), st').
Proof.
  destruct (register_student toy_digest "5f1c" "Dan" "pw" "Dan" "Roe" "ee" None
              st_mixed) as [res st'] eqn:Hreg.
  assert (Hres : exists r, res = Ok r).
  { apply (f_equal fst) in Hreg. cbn [fst] in Hreg. rewrite <- Hreg.
    vm_compute. eexists. reflexivity. }
  destruct Hres as (r & ->).
  exists r, st'. split; [reflexivity|].
  destruct (X6_login_after_registration _ _ _ _ _ _ _ _ _ _ _ Hreg) as (H & _).
  apply H. reflexivity.
Defined.

(* ------------------------------------------------------------------ *)
(** ** Changing a password *)

Lemma others_no_conflict_keys (st : Storage) (s r' : student) :
  keys_unique st -> In s (students st) ->
  prn r' = prn s -> class_roll r' = class_roll s -> username r' = username s ->
  existsb (conflicts r')
          (filter (fun o => negb (String.eqb (prn o) (prn s))) (students st))
  = false.
Proof.
  intros [Hp Hr Hu] Hin Ep Ec Eu.
  destruct (existsb _ _) eqn:E; auto.
  apply existsb_exists in E. destruct E as (o & Ho & Hc).
  apply filter_In in Ho. destruct Ho as [Ho Hne].
  apply negb_true_iff in Hne.
  assert (Hdiff : o <> s).
  { intro; subst. now rewrite String.eqb_refl in Hne. }
  exfalso. apply Hdiff.
  unfold conflicts in Hc. rewrite Ep, Ec, Eu in Hc.
  apply orb_true_iff in Hc. destruct Hc as [Hc|Hc].
  - apply orb_true_iff in Hc. destruct Hc as [Hc|Hc];
      apply String.eqb_eq in Hc.
    + now apply (NoDup_map_in_eq prn (students st)).
    + now apply (NoDup_map_in_eq class_roll (students st)).
  - apply String.eqb_eq in Hc.
    now apply (NoDup_map_in_eq username (students st)).
Qed.

Lemma find_replace_row_username (p : string) (rows : list student)
    (s r' : student) (u : string) :
  NoDup (map prn rows) ->
  find (fun r => String.eqb (username r) u) rows = Some s ->
  prn s = p -> username r' = username s ->
  find (fun r => String.eqb (username r) u) (replace_row p r' rows) = Some r'.
Proof.
  intros Hnd Hf Hp Hu. unfold replace_row.
  induction rows as [|a rows IH]; simpl in *; [discriminate|].
  inversion Hnd as [|? ? Hn Hnd']; subst.
  destruct (String.eqb (username a) u) eqn:E.
  - inversion Hf; subst a. now rewrite String.eqb_refl, Hu, E.
  - destruct (String.eqb (prn a) (prn s)) eqn:Ep.
    + exfalso. apply String.eqb_eq in Ep. apply Hn. rewrite Ep.
      apply in_map. apply find_some in Hf. tauto.
    + rewrite E. now apply IH.
Qed.

(** X7: [change_student_password] raises "Student not found." for an
    unknown username and "Old password incorrect." when the old password
    does not verify, and leaves the store as it was in both cases.  When
    the old password verifies (in a table that satisfies its key
    constraints) it returns [True], replaces the salt and the hash of
    that student's row and nothing else, and the student then logs in
    with the new password. *)
Theorem X7_change_password (h : string -> string)
    (uu u old new : string) (st : Storage) :
  (find (fun r => String.eqb (username r) (Py.lower (Py.strip u))) (students st)
   = None ->
   change_student_password h uu u old new st
   = (Raise (ValueError not_found_msg), st)) /\
  (forall s,
     find (fun r => String.eqb (username r) (Py.lower (Py.strip u)))
          (students st) = Some s ->
     verify_password h old (salt s) (pw_hash s) = false ->
     change_student_password h uu u old new st
     = (Raise (ValueError old_password_msg), st)) /\
  (forall s,
     keys_unique st ->
     find (fun r => String.eqb (username r) (Py.lower (Py.strip u)))
          (students st) = Some s ->
     verify_password h old (salt s) (pw_hash s) = true ->
     let s' := with_password s uu (h (uu ++ new)) in
     let st' := {| next_prn := next_prn st;
                   students := replace_row (prn s) s' (students st) |} in
     change_student_password h uu u old new st = (Ok true, st') /\
     student_login h u new st' = (Ok (Some (sanitize s)), st')).
Proof.
  split; [|split].
  - intros Hf. now rewrite change_student_password_eq, Hf.
  - intros s Hf Hv. now rewrite change_student_password_eq, Hf, Hv.
  - intros s Hk Hf Hv s' st'.
    assert (Hin : In s (students st)) by (apply find_some in Hf; tauto).
    assert (Hp : find (fun r => String.eqb (prn r) (prn s)) (students st) = Some s)
      by (apply (find_by_key prn); [apply (uq_prn _ Hk)|exact Hin]).
    split.
    + rewrite change_student_password_eq, Hf, Hv, Hp. cbv zeta. simpl negb.
      fold s'.
      now rewrite (others_no_conflict_keys st s s' Hk Hin eq_refl eq_refl eq_refl).
    + unfold student_login, bind, ret, find_student_by_username. simpl.
      rewrite (find_replace_row_username (prn s) (students st) s s'
                 (Py.lower (Py.strip u)) (uq_prn _ Hk) Hf eq_refl eq_refl).
      unfold verify_password, s'. simpl. now rewrite String.eqb_refl.
Qed.

Lemma X7_change_password_witness :
  exists st',
    change_student_password toy_digest "9a2e" "BOB" "pw2" "hunter2" st_mixed
    = (Ok true, st') /\
    map salt (students st') = ["5f1c"; "9a2e"; "5f1c"] /\
    exists pr, student_login toy_digest "BOB" "hunter2" st' = (Ok (Some pr), st')
               /\ profile_prn pr = "1002".
Proof.
  assert (Hk : keys_unique st_mixed).
  { apply store_ok_keys_unique.
    apply (run_calls_store_ok toy_digest
             (map Call [Register "5f1c" "Ann" "pw1" "Ann" "Lee" "cs" None;
                        Register "5f1c" "bob" "pw2" "Bob" "Ray" "EE" None;
                        Register "5f1c" "cy" "pw3" "Cy" "Lee" "CS" None])
             init_storage store_ok_init). }
  destruct (find (fun r => String.eqb (username r) (Py.lower (Py.strip "BOB")))
                 (students st_mixed)) as [s|] eqn:Hf;
    [|vm_compute in Hf; discriminate].
  assert (Hs : prn s = "1002" /\ salt s = "5f1c" /\ pw_hash s = "5f1cpw2").
  { vm_compute in Hf. inversion Hf. repeat split. }
  destruct Hs as (Hprn & Hsalt & Hhash).
  assert (Hv : verify_password toy_digest "pw2" (salt s) (pw_hash s) = true).
  { rewrite Hsalt, Hhash. reflexivity. }
  destruct (X7_change_password toy_digest "9a2e" "BOB" "pw2" "hunter2" st_mixed)
    as (_ & _ & H).
  destruct (H s Hk Hf Hv) as (Hch & Hlog).
  eexists. split; [exact Hch|]. split.
  - vm_compute in Hf. inversion Hf. subst s. vm_compute. reflexivity.
  - eexists. split; [exact Hlog|]. exact Hprn.
Defined.

(* ------------------------------------------------------------------ *)
(** ** Branch statistics *)

Lemma dict_set_key_in {V} (d : dict V) (k k' : string) (v : V) :
  In k' (map fst (dict_set d k v)) <-> k' = k \/ In k' (map fst d).
Proof.
  rewrite dict_set_keys. unfold dict_mem.
  destruct (dict_lookup d k) eqn:E.
  - split; auto. intros [->|H]; auto.
    destruct (in_dec string_dec k (map fst d)) as [Hin|Hn]; auto.
    apply dict_lookup_notin in Hn. congruence.
  - rewrite in_app_iff. simpl. split.
    + intros [H|[H|[]]]; auto.
    + intros [H|H]; auto.
Qed.

Lemma fold_set_keys {V} (gs : list (string * V)) (res : dict V) (k : string) :
  In k (map fst
          (fold_left (fun res (g : string * V) => dict_set res (fst g) (snd g))
                     gs res))
  <-> In k (map fst gs) \/ In k (map fst res).
Proof.
  revert res. induction gs as [|[k0 v0] gs IH]; intros res; simpl.
  - tauto.
  - rewrite IH, dict_set_key_in. simpl. intuition auto.
Qed.

Lemma fold_set_nodup {V} (gs : list (string * V)) (res : dict V) :
  NoDup (map fst res) ->
  NoDup (map fst
           (fold_left (fun res (g : string * V) => dict_set res (fst g) (snd g))
                      gs res)).
Proof.
  revert res. induction gs as [|[k0 v0] gs IH]; intros res Hnd; simpl; auto.
  apply IH. now apply dict_set_nodup.
Qed.

Lemma dict_lookup_in {V} (d : dict V) (k : string) (v : V) :
  NoDup (map fst d) -> In (k, v) d -> dict_lookup d k = Some v.
Proof.
  induction d as [|[k0 v0] d IH]; simpl; [contradiction|].
  intros Hnd [Heq|Hin].
  - inversion Heq; subst. now rewrite String.eqb_refl.
  - inversion Hnd as [|? ? Hn Hnd']; subst.
    destruct (String.eqb k0 k) eqn:E.
    + apply String.eqb_eq in E. subst. exfalso. apply Hn.
      apply in_map_iff. now exists (k, v).
    + now apply IH.
Qed.

Lemma list_sum_values (d : dict nat) (f : string -> nat) :
  NoDup (map fst d) ->
  (forall k, In k (map fst d) -> dict_get d k 0 = f k) ->
  list_sum (map snd d) = list_sum (map f (map fst d)).
Proof.
  intros Hnd Hget.
  assert (Hall : forall k v, In (k, v) d -> v = f k).
  { intros k v Hin. rewrite <- Hget.
    - unfold dict_get. now rewrite (dict_lookup_in d k v Hnd Hin).
    - apply in_map_iff. now exists (k, v). }
  clear Hget Hnd. induction d as [|[k v] d IH]; simpl; auto.
  rewrite (Hall k v) by now left.
  f_equal. apply IH. intros k' v' Hin. apply Hall. now right.
Qed.

Lemma list_sum_map_add {A} (f g : A -> nat) (l : list A) :
  list_sum (map (fun x => f x + g x) l)
  = list_sum (map f l) + list_sum (map g l).
Proof. induction l as [|a l IH]; simpl; auto. rewrite IH. lia. Qed.

Lemma sum_indicator_notin (a : string) (ks : list string) :
  ~ In a ks ->
  list_sum (map (fun k => if String.eqb a k then 1 else 0) ks) = 0.
Proof.
  induction ks as [|k ks IH]; simpl; auto.
  intros Hn. destruct (String.eqb a k) eqn:E.
  - apply String.eqb_eq in E. subst. exfalso. apply Hn. now left.
  - apply IH. intro. apply Hn. now right.
Qed.

Lemma sum_indicator_in (a : string) (ks : list string) :
  NoDup ks -> In a ks ->
  list_sum (map (fun k => if String.eqb a k then 1 else 0) ks) = 1.
Proof.
  induction ks as [|k ks IH]; simpl; [contradiction|].
  intros Hnd Hin. inversion Hnd as [|? ? Hn Hnd']; subst.
  destruct (String.eqb a k) eqn:E.
  - apply String.eqb_eq in E. subst k.
    now rewrite (sum_indicator_notin a ks Hn).
  - destruct Hin as [->|Hin]; [now rewrite String.eqb_refl in E|].
    now apply IH.
Qed.

Lemma sum_in_division (B : string) (ks : list string) (rows : list student) :
  NoDup ks ->
  (forall r, In r rows -> String.eqb (branch r) B = true -> In (division r) ks) ->
  list_sum (map (fun k => List.length (filter (in_division B k) rows)) ks)
  = List.length (filter (fun r => String.eqb (branch r) B) rows).
Proof.
  intros Hnd. induction rows as [|a rows IH]; intros Hcov.
  - simpl. clear. induction ks as [|k ks IHk]; simpl; auto.
  - assert (IH' := IH (fun r Hr => Hcov r (or_intror Hr))). clear IH.
    rewrite (map_ext _
               (fun k => (if in_division B k a then 1 else 0)
                         + List.length (filter (in_division B k) rows))).
    2:{ intros k. simpl. destruct (in_division B k a); reflexivity. }
    rewrite list_sum_map_add, IH'. simpl.
    destruct (String.eqb (branch a) B) eqn:Eb; simpl.
    + rewrite (map_ext _ (fun k => if String.eqb (division a) k then 1 else 0)).
      2:{ intros k. unfold in_division. now rewrite Eb. }
      rewrite sum_indicator_in; auto. apply Hcov; [now left|exact Eb].
    + rewrite (map_ext _ (fun _ => 0)).
      2:{ intros k. unfold in_division. now rewrite Eb. }
      clear. induction ks as [|k ks IHk]; simpl; auto.
Qed.

(** X8: [branch_stats] leaves the store as it is; its total is the
    number of students stored under the upper-cased branch, in whatever
    division, and for each of the divisions "1", "2", "3" the remaining
    seats are 70 minus the live count.  In a store reached from the empty
    one the remaining seats lie between 0 and 70 and the total is the sum
    of the three live counts, at most 210. *)
Theorem X8_branch_stats (b : string) (st : Storage) :
  exists r,
    branch_stats b st = (Ok r, st) /\
    stats_total r
    = List.length (filter (fun s => String.eqb (branch s) (Py.upper b))
                          (students st)) /\
    (forall d, In d DIVISIONS ->
       dict_lookup (stats_remaining r) d
       = Some (70 - Z.of_nat (occupancy st (Py.upper b) d))%Z) /\
    (forall d, dict_get (stats_counts r) d 0 = occupancy st (Py.upper b) d) /\
    (forall h cs,
       st = run_calls h cs init_storage ->
       (forall d, In d DIVISIONS ->
          exists n, dict_lookup (stats_remaining r) d = Some n /\
                    (0 <= n <= 70)%Z) /\
       stats_total r
       = occupancy st (Py.upper b) "1" + occupancy st (Py.upper b) "2"
         + occupancy st (Py.upper b) "3" /\
       stats_total r <= 210).
Proof.
  destruct (count_by_branch_division_spec b st) as (counts & Hc & Hget).
  unfold branch_stats, bind, ret. rewrite Hc.
  eexists. split; [reflexivity|]. simpl.
  set (B := Py.upper b) in *.
  assert (Hkeys : forall k, In k (map fst counts) <->
                            In k (map division
                                    (filter (fun r => String.eqb (branch r) B)
                                            (students st)))
                            \/ In k DIVISIONS).
  { intros k. unfold count_by_branch_division in Hc. inversion Hc as [Hc'].
    rewrite fold_set_keys. unfold group_by_division.
    rewrite !map_map. simpl. rewrite map_id, nodup_In.
    fold B. tauto. }
  assert (Hnd : NoDup (map fst counts)).
  { unfold count_by_branch_division in Hc. inversion Hc as [Hc'].
    apply fold_set_nodup. simpl.
    repeat constructor; simpl; intuition discriminate. }
  assert (Htotal : list_sum (map snd counts)
                   = List.length (filter (fun s => String.eqb (branch s) B)
                                         (students st))).
  { rewrite (list_sum_values counts (fun k => occupancy st B k) Hnd)
      by (intros; apply Hget).
    unfold occupancy.
    apply (sum_in_division B (map fst counts) (students st)); auto.
    intros r Hr Hb. apply Hkeys. left.
    apply in_map. apply filter_In. split; auto. }
  split; [exact Htotal|].
  assert (Hrem : forall d, In d DIVISIONS ->
             dict_lookup
               (map (fun d0 => (d0, (Z.of_nat MAX_PER_DIVISION
                                     - Z.of_nat (dict_get counts d0 0%nat))%Z))
                    DIVISIONS) d
             = Some (70 - Z.of_nat (occupancy st B d))%Z).
  { intros d Hd. simpl in Hd. simpl.
    destruct Hd as [<-|[<-|[<-|[]]]]; simpl; rewrite Hget; reflexivity. }
  split; [exact Hrem|]. split; [exact Hget|].
  intros h cs Hst.
  pose proof (run_calls_store_ok h cs _ store_ok_init) as Hok.
  rewrite <- Hst in Hok.
  assert (Hle : forall d, occupancy st B d <= 70).
  { intros d. apply (occupancy_le st B d (ok_table _ Hok)). }
  assert (Hsum : List.length (filter (fun s => String.eqb (branch s) B)
                                     (students st))
                 = occupancy st B "1" + occupancy st B "2" + occupancy st B "3").
  { rewrite <- (sum_in_division B DIVISIONS (students st)).
    - simpl. unfold occupancy. lia.
    - repeat constructor; simpl; intuition discriminate.
    - intros r Hr _. destruct Hok as [_ _ Hw _].
      rewrite Forall_forall in Hw. now destruct (Hw r Hr). }
  split; [|split].
  - intros d Hd. eexists. split; [apply (Hrem d Hd)|].
    specialize (Hle d). lia.
  - rewrite Htotal. exact Hsum.
  - rewrite Htotal, Hsum.
    pose proof (Hle "1"). pose proof (Hle "2"). pose proof (Hle "3"). lia.
Qed.

Lemma X8_branch_stats_witness :
  exists r,
    branch_stats "cs" st_mixed = (Ok r, st_mixed) /\
    stats_total r = 2 /\ stats_total r <= 210.
Proof.
  destruct (X8_branch_stats "cs" st_mixed) as (r & Hr & Ht & _ & _ & Hreach).
  exists r. split; [exact Hr|]. split.
  - rewrite Ht. vm_compute. reflexivity.
  - apply (Hreach toy_digest
             (map Call [Register "5f1c" "Ann" "pw1" "Ann" "Lee" "cs" None;
                        Register "5f1c" "bob" "pw2" "Bob" "Ray" "EE" None;
                        Register "5f1c" "cy" "pw3" "Cy" "Lee" "CS" None])).
    reflexivity.
Defined.

(* ------------------------------------------------------------------ *)
(** ** A taken roll blocks the branch *)

Lemma existsb_conflicts_roll (s : student) (rows : list student) :
  In (class_roll s) (map class_roll rows) -> existsb (conflicts s) rows = true.
Proof.
  intros Hin. apply in_map_iff in Hin. destruct Hin as (o & Ho & Hin).
  apply existsb_exists. exists o. split; auto.
  unfold conflicts. rewrite Ho, String.eqb_refl.
  now rewrite orb_true_r.
Qed.

(** X9: when the roll that [_generate_class_roll] computes for the
    division assigned (branch code, division, live count + 1) is already
    held by a stored student - a student of the same division after an
    earlier deletion, or a student of another branch with the same
    two-letter code - [register_student] raises [sqlite3.IntegrityError],
    stores nothing and still advances the PRN counter.  The outcome does
    not depend on the username, so every registration into that branch
    fails until the table changes. *)
Theorem X9_taken_roll_blocks_registration (h : string -> string)
    (uu u pw fn ln b : string) (x : option pyval) (st : Storage)
    (u0 d : string) :
  validate_nonempty u "username" = Ok u0 ->
  find (fun r => String.eqb (username r) (Py.lower u0)) (students st) = None ->
  find (fun d => (occupancy st (Py.upper b) d <? MAX_PER_DIVISION)%nat) DIVISIONS
  = Some d ->
  In (branch_code b ++ d ++ Py.fmt02 (occupancy st (Py.upper b) d + 1))
     (map class_roll (students st)) ->
  register_student h uu u pw fn ln b x st
  = (Raise IntegrityError,
     {| next_prn := (next_prn st + 1)%Z; students := students st |}).
Proof.
  intros Hv Hf Hd Hin.
  rewrite register_student_eq, Hv, Hf, Hd. cbv zeta.
  rewrite existsb_conflicts_roll; [reflexivity|exact Hin].
Qed.

(** X9 on the store with one student of branch CSE (roll CS101): the
    first registration into branch CSD, which has the same code CS, is
    rejected. *)
Lemma X9_taken_roll_witness :
  map class_roll (students st_cse) = ["CS101"] /\
  register_student toy_digest "5f1c" "dan" "pw" "Dan" "Roe" "CSD" None st_cse
  = (Raise IntegrityError,
     {| next_prn := (next_prn st_cse + 1)%Z; students := students st_cse |}).
Proof.
  split; [reflexivity|].
  apply (X9_taken_roll_blocks_registration toy_digest "5f1c" "dan" "pw" "Dan"
           "Roe" "CSD" None st_cse "dan" "1").
  - reflexivity.
  - reflexivity.
  - reflexivity.
  - left. reflexivity.
Defined.

(* ------------------------------------------------------------------ *)
(** ** Branch transfer *)

Lemma replace_row_occupancy (p : string) (rows : list student) (s r' : student)
    (B D : string) :
  NoDup (map prn rows) ->
  find (fun r => String.eqb (prn r) p) rows = Some s ->
  List.length (filter (in_division B D) (replace_row p r' rows))
  + (if in_division B D s then 1 else 0)
  = List.length (filter (in_division B D) rows)
    + (if in_division B D r' then 1 else 0).
Proof.
  intros Hnd Hf.
  destruct (find_prn_split p rows s r' Hnd Hf) as (l1 & l2 & H1 & _ & H3).
  rewrite H3, H1, !filter_app_length. simpl.
  destruct (in_division B D s), (in_division B D r'); simpl; lia.
Qed.

(** X10: a successful [edit_student] whose updates carry a branch moves
    the student: the row gets the upper-cased new branch, the earliest
    division of that branch below capacity and the roll of that
    division's live count + 1, all computed on the store before the
    update (so a student already in that division is counted too); the
    seat it held is free at once: the live count of every
    (branch, division) pair changes by exactly the student leaving or
    entering it. *)
Theorem X10_branch_transfer (p : string) (ups : dict pyval)
    (eb : option string) (st st' : Storage) (res : option student) (b : string) :
  NoDup (map prn (students st)) ->
  NoDup (map fst ups) ->
  dict_lookup ups "branch" = Some (PStr b) ->
  edit_student p ups eb st = (Ok res, st') ->
  exists s r' d,
    find (fun r => String.eqb (prn r) p) (students st) = Some s /\
    res = Some r' /\
    find (fun d => (occupancy st (Py.upper b) d <? MAX_PER_DIVISION)%nat)
         DIVISIONS = Some d /\
    branch r' = Py.upper b /\ division r' = d /\
    class_roll r'
    = branch_code b ++ d ++ Py.fmt02 (occupancy st (Py.upper b) d + 1) /\
    forall B D,
      occupancy st' B D + (if in_division B D s then 1 else 0)
      = occupancy st B D + (if in_division B D r' then 1 else 0).
Proof.
  intros Hnd Hups Hb Hed.
  destruct (edit_student_row _ _ _ _ _ _ Hed)
    as (s & r' & Hf & _ & Hres & Hst & _ & _ & Hbr & _).
  rewrite collect_applied_lookup in Hbr by (assumption || reflexivity).
  destruct (Hbr b Hb) as (d & Hd & E1 & E2 & E3).
  exists s, r', d. repeat split; auto.
  intros B D. subst st'. unfold occupancy. simpl.
  now apply replace_row_occupancy.
Qed.

Lemma X10_branch_transfer_witness :
  exists r' st',
    edit_student "1002" [("branch", PStr "cs")] (Some "EE") st_mixed
    = (Ok (Some r'), st') /\
    branch r' = "CS" /\ division r' = "1" /\ class_roll r' = "CS103" /\
    occupancy st' "EE" "1" = 0 /\ occupancy st' "CS" "1" = 3.
Proof.
  destruct (edit_student "1002" [("branch", PStr "cs")] (Some "EE") st_mixed)
    as [res st'] eqn:Hed.
  assert (Hres : exists r0, res = Ok r0).
  { apply (f_equal fst) in Hed. cbn [fst] in Hed. rewrite <- Hed.
    vm_compute. eexists. reflexivity. }
  destruct Hres as (r0 & ->).
  assert (Hnd : NoDup (map prn (students st_mixed))).
  { vm_compute. repeat constructor; simpl; intuition discriminate. }
  assert (Hk : NoDup (map fst [("branch", PStr "cs")])).
  { repeat constructor. simpl. tauto. }
  destruct (X10_branch_transfer "1002" [("branch", PStr "cs")] (Some "EE")
              st_mixed st' r0 "cs" Hnd Hk eq_refl Hed)
    as (s & r' & d & Hf & -> & Hd & E1 & E2 & E3 & Hocc).
  assert (Hd1 : d = "1") by (vm_compute in Hd; now inversion Hd).
  rewrite Hd1 in E2, E3. clear Hd Hd1.
  assert (Hs : branch s = "EE" /\ division s = "1")
    by (vm_compute in Hf; inversion Hf; split; reflexivity).
  destruct Hs as (Hsb & Hsd).
  exists r', st'. split; [reflexivity|].
  split; [exact E1|]. split; [exact E2|].
  split; [rewrite E3; vm_compute; reflexivity|].
  split.
  - pose proof (Hocc "EE" "1") as H.
    assert (I1 : in_division "EE" "1" s = true)
      by (unfold in_division; rewrite Hsb, Hsd; reflexivity).
    assert (I2 : in_division "EE" "1" r' = false)
      by (unfold in_division; rewrite E1, E2; reflexivity).
    assert (H0 : occupancy st_mixed "EE" "1" = 1) by (vm_compute; reflexivity).
    rewrite I1, I2, H0 in H. lia.
  - pose proof (Hocc "CS" "1") as H.
    assert (I1 : in_division "CS" "1" s = false)
      by (unfold in_division; rewrite Hsb, Hsd; reflexivity).
    assert (I2 : in_division "CS" "1" r' = true)
      by (unfold in_division; rewrite E1, E2; reflexivity).
    assert (H0 : occupancy st_mixed "CS" "1" = 2) by (vm_compute; reflexivity).
    rewrite I1, I2, H0 in H. lia.
Defined.

(* ------------------------------------------------------------------ *)
(** ** The [extra] column *)



(* ------------------------------------------------------------------ *)
(** ** Deletion and lookup *)

Lemma find_filter_other (p q : string) (rows : list student) :
  q <> p ->
  find (fun r => String.eqb (prn r) q)
       (filter (fun r => negb (String.eqb (prn r) p)) rows)
  = find (fun r => String.eqb (prn r) q) rows.
Proof.
  intros Hne. induction rows as [|a rows IH]; simpl; auto.
  destruct (String.eqb (prn a) p) eqn:Ep; simpl.
  - destruct (String.eqb (prn a) q) eqn:Eq; auto.
    apply String.eqb_eq in Ep. apply String.eqb_eq in Eq. congruence.
  - destruct (String.eqb (prn a) q); auto.
Qed.

Lemma find_filter_self (p : string) (rows : list student) :
  find (fun r => String.eqb (prn r) p)
       (filter (fun r => negb (String.eqb (prn r) p)) rows) = None.
Proof.
  induction rows as [|a rows IH]; simpl; auto.
  destruct (String.eqb (prn a) p) eqn:Ep; simpl; auto.
  now rewrite Ep.
Qed.

(** X12: after a successful [delete_student] the PRN is no longer
    found, a second deletion of it raises "Student not found.", every
    other PRN is found as before, and (the PRN being a key) the table has
    exactly one row less; the PRN counter is not touched. *)
Theorem X12_deleted_student_is_gone (p : string) (eb : option string)
    (st st' : Storage) :
  delete_student p eb st = (Ok true, st') ->
  find_student_by_prn p st' = (Ok None, st') /\
  (forall eb', delete_student p eb' st' = (Raise (ValueError not_found_msg), st')) /\
  (forall q, q <> p ->
     fst (find_student_by_prn q st') = fst (find_student_by_prn q st)) /\
  next_prn st' = next_prn st /\
  (NoDup (map prn (students st)) ->
   List.length (students st') + 1 = List.length (students st)).
Proof.
  intros Hdel. rewrite delete_student_eq in Hdel.
  destruct (find _ (students st)) as [s|] eqn:Hf; [|discriminate].
  destruct (other_branch eb s); [discriminate|].
  inversion Hdel; subst st'. clear Hdel.
  unfold find_student_by_prn. simpl.
  split; [now rewrite find_filter_self|].
  split.
  { intros eb'. rewrite delete_student_eq. simpl.
    now rewrite find_filter_self. }
  split; [intros q Hq; now rewrite find_filter_other|].
  split; [reflexivity|].
  intros Hnd.
  destruct (find_prn_split p (students st) s s Hnd Hf) as (l1 & l2 & H1 & H2 & _).
  rewrite H2, H1, !length_app. simpl. lia.
Qed.

Lemma X12_deleted_student_witness :
  exists st',
    delete_student "1002" (Some "ee") st_mixed = (Ok true, st') /\
    find_student_by_prn "1002" st' = (Ok None, st') /\
    map prn (students st') = ["1001"; "1003"].
Proof.
  destruct (delete_student "1002" (Some "ee") st_mixed) as [res st'] eqn:Hdel.
  assert (Hres : res = Ok true).
  { apply (f_equal fst) in Hdel. cbn [fst] in Hdel. rewrite <- Hdel.
    vm_compute. reflexivity. }
  subst res. exists st'. split; [reflexivity|].
  destruct (X12_deleted_student_is_gone _ _ _ _ Hdel) as (H & _).
  split; [exact H|].
  apply (f_equal snd) in Hdel. cbn [snd] in Hdel. rewrite <- Hdel.
  vm_compute. reflexivity.
Defined.

(* ------------------------------------------------------------------ *)
(** ** Teachers *)

Lemma teacher_register_eq (h : string -> string)
    (uu u pw name b : string) (ts : list teacher) :
  teacher_register h uu u pw name b ts =
  match validate_nonempty u "username" with
  | Raise e => (Raise e, ts)
  | Ok u0 =>
      match find_teacher (Py.lower u0) ts with
      | Some _ => (Raise (ValueError teacher_exists_msg), ts)
      | None =>
          let t := {| t_username := Py.lower u0;
                      t_salt := uu;
                      t_pw_hash := h (uu ++ pw);
                      t_name := Py.strip name;
                      t_branch := Py.upper (Py.strip b) |} in
          (Ok (teacher_sanitize t), (ts ++ [t])%list)
      end
  end.
Proof.
  unfold teacher_register.
  destruct (validate_nonempty u "username") as [u0|e]; [|reflexivity].
  destruct (find_teacher (Py.lower u0) ts) eqn:Hf; [reflexivity|].
  unfold insert_teacher, hash_password. simpl.
  assert (He : existsb (fun r => String.eqb (t_username r) (Py.lower u0)) ts
               = false).
  { destruct (existsb _ ts) eqn:E; auto.
    apply existsb_exists in E. destruct E as (t & Hin & Ht).
    unfold find_teacher in Hf. apply (find_none _ _ Hf) in Hin.
    simpl in Hin. congruence. }
  rewrite He. unfold find_teacher.
  rewrite (find_snoc_new _ ts _ Hf); [reflexivity|].
  simpl. apply String.eqb_refl.
Qed.

(** X13: [teacher_register] raises the validation error for a blank
    username and "Teacher username already exists." when the trimmed,
    lower-cased username is taken, leaving the table as it was;
    otherwise it appends one row and returns it without credentials:
    lower-cased username, trimmed name, trimmed upper-cased branch (name
    and branch are not validated).  The teacher then logs in with the
    same password and the same username, or any username that trims and
    lower-cases to the same text, and a later registration of such a
    username is refused. *)
Theorem X13_teacher_register_and_login (h : string -> string)
    (uu u pw name b : string) (ts : list teacher) :
  (blank u ->
   teacher_register h uu u pw name b ts
   = (Raise (ValueError "username cannot be empty."), ts)) /\
  (~ blank u -> find_teacher (Py.lower (Py.strip u)) ts <> None ->
   teacher_register h uu u pw name b ts
   = (Raise (ValueError teacher_exists_msg), ts)) /\
  (~ blank u -> find_teacher (Py.lower (Py.strip u)) ts = None ->
   exists v ts',
     teacher_register h uu u pw name b ts = (Ok v, ts') /\
     List.length ts' = List.length ts + 1 /\
     tv_username v = Py.lower (Py.strip u) /\
     tv_name v = Py.strip name /\
     tv_branch v = Py.upper (Py.strip b) /\
     teacher_login h u pw ts' = Some v /\
     (forall u2,
        Py.lower (Py.strip u2) = Py.lower (Py.strip u) ->
        teacher_login h u2 pw ts' = Some v) /\
     forall u2 uu2 pw2 name2 b2,
       ~ blank u2 ->
       Py.lower (Py.strip u2) = Py.lower (Py.strip u) ->
       teacher_register h uu2 u2 pw2 name2 b2 ts'
       = (Raise (ValueError teacher_exists_msg), ts')).
Proof.
  rewrite teacher_register_eq.
  assert (Htruthy : forall w, ~ blank w -> Py.truthy (Py.strip w) = true).
  { intros w Hw. destruct (Py.truthy (Py.strip w)) eqn:E; auto.
    exfalso. apply Hw. now apply blank_truthy. }
  split; [|split].
  - intros Hb. apply blank_truthy in Hb.
    now rewrite (validate_nonempty_blank u "username" Hb).
  - intros Hb Hf.
    rewrite (validate_nonempty_ok u "username" (Htruthy u Hb)).
    destruct (find_teacher _ ts); [reflexivity|contradiction].
  - intros Hb Hf.
    rewrite (validate_nonempty_ok u "username" (Htruthy u Hb)), Hf. cbv zeta.
    eexists. eexists. split; [reflexivity|].
    set (t := {| t_username := Py.lower (Py.strip u);
                 t_salt := uu;
                 t_pw_hash := h (uu ++ pw);
                 t_name := Py.strip name;
                 t_branch := Py.upper (Py.strip b) |}).
    assert (Hfind : find_teacher (Py.lower (Py.strip u)) (ts ++ [t]) = Some t).
    { unfold find_teacher in *. apply find_snoc_new; auto.
      simpl. apply String.eqb_refl. }
    assert (Hlog : forall u2, Py.lower (Py.strip u2) = Py.lower (Py.strip u) ->
                              teacher_login h u2 pw (ts ++ [t])
                              = Some (teacher_sanitize t)).
    { intros u2 Hu2. unfold teacher_login. rewrite Hu2, Hfind.
      unfold verify_password. simpl. now rewrite String.eqb_refl. }
    split; [rewrite length_app; reflexivity|].
    repeat split; auto.
    intros u2 uu2 pw2 name2 b2 Hb2 Hu2. rewrite teacher_register_eq.
    now rewrite (validate_nonempty_ok u2 "username" (Htruthy u2 Hb2)), Hu2, Hfind.
Qed.

Lemma X13_teacher_witness :
  exists v ts',
    teacher_register toy_digest "5f1c" " Kim " "pw" " Kim Oh " "cs" []
    = (Ok v, ts') /\
    tv_username v = "kim" /\ tv_name v = "Kim Oh" /\ tv_branch v = "CS" /\
    teacher_login toy_digest " Kim " "pw" ts' = Some v.
Proof.
  destruct (X13_teacher_register_and_login toy_digest "5f1c" " Kim " "pw"
              " Kim Oh " "cs" []) as (_ & _ & H).
  destruct H as (v & ts' & Hreg & _ & Hu & Hn & Hb & Hlog & _).
  - unfold blank. vm_compute. discriminate.
  - reflexivity.
  - exists v, ts'. repeat split; auto.
Defined.

(* ------------------------------------------------------------------ *)
(** ** Search by name *)

Lemma sql_like_percent (p s : string) :
  sql_like (String "%"%char p) s
  = sql_like p s
    || match s with
       | EmptyString => false
       | String _ s' => sql_like (String "%"%char p) s'
       end.
Proof. destruct s; reflexivity. Qed.

Lemma sql_like_percent_skip (p pre t : string) :
  sql_like (String "%"%char p) t = true ->
  sql_like (String "%"%char p) (pre ++ t) = true.
Proof.
  intros H. induction pre as [|c pre IH]; simpl append; auto.
  rewrite sql_like_percent, IH. apply orb_true_r.
Qed.

Lemma sql_like_percent_intro (p pre t : string) :
  sql_like p t = true -> sql_like (String "%"%char p) (pre ++ t) = true.
Proof.
  intros H. apply sql_like_percent_skip.
  rewrite sql_like_percent, H. reflexivity.
Qed.

Lemma sql_like_percent_inv (p s : string) :
  sql_like (String "%"%char p) s = true ->
  exists pre t, s = pre ++ t /\ sql_like p t = true.
Proof.
  induction s as [|c s IH]; rewrite sql_like_percent; intros H.
  - rewrite orb_false_r in H. exists EmptyString, EmptyString. auto.
  - apply orb_true_iff in H. destruct H as [H|H].
    + exists EmptyString, (String c s). auto.
    + destruct (IH H) as (pre & t & -> & Ht).
      exists (String c pre), t. auto.
Qed.

Lemma sql_like_all (s : string) : sql_like "%" s = true.
Proof.
  induction s as [|c s IH]; rewrite sql_like_percent; [reflexivity|].
  rewrite IH. apply orb_true_r.
Qed.

Lemma upper_cons_inv (mid : string) (c : ascii) (f : string) :
  Py.upper mid = Py.upper (String c f) ->
  exists m mid', mid = String m mid' /\
                 Py.upper_char m = Py.upper_char c /\
                 Py.upper mid' = Py.upper f.
Proof.
  destruct mid as [|m mid']; simpl; [discriminate|].
  unfold Py.upper. simpl. intros H. inversion H. eauto.
Qed.

Lemma sql_like_literal (f rest mid t : string) :
  Py.upper mid = Py.upper f ->
  sql_like rest t = true ->
  sql_like (f ++ rest) (mid ++ t) = true.
Proof.
  revert mid. induction f as [|c f IH]; intros mid Hu Hr.
  - destruct mid; [exact Hr|discriminate].
  - destruct (upper_cons_inv mid c f Hu) as (m & mid' & -> & Hc & Hu').
    specialize (IH mid' Hu' Hr).
    simpl append.
    destruct (Ascii.eqb c "%"%char) eqn:E1.
    + apply Ascii.eqb_eq in E1. subst c.
      rewrite sql_like_percent.
      replace (sql_like (String "%"%char (f ++ rest)) (mid' ++ t)) with true.
      * apply orb_true_r.
      * symmetry. rewrite sql_like_percent, IH. reflexivity.
    + destruct (Ascii.eqb c "_"%char) eqn:E2.
      * simpl. rewrite E1, E2. exact IH.
      * simpl. rewrite E1, E2, IH, Hc, Ascii.eqb_refl. reflexivity.
Qed.

Lemma sql_like_literal_inv (f rest t : string) :
  no_wildcard f = true ->
  sql_like (f ++ rest) t = true ->
  exists mid t', t = mid ++ t' /\ Py.upper mid = Py.upper f /\
                 sql_like rest t' = true.
Proof.
  revert t. induction f as [|c f IH]; intros t Hw H.
  - exists EmptyString, t. auto.
  - simpl in Hw. apply andb_true_iff in Hw. destruct Hw as [Hw Hf].
    apply andb_true_iff in Hw. destruct Hw as [E1 E2].
    apply negb_true_iff in E1. apply negb_true_iff in E2.
    simpl in H. rewrite E1, E2 in H.
    destruct t as [|d t]; [discriminate|].
    apply andb_true_iff in H. destruct H as [Hc H].
    apply Ascii.eqb_eq in Hc.
    destruct (IH t Hf H) as (mid & t' & -> & Hu & Hr).
    exists (String d mid), t'. repeat split; auto.
    unfold Py.upper in *. simpl. now rewrite Hu, Hc.
Qed.

Lemma append_nil_r (s : string) : s ++ "" = s.
Proof. induction s; simpl; congruence. Qed.

Lemma like_fragment_complete (f s : string) :
  contains_nocase f s -> sql_like ("%" ++ f ++ "%") s = true.
Proof.
  intros (pre & mid & post & -> & Hu).
  simpl append. apply sql_like_percent_intro.
  apply sql_like_literal; auto. apply sql_like_all.
Qed.

Lemma like_fragment_sound (f s : string) :
  no_wildcard f = true ->
  sql_like ("%" ++ f ++ "%") s = true -> contains_nocase f s.
Proof.
  intros Hw H. simpl append in H.
  apply sql_like_percent_inv in H. destruct H as (pre & t & -> & Ht).
  apply (sql_like_literal_inv f "%" t Hw) in Ht.
  destruct Ht as (mid & post & -> & Hu & _).
  exists pre, mid, post. auto.
Qed.

Lemma like_pattern_length (f : string) :
  Z.of_nat (String.length ("%" ++ f ++ "%"))
  = (Z.of_nat (String.length f) + 2)%Z.
Proof.
  simpl append. cbn [String.length].
  assert (H : forall a b, String.length (a ++ b)
                          = String.length a + String.length b).
  { induction a; simpl; auto. }
  rewrite H. simpl. lia.
Qed.

Lemma c_string_clean_app (a b : string) :
  c_string a = a -> c_string (a ++ b) = a ++ c_string b.
Proof.
  induction a as [|c a IH]; simpl; auto.
  destruct (Ascii.eqb c "000"%char); [discriminate|].
  intros H. inversion H as [H']. now rewrite H', IH.
Qed.

Lemma c_string_pattern (f : string) :
  c_string f = f -> c_string ("%" ++ f ++ "%") = "%" ++ f ++ "%".
Proof.
  intros Hf. simpl append. cbn [c_string]. simpl Ascii.eqb. cbv iota.
  f_equal. now rewrite c_string_clean_app.
Qed.

(** X14: [search_by_name] leaves the store as it is.  For a fragment
    without a NUL character and within SQLite's pattern limit (at most
    49998 characters) it returns, in table order, stored students only;
    the empty fragment returns every student; every student whose first
    or last name (read up to its first NUL, as [LIKE] reads it) contains
    the fragment, ASCII letters compared without regard to case, is
    returned; and when the fragment has no [%] and no [_] these are the
    only ones returned (a [%] or [_] in the fragment acts as a wildcard
    of [LIKE]).  A longer fragment makes the query fail with
    [sqlite3.OperationalError] as soon as one student is stored; on an
    empty table it returns the empty list. *)
Theorem X14_search_by_name (fragment : string) (st : Storage) :
  (c_string fragment = fragment ->
   (Z.of_nat (String.length fragment) + 2 <= 50000)%Z ->
   exists found,
     search_by_name fragment st = (Ok found, st) /\
     (forall r, In r found -> In r (students st)) /\
     (fragment = EmptyString -> found = students st) /\
     (forall r, In r (students st) ->
        contains_nocase fragment (c_string (first_name r))
        \/ contains_nocase fragment (c_string (last_name r)) ->
        In r found) /\
     (no_wildcard fragment = true ->
      forall r, In r found ->
        contains_nocase fragment (c_string (first_name r))
        \/ contains_nocase fragment (c_string (last_name r)))) /\
  ((50000 < Z.of_nat (String.length fragment) + 2)%Z ->
   (students st <> [] ->
    search_by_name fragment st = (Raise OperationalError, st)) /\
   (students st = [] -> search_by_name fragment st = (Ok [], st))).
Proof.
  unfold search_by_name, search_students_by_name. cbv zeta.
  rewrite like_pattern_length. unfold SQLITE_MAX_LIKE_PATTERN_LENGTH.
  split.
  2:{ intros Hlong. apply Z.ltb_lt in Hlong. rewrite Hlong.
      destruct (students st); split; intros H; cbn;
        congruence. }
  intros Hnul Hlen. apply Z.ltb_ge in Hlen. rewrite Hlen. cbn [andb].
  unfold sql_like_op. rewrite (c_string_pattern fragment Hnul).
  eexists. split; [reflexivity|].
  split; [|split; [|split]].
  - intros r Hr. apply filter_In in Hr. tauto.
  - intros ->. simpl append.
    assert (Hall : forall t, sql_like "%%" t = true)
      by (intros t; apply (sql_like_percent_intro "%" "" t), sql_like_all).
    induction (students st) as [|a l IH]; [reflexivity|].
    cbn [filter]. rewrite Hall. cbn [orb]. now rewrite IH.
  - intros r Hin Hc. apply filter_In. split; auto.
    apply orb_true_iff.
    destruct Hc as [Hc|Hc]; [left|right]; now apply like_fragment_complete.
  - intros Hw r Hr. apply filter_In in Hr. destruct Hr as [_ Hr].
    apply orb_true_iff in Hr.
    destruct Hr as [Hr|Hr]; [left|right]; now apply like_fragment_sound.
Qed.

Lemma X14_search_witness :
  exists found,
    search_by_name "LEE" st_mixed = (Ok found, st_mixed) /\
    map prn found = ["1001"; "1003"].
Proof.
  destruct (X14_search_by_name "LEE" st_mixed) as (Hshort & _).
  destruct Hshort as (found & Hs & _);
    [reflexivity|vm_compute; discriminate|].
  exists found. split; [exact Hs|].
  apply (f_equal fst) in Hs. cbn [fst] in Hs.
  assert (Hf : fst (search_by_name "LEE" st_mixed)
               = Ok (filter (fun r => String.eqb (last_name r) "Lee")
                            (students st_mixed)))
    by (vm_compute; reflexivity).
  rewrite Hf in Hs. inversion Hs. vm_compute. reflexivity.
Defined.

(* ------------------------------------------------------------------ *)
(** ** Profiles *)

Lemma find_none_not_in {A} (g : A -> string) (l : list A) (k : string) :
  find (fun r => String.eqb (g r) k) l = None -> ~ In k (map g l).
Proof.
  intros Hf Hin. apply in_map_iff in Hin. destruct Hin as (r & Hr & Hin).
  apply (find_none _ _ Hf) in Hin. simpl in Hin.
  rewrite Hr, String.eqb_refl in Hin. discriminate.
Qed.

(** X15: [get_student_profile] leaves the store as it is and returns
    [None] exactly when the key is neither the PRN nor the class roll of
    a stored student.  In a table that satisfies its key constraints the
    PRN of a stored student gives that student's profile, and so does
    its class roll unless that text is also the PRN of a stored student:
    the PRN lookup comes first. *)
Theorem X15_get_student_profile (key : string) (st : Storage) :
  snd (get_student_profile key st) = st /\
  (fst (get_student_profile key st) = Ok None <->
   ~ In key (map prn (students st)) /\ ~ In key (map class_roll (students st))) /\
  (forall r,
     keys_unique st -> In r (students st) ->
     (key = prn r ->
      get_student_profile key st = (Ok (Some (sanitize r)), st)) /\
     (key = class_roll r -> ~ In key (map prn (students st)) ->
      get_student_profile key st = (Ok (Some (sanitize r)), st))).
Proof.
  unfold get_student_profile, bind, ret, find_student_by_prn,
    find_student_by_class_roll.
  split; [|split].
  - destruct (find _ (students st)); simpl; auto.
    destruct (find _ (students st)); reflexivity.
  - destruct (find (fun r => String.eqb (prn r) key) (students st)) as [s|] eqn:Hp.
    + simpl. split; [discriminate|].
      intros [Hn _]. exfalso. apply Hn.
      apply find_some in Hp. destruct Hp as [Hin He].
      apply String.eqb_eq in He. rewrite <- He. now apply in_map.
    + destruct (find (fun r => String.eqb (class_roll r) key) (students st))
        as [s|] eqn:Hc; simpl.
      * split; [discriminate|].
        intros [_ Hn]. exfalso. apply Hn.
        apply find_some in Hc. destruct Hc as [Hin He].
        apply String.eqb_eq in He. rewrite <- He. now apply in_map.
      * split; auto. intros _. split; now apply find_none_not_in.
  - intros r [Hp Hr _] Hin. split.
    + intros ->. now rewrite (find_by_key prn (students st) r Hp Hin).
    + intros -> Hn.
      rewrite (not_in_find_none prn _ _ Hn).
      now rewrite (find_by_key class_roll (students st) r Hr Hin).
Qed.

Lemma X15_get_student_profile_witness :
  exists pr,
    get_student_profile "CS102" st_mixed = (Ok (Some pr), st_mixed) /\
    profile_prn pr = "1003" /\ profile_username pr = "cy".
Proof.
  assert (Hk : keys_unique st_mixed).
  { apply store_ok_keys_unique.
    apply (run_calls_store_ok toy_digest
             (map Call [Register "5f1c" "Ann" "pw1" "Ann" "Lee" "cs" None;
                        Register "5f1c" "bob" "pw2" "Bob" "Ray" "EE" None;
                        Register "5f1c" "cy" "pw3" "Cy" "Lee" "CS" None])
             init_storage store_ok_init). }
  assert (Hr : exists r, In r (students st_mixed) /\ class_roll r = "CS102"
                         /\ prn r = "1003" /\ username r = "cy").
  { vm_compute. eexists. split; [right; right; left; reflexivity|].
    repeat split. }
  destruct Hr as (r & Hin & Hroll & Hp & Hu).
  destruct (X15_get_student_profile "CS102" st_mixed) as (_ & _ & H).
  destruct (H r Hk Hin) as (_ & Hc).
  exists (sanitize r). split.
  - apply Hc; [now rewrite Hroll|].
    vm_compute. intuition discriminate.
  - split; [exact Hp|exact Hu].
Defined.

(* ------------------------------------------------------------------ *)
(** ** Registration through the front end *)

Lemma student_register_flow_eq (h : string -> string)
    (uu u pw fn ln b : string) (st : Storage) :
  first_blank [(u, "username"); (pw, "password"); (fn, "first name");
               (ln, "last name"); (b, "branch")] = None ->
  student_register_flow h uu u pw fn ln b st
  = register_student h uu (Py.strip u) (Py.strip pw) (Py.strip fn)
                     (Py.strip ln) (Py.strip b) None st.
Proof.
  simpl. unfold student_register_flow, bind, lift.
  destruct (Py.truthy (Py.strip u)) eqn:Eu; [|discriminate].
  destruct (Py.truthy (Py.strip pw)) eqn:Ep; [|discriminate].
  destruct (Py.truthy (Py.strip fn)) eqn:Ef; [|discriminate].
  destruct (Py.truthy (Py.strip ln)) eqn:El; [|discriminate].
  destruct (Py.truthy (Py.strip b)) eqn:Eb; [|discriminate].
  intros _.
  rewrite (validate_nonempty_ok u _ Eu), (validate_nonempty_ok pw _ Ep),
    (validate_nonempty_ok fn _ Ef), (validate_nonempty_ok ln _ El),
    (validate_nonempty_ok b _ Eb).
  reflexivity.
Qed.

Lemma first_blank_some_raise (h : string -> string)
    (uu u pw fn ln b : string) (st st' : Storage) (r : student) :
  student_register_flow h uu u pw fn ln b st = (Ok r, st') ->
  first_blank [(u, "username"); (pw, "password"); (fn, "first name");
               (ln, "last name"); (b, "branch")] = None.
Proof.
  simpl. unfold student_register_flow, bind, lift.
  destruct (Py.truthy (Py.strip u)) eqn:Eu.
  2:{ rewrite (validate_nonempty_blank u _ Eu). discriminate. }
  rewrite (validate_nonempty_ok u _ Eu).
  destruct (Py.truthy (Py.strip pw)) eqn:Ep.
  2:{ rewrite (validate_nonempty_blank pw _ Ep). discriminate. }
  rewrite (validate_nonempty_ok pw _ Ep).
  destruct (Py.truthy (Py.strip fn)) eqn:Ef.
  2:{ rewrite (validate_nonempty_blank fn _ Ef). discriminate. }
  rewrite (validate_nonempty_ok fn _ Ef).
  destruct (Py.truthy (Py.strip ln)) eqn:El.
  2:{ rewrite (validate_nonempty_blank ln _ El). discriminate. }
  rewrite (validate_nonempty_ok ln _ El).
  destruct (Py.truthy (Py.strip b)) eqn:Eb.
  2:{ rewrite (validate_nonempty_blank b _ Eb). discriminate. }
  reflexivity.
Qed.

(** X16: a student registered through [student_register_flow] is stored
    with every text field trimmed (username also lower-cased, branch
    upper-cased, none of them empty) and with an email that is
    [_generate_email] of the stored first name, the stored last name, the
    PRN and the trimmed branch as typed; the password hashed is the
    trimmed one, so the student logs in with the trimmed password. *)
Theorem X16_flow_registration (h : string -> string)
    (uu u pw fn ln b : string) (st st' : Storage) (r : student) :
  student_register_flow h uu u pw fn ln b st = (Ok r, st') ->
  username r = Py.lower (Py.strip u) /\
  first_name r = Py.strip fn /\ first_name r <> EmptyString /\
  last_name r = Py.strip ln /\ last_name r <> EmptyString /\
  branch r = Py.upper (Py.strip b) /\ branch r <> EmptyString /\
  extra r = "{}" /\
  email r
  = _generate_email (first_name r) (last_name r) (prn r) (Py.strip b) /\
  student_login h u (Py.strip pw) st' = (Ok (Some (sanitize r)), st').
Proof.
  intros Hflow.
  pose proof (first_blank_some_raise _ _ _ _ _ _ _ _ _ _ Hflow) as Hnb.
  rewrite (student_register_flow_eq h uu u pw fn ln b st Hnb) in Hflow.
  simpl in Hnb.
  destruct (Py.truthy (Py.strip u)) eqn:Eu; [|discriminate].
  destruct (Py.truthy (Py.strip pw)) eqn:Ep; [|discriminate].
  destruct (Py.truthy (Py.strip fn)) eqn:Ef; [|discriminate].
  destruct (Py.truthy (Py.strip ln)) eqn:El; [|discriminate].
  destruct (Py.truthy (Py.strip b)) eqn:Eb; [|discriminate].
  destruct (register_student_username _ _ _ _ _ _ _ _ _ _ _ Hflow)
    as (Hu & Hs & Hp & Hfn & Hln & Hex).
  destruct (register_student_ok _ _ _ _ _ _ _ _ _ _ _ Hflow)
    as (_ & _ & _ & _ & Hb & Hem & _ & _).
  rewrite strip_idem in Hu, Hfn, Hln, Hb.
  assert (Hlogin : student_login h u (Py.strip pw) st'
                   = (Ok (Some (sanitize r)), st')).
  { destruct (register_student_found _ _ _ _ _ _ _ _ _ _ _ Hflow) as (_ & Hfu & _).
    unfold student_login, bind, ret, find_student_by_username.
    rewrite <- Hu, Hfu. unfold verify_password.
    now rewrite Hs, Hp, String.eqb_refl. }
  repeat split; auto.
  - rewrite Hfn. intro H0. rewrite H0 in Ef. discriminate.
  - rewrite Hln. intro H0. rewrite H0 in El. discriminate.
  - rewrite Hb. destruct (Py.strip b); [discriminate|].
    unfold Py.upper. simpl. discriminate.
  - now rewrite Hem, Hfn, Hln.
Qed.

Lemma X16_flow_registration_witness :
  exists r st',
    student_register_flow toy_digest "5f1c" " Dan " " pw " " Dan" "Roe " " ee"
                          st_mixed = (Ok r, st') /\
    first_name r = "Dan" /\ branch r = "EE" /\
    email r = "dan.roe.1004@ee.college.edu".
Proof.
  destruct (student_register_flow toy_digest "5f1c" " Dan " " pw " " Dan" "Roe "
              " ee" st_mixed) as [res st'] eqn:Hflow.
  assert (Hres : exists r, res = Ok r /\ prn r = "1004").
  { apply (f_equal fst) in Hflow. cbn [fst] in Hflow. rewrite <- Hflow.
    vm_compute. eexists. split; reflexivity. }
  destruct Hres as (r & -> & Hprn).
  destruct (X16_flow_registration _ _ _ _ _ _ _ _ _ _ Hflow)
    as (_ & Hfn & _ & Hln & _ & Hb & _ & _ & Hem & _).
  exists r, st'. split; [reflexivity|].
  split; [exact Hfn|]. split; [exact Hb|].
  rewrite Hem, Hfn, Hln, Hprn. reflexivity.
Defined.

(* ------------------------------------------------------------------ *)
(** ** What decides a registration *)

Lemma str_inj (v w : Z) : Py.str v = Py.str w -> v = w.
Proof.
  intros H. apply (f_equal Py.int) in H. rewrite !int_str in H.
  now inversion H.
Qed.

Lemma fresh_prn_not_stored (st : Storage) :
  prns_below_counter st ->
  ~ In (Py.str (next_prn st)) (map prn (students st)).
Proof.
  intros Hp Hin. apply in_map_iff in Hin. destruct Hin as (r & Hr & Hin).
  unfold prns_below_counter in Hp. rewrite Forall_forall in Hp.
  destruct (Hp r Hin) as (v & Hv & Hlt).
  rewrite Hv in Hr. apply str_inj in Hr. lia.
Qed.

Lemma existsb_conflicts_false (s : student) (rows : list student) :
  ~ In (prn s) (map prn rows) ->
  ~ In (class_roll s) (map class_roll rows) ->
  ~ In (username s) (map username rows) ->
  existsb (conflicts s) rows = false.
Proof.
  intros Hp Hr Hu. destruct (existsb (conflicts s) rows) eqn:E; auto.
  apply existsb_exists in E. destruct E as (o & Hin & Hc).
  unfold conflicts in Hc.
  apply orb_true_iff in Hc. destruct Hc as [Hc|Hc].
  - apply orb_true_iff in Hc. destruct Hc as [Hc|Hc];
      apply String.eqb_eq in Hc; exfalso.
    + apply Hp. rewrite <- Hc. now apply in_map.
    + apply Hr. rewrite <- Hc. now apply in_map.
  - apply String.eqb_eq in Hc. exfalso. apply Hu. rewrite <- Hc. now apply in_map.
Qed.

(** X17: in a store reached from the empty one, a registration with a
    username that is not blank and not taken has three outcomes only:
    the capacity error when every division of the branch is full; the
    insert rejected when the roll computed for the assigned division is
    already held by a student; success otherwise.  The PRN issued never
    collides with a stored one. *)
Theorem X17_registration_outcome (h : string -> string) (cs : list call)
    (uu u pw fn ln b : string) (x : option pyval) :
  let st := run_calls h cs init_storage in
  ~ blank u ->
  ~ In (Py.lower (Py.strip u)) (map username (students st)) ->
  ~ In (Py.str (next_prn st)) (map prn (students st)) /\
  match find (fun d => (occupancy st (Py.upper b) d <? MAX_PER_DIVISION)%nat)
             DIVISIONS with
  | None =>
      fst (register_student h uu u pw fn ln b x st)
      = Raise (ValueError all_full_msg)
  | Some d =>
      let roll := branch_code b ++ d
                  ++ Py.fmt02 (occupancy st (Py.upper b) d + 1) in
      (In roll (map class_roll (students st)) ->
       fst (register_student h uu u pw fn ln b x st) = Raise IntegrityError) /\
      (~ In roll (map class_roll (students st)) ->
       exists r,
         register_student h uu u pw fn ln b x st
         = (Ok r, {| next_prn := (next_prn st + 1)%Z;
                     students := (students st ++ [r])%list |}) /\
         prn r = Py.str (next_prn st) /\ class_roll r = roll /\
         division r = d /\ username r = Py.lower (Py.strip u))
  end.
Proof.
  intros st Hb Hu.
  pose proof (run_calls_store_ok h cs _ store_ok_init) as Hok. fold st in Hok.
  pose proof (fresh_prn_not_stored st (ok_prns _ Hok)) as Hfresh.
  split; [exact Hfresh|].
  assert (Ht : Py.truthy (Py.strip u) = true).
  { destruct (Py.truthy (Py.strip u)) eqn:E; auto.
    exfalso. apply Hb. now apply blank_truthy. }
  rewrite register_student_eq, (validate_nonempty_ok u "username" Ht).
  rewrite (not_in_find_none username _ _ Hu).
  destruct (find _ DIVISIONS) as [d|]; [|reflexivity].
  cbv zeta. split.
  - intros Hin. rewrite existsb_conflicts_roll; [reflexivity|exact Hin].
  - intros Hn. rewrite existsb_conflicts_false; auto.
    eexists. split; [reflexivity|]. repeat split.
Qed.

Lemma X17_registration_outcome_witness :
  fst (register_student toy_digest "5f1c" "dan" "pw" "Dan" "Roe" "CSD" None
         st_cse)
  = Raise IntegrityError.
Proof.
  pose proof (X17_registration_outcome toy_digest
                [Call (Register "5f1c" "eve" "pw" "Eve" "Ito" "CSE" None)]
                "5f1c" "dan" "pw" "Dan" "Roe" "CSD" None) as H.
  cbv zeta in H.
  change (run_calls toy_digest
            [Call (Register "5f1c" "eve" "pw" "Eve" "Ito" "CSE" None)]
            init_storage) with st_cse in H.
  assert (Hb : ~ blank "dan") by (unfold blank; vm_compute; discriminate).
  assert (Hu : ~ In (Py.lower (Py.strip "dan")) (map username (students st_cse)))
    by (vm_compute; intuition discriminate).
  destruct (H Hb Hu) as (_ & Hcase).
  assert (Hd : find (fun d => (occupancy st_cse (Py.upper "CSD") d
                               <? MAX_PER_DIVISION)%nat) DIVISIONS = Some "1")
    by (vm_compute; reflexivity).
  rewrite Hd in Hcase. destruct Hcase as (Htaken & _).
  apply Htaken. vm_compute. left. reflexivity.
Defined.

(* ------------------------------------------------------------------ *)
(** ** Failed edits, deletions and password changes *)

Lemma finish_edit_errors (p : string) (applied : dict pyval) (st st' : Storage)
    (e : exn) :
  finish_edit p applied st = (Raise e, st') ->
  e = OperationalError \/ e = ProgrammingError \/ e = IntegrityError.
Proof.
  unfold finish_edit, bind, update_student, sql_update_students,
    find_student_by_prn.
  destruct (map _ (dump_extra applied)); [intros H; inversion H; auto|].
  destruct (negb _); [intros H; inversion H; auto|].
  destruct (bind_all _); [|intros H; inversion H; auto].
  destruct (find _ (students st)).
  - destruct (existsb _ _); intros H; inversion H; auto.
  - intros H; inversion H.
Qed.

(** X18: a failing [edit_student], [delete_student] or
    [change_student_password] leaves the whole store, PRN counter
    included, exactly as it was.  [edit_student] fails with the not-found
    error, the branch-scope error, [AttributeError] (a branch that is not
    a [str]), the capacity error of the new branch, or one of three
    [sqlite3] errors: [OperationalError] (nothing to set),
    [ProgrammingError] (a value that cannot be bound), [IntegrityError]
    (the new class roll is already held). *)
Theorem X18_failed_calls_change_nothing (h : string -> string) (st st' : Storage)
    (e : exn) :
  (forall p ups eb,
     edit_student p ups eb st = (Raise e, st') ->
     st' = st /\
     (e = ValueError not_found_msg \/ e = PermissionError edit_denied_msg \/
      e = AttributeError \/ e = ValueError all_full_msg \/
      e = OperationalError \/ e = ProgrammingError \/ e = IntegrityError)) /\
  (forall p eb,
     delete_student p eb st = (Raise e, st') ->
     st' = st /\
     (e = ValueError not_found_msg \/ e = PermissionError delete_denied_msg)) /\
  (forall uu u old new,
     change_student_password h uu u old new st = (Raise e, st') ->
     st' = st /\
     (e = ValueError not_found_msg \/ e = ValueError old_password_msg \/
      e = IntegrityError)).
Proof.
  split; [|split].
  - intros p ups eb Hed. split; [now apply edit_student_raise in Hed|].
    rewrite edit_student_eq in Hed.
    destruct (find _ (students st)) as [s|]; [|inversion Hed; auto].
    destruct (other_branch eb s); [inversion Hed; auto|].
    destruct (dict_lookup (collect_applied ups) "branch") as [[b|j]|].
    + destruct (find _ DIVISIONS) as [d|]; [|inversion Hed; auto 10].
      apply finish_edit_errors in Hed. intuition auto.
    + inversion Hed; auto.
    + apply finish_edit_errors in Hed. intuition auto.
  - intros p eb Hdel. rewrite delete_student_eq in Hdel.
    destruct (find _ (students st)) as [s|]; [|inversion Hdel; auto].
    destruct (other_branch eb s); inversion Hdel; auto.
  - intros uu u old new Hch. rewrite change_student_password_eq in Hch.
    destruct (find _ (students st)) as [s|]; [|inversion Hch; auto].
    destruct (negb _); [inversion Hch; auto|].
    destruct (find _ (students st)); [|discriminate].
    cbv zeta in Hch. destruct (existsb _ _); inversion Hch; auto.
Qed.

Lemma X18_failed_calls_witness :
  exists st',
    edit_student "1001" [("first_name", PObj "[]")] None st_one
    = (Raise ProgrammingError, st') /\ st' = st_one.
Proof.
  destruct (edit_student "1001" [("first_name", PObj "[]")] None st_one)
    as [res st'] eqn:Hed.
  assert (Hres : res = Raise ProgrammingError).
  { apply (f_equal fst) in Hed. cbn [fst] in Hed. rewrite <- Hed.
    vm_compute. reflexivity. }
  subst res. exists st'. split; [reflexivity|].
  destruct (X18_failed_calls_change_nothing toy_digest st_one st' ProgrammingError)
    as (H & _).
  now destruct (H _ _ _ Hed).
Defined.

(* ------------------------------------------------------------------ *)
(** ** The capacity bound in the allocator's measure *)

(** X19: from the empty store, after any sequence of registrations,
    edits (branch transfers among them) and deletions, no (branch,
    division) pair holds more than 70 students; and a registration for
    which the allocator's count ([count_by_branch_division], rows whose
    branch column equals [branch.upper()]) is 70 or more in each of the
    three divisions fails and inserts no record: with a username that
    passes the username checks the failure is the capacity error of
    [_assign_division]. *)
Theorem X19_capacity_bound (h : string -> string) :
  MAX_PER_DIVISION = 70 /\
  (forall ops b d, occupancy (run_ops h ops init_storage) b d <= 70) /\
  (forall uu u pw fn ln b x st,
     (forall d, In d DIVISIONS ->
                MAX_PER_DIVISION <= occupancy st (Py.upper b) d) ->
     students (snd (register_student h uu u pw fn ln b x st)) = students st /\
     (exists e, fst (register_student h uu u pw fn ln b x st) = Raise e) /\
     (forall u0,
        validate_nonempty u "username" = Ok u0 ->
        find (fun r => String.eqb (username r) (Py.lower u0)) (students st)
        = None ->
        fst (register_student h uu u pw fn ln b x st)
        = Raise (ValueError all_full_msg))).
Proof.
  split; [reflexivity|]. split.
  - intros ops b d.
    change 70 with MAX_PER_DIVISION.
    apply occupancy_le, run_ops_table_ok, table_ok_init.
  - intros uu u pw fn ln b x st Hfull.
    rewrite register_student_eq.
    rewrite (register_student_full h uu u pw fn ln b x st Hfull).
    destruct (validate_nonempty u "username") as [u0|e].
    + destruct (find _ (students st)) eqn:Hf; simpl.
      * repeat split; eauto. intros u1 H1. inversion H1; subst. congruence.
      * repeat split; eauto.
    + simpl. repeat split; eauto. discriminate.
Qed.

(** The fully packed branch CS (210 registrations): the 211th
    registration, into the branch text cs, raises the capacity error and
    inserts nothing. *)
Lemma X19_full_branch_witness :
  occupancy st_full "CS" "1" = 70 /\ occupancy st_full "CS" "2" = 70 /\
  occupancy st_full "CS" "3" = 70 /\
  fst (register_student toy_digest "5f1c" "zed" "pw" "Zed" "Poe" "cs" None st_full)
  = Raise (ValueError all_full_msg) /\
  students
    (snd (register_student toy_digest "5f1c" "zed" "pw" "Zed" "Poe" "cs" None
            st_full))
  = students st_full.
Proof.
  assert (H1 : occupancy st_full "CS" "1" = 70) by (vm_compute; reflexivity).
  assert (H2 : occupancy st_full "CS" "2" = 70) by (vm_compute; reflexivity).
  assert (H3 : occupancy st_full "CS" "3" = 70) by (vm_compute; reflexivity).
  assert (Hfull : forall d, In d DIVISIONS ->
                            MAX_PER_DIVISION <= occupancy st_full (Py.upper "cs") d).
  { change (Py.upper "cs") with "CS". change MAX_PER_DIVISION with 70.
    intros d [<-|[<-|[<-|[]]]]; [rewrite H1|rewrite H2|rewrite H3]; apply le_n. }
  assert (Hnone : find (fun r => String.eqb (username r) (Py.lower "zed"))
                       (students st_full) = None)
    by (vm_compute; reflexivity).
  destruct (X19_capacity_bound toy_digest) as (_ & _ & Hreg).
  destruct (Hreg "5f1c" "zed" "pw" "Zed" "Poe" "cs" None st_full Hfull)
    as (Hs & _ & He).
  split; [exact H1|]. split; [exact H2|]. split; [exact H3|].
  split; [|exact Hs].
  apply (He "zed"); [reflexivity|exact Hnone].
Defined.
